(** * LegalPlates client: session store, API client and upload validation

    A shallow embedding of the TypeScript sources
    - [src/lib/types.ts]      (wire types),
    - [src/lib/api.ts]        (axios wrappers and the SSE match stream),
    - the upload page         (component [UploadPage]: file validation),
    - [src/app/chat/page.tsx] (chat session state, its handlers and the
                               downloads),
    - the templates page      (component [TemplatesPage]: list and search),
    - the stepwise draft page (component [ChatPage] with its [Step]),
    - the dashboard           (component [Dashboard]: input and navigation),
    followed by the properties established about them.

    Conventions.  A JavaScript [string] is a [string] whose characters are
    the code units of the original (all below 256).  A JavaScript [number]
    is a binary64 float.  An optional or nullable field ([T | null],
    [field?: T]) is an [option]; a [Record<string, V>] is a finite map,
    whose keys are not among the names every object inherits
    ([constructor], [toString] and the like).
    React state is one record; a state setter is a record update, and a
    functional update [setX(prev => f prev)] is the update [f] applied to the
    pending state.  Values that the browser supplies ([Date.now()],
    [Math.random()], network replies) are arguments of the handlers. *)

From Stdlib Require Import ZArith String Ascii PrimFloat Lia.
From stdpp Require Import base option list gmap strings pretty.

Local Open Scope string_scope.
Local Open Scope Z_scope.
Local Open Scope list_scope.

(* ===================================================================== *)
(** ** JavaScript primitives used by the sources *)
(* ===================================================================== *)

Module Js.

Abbreviation number := float.

(** [new Error(message)] *)
Record Error : Type := new_Error { message : string }.

(** A settled promise: the value an [await] yields, or the error it
    throws. *)
Inductive Promise (T : Type) : Type :=
| Resolve (v : T)
| Reject (e : Error).
Arguments Resolve {T} v.
Arguments Reject {T} e.

(** [const x = await p; k x] *)
Definition await {A B : Type} (p : Promise A) (k : A -> Promise B)
  : Promise B :=
  match p with
  | Resolve v => k v
  | Reject e => Reject e
  end.

(** Truthiness of a string: only [''] is falsy. *)
Definition truthy_string (s : string) : bool :=
  if decide (s = "") then false else true.

(** Truthiness of a number: [0], [-0] and [NaN] are falsy. *)
Definition truthy_number (x : number) : bool :=
  negb (PrimFloat.eqb x 0%float || negb (PrimFloat.eqb x x)).

(** [s || d] on strings. *)
Definition or_string (s d : string) : string :=
  if truthy_string s then s else d.

(** [s || null] (also [s || undefined]) on a possibly missing string. *)
Definition or_null (s : option string) : option string :=
  match s with
  | Some v => if truthy_string v then Some v else None
  | None => None
  end.

(** [o || d] on a possibly missing object or array (always truthy when
    present). *)
Definition or_default {A : Type} (o : option A) (d : A) : A :=
  match o with
  | Some v => v
  | None => d
  end.

(** White space and line terminators among the code units below 256:
    TAB, LF, VT, FF, CR, SP and NBSP. *)
Definition is_white_space (c : ascii) : bool :=
  let n := nat_of_ascii c in
  ((9 <=? n)%nat && (n <=? 13)%nat) || (n =? 32)%nat || (n =? 160)%nat.

Fixpoint trimStart (s : string) : string :=
  match s with
  | EmptyString => EmptyString
  | String c r => if is_white_space c then trimStart r else s
  end.

(** [s.trim()] *)
Definition trim (s : string) : string :=
  String.rev (trimStart (String.rev (trimStart s))).

(** [c.toLowerCase()] on one code unit below 256: A-Z and the Latin-1
    capitals (except the multiplication sign) move up by 32.  (The mappings
    that look at the neighbours of a character, such as the final sigma,
    concern code units above these.) *)
Definition lower_char (c : ascii) : ascii :=
  let n := nat_of_ascii c in
  if ((65 <=? n)%nat && (n <=? 90)%nat)
     || ((192 <=? n)%nat && (n <=? 222)%nat && negb (n =? 215)%nat)
  then ascii_of_nat (n + 32) else c.

Fixpoint toLowerCase (s : string) : string :=
  match s with
  | EmptyString => EmptyString
  | String c r => String (lower_char c) (toLowerCase r)
  end.

Definition newline : ascii := "010"%char.

(** [s.split('\n')]: always at least one piece. *)
Fixpoint split_newline (s : string) : list string :=
  match s with
  | EmptyString => [EmptyString]
  | String c r =>
      if decide (c = newline) then EmptyString :: split_newline r
      else match split_newline r with
           | [] => [String c EmptyString]
           | piece :: pieces => String c piece :: pieces
           end
  end.

(** [s.includes(sub)] *)
Fixpoint includes (s sub : string) : bool :=
  String.prefix sub s
  || match s with
     | EmptyString => false
     | String _ r => includes r sub
     end.

(** [line.startsWith(p)] *)
Definition startsWith (line p : string) : bool := String.prefix p line.

(** [line.slice(n)] for [0 <= n] *)
Fixpoint slice (n : nat) (s : string) : string :=
  match n, s with
  | O, _ => s
  | S n', String _ r => slice n' r
  | S _, EmptyString => EmptyString
  end.

(** [a[i] = v] on an array.  A negative [i] is not an array index: the
    write adds a property named by [i] and leaves the elements and the
    length alone.  An index below the length overwrites that element.
    (An index at or above the length would grow the array; the sources
    only ever write at [length - 1] or at an index [findIndex] returned.) *)
Definition array_set {A : Type} (a : list A) (i : Z) (v : A) : list A :=
  if i <? 0 then a else <[Z.to_nat i := v]> a.

(** [a.findIndex(p)]: the first index whose element satisfies [p], or -1. *)
Fixpoint findIndex {A : Type} (p : A -> bool) (a : list A) : Z :=
  match a with
  | [] => -1
  | x :: r =>
      if p x then 0
      else let i := findIndex p r in if i <? 0 then -1 else i + 1
  end.

(** [a.find(p)] *)
Definition find {A : Type} (p : A -> bool) (a : list A) : option A :=
  List.find p a.

(** [s.split(sep)] for a separator of one character: always at least one
    piece. *)
Fixpoint split (sep : ascii) (s : string) : list string :=
  match s with
  | EmptyString => [EmptyString]
  | String c r =>
      if decide (c = sep) then EmptyString :: split sep r
      else match split sep r with
           | [] => [String c EmptyString]
           | piece :: pieces => String c piece :: pieces
           end
  end.

(** [a.join(sep)] *)
Fixpoint join (sep : string) (a : list string) : string :=
  match a with
  | [] => EmptyString
  | [x] => x
  | x :: r => x +:+ sep +:+ join sep r
  end.

(** [s.replace(/\s+/g, '_')]: every maximal run of white space becomes one
    underscore.  [in_run] tells that the character before was white
    space. *)
Fixpoint replace_white_space_from (in_run : bool) (s : string) : string :=
  match s with
  | EmptyString => EmptyString
  | String c r =>
      if is_white_space c then
        if in_run then replace_white_space_from true r
        else String "_" (replace_white_space_from true r)
      else String c (replace_white_space_from false r)
  end.

Definition replace_white_space (s : string) : string :=
  replace_white_space_from false s.

(** [\d] *)
Definition is_digit (c : ascii) : bool :=
  let n := nat_of_ascii c in (48 <=? n)%nat && (n <=? 57)%nat.

(** [/^\d+\./.test(s)]; [seen] tells that a digit has been read. *)
Fixpoint digits_then_dot (seen : bool) (s : string) : bool :=
  match s with
  | EmptyString => false
  | String c r =>
      if is_digit c then digits_then_dot true r
      else seen && bool_decide (c = "."%char)
  end.

(** The length of the match of [/^#+/], 0 when there is none. *)
Fixpoint leading_hashes (s : string) : nat :=
  match s with
  | String c r => if decide (c = "#"%char) then S (leading_hashes r) else O
  | EmptyString => O
  end.

(** [s.replace(/^#+\s*/, '')] *)
Definition strip_heading (s : string) : string :=
  match leading_hashes s with
  | O => s
  | n => trimStart (slice n s)
  end.

End Js.

(* ===================================================================== *)
(** ** src/lib/types.ts *)
(* ===================================================================== *)

Module Types.
Import Js.

Record APIResponse (T : Type) : Type := mkAPIResponse {
  error : bool;
  message : string;
  body : option T;
}.
Arguments mkAPIResponse {T} _ _ _.
Arguments error {T} _.
Arguments message {T} _.
Arguments body {T} _.

(** The answer values [string | number | boolean | null]. *)
Inductive AnswerValue : Type :=
| VString (s : string)
| VNumber (n : number)
| VBoolean (b : bool)
| VNull.

Record PaginationMeta : Type := mkPaginationMeta {
  total : number;
  skip : number;
  limit : number;
  returned : number;
}.

Record VariableSchema : Type := mkVariableSchema {
  var_key : string;
  var_label : string;
  var_description : option string;
  var_example : option string;
  var_required : bool;
  var_dtype : string;
  var_regex : option string;
  var_enum_values : option (list string);
}.

Record Question : Type := mkQuestion {
  key : string;
  question : string;
  description : option string;
  example : option string;
  required : bool;
  dtype : string;
  regex : option string;
  enum_values : option (list string);
}.

Record UploadTemplate : Type := mkUploadTemplate {
  ut_template_id : string;
  ut_title : string;
  ut_doc_type : option string;
  ut_jurisdiction : option string;
  ut_file_description : option string;
}.

Record UploadResponseBody : Type := mkUploadResponseBody {
  document_id : number;
  document_name : string;
  template : UploadTemplate;
  upload_questions : list Question;
}.

Record TemplateBase : Type := mkTemplateBase {
  tb_template_id : string;
  tb_title : string;
  tb_file_description : option string;
  tb_doc_type : option string;
  tb_jurisdiction : option string;
  tb_similarity_tags : list string;
  tb_created_at : option string;
}.

Record TemplateListItem : Type := mkTemplateListItem {
  tli_base : TemplateBase;
  tli_id : number;
  tli_variables : list VariableSchema;
}.

Record TemplateDetail : Type := mkTemplateDetail {
  td_base : TemplateBase;
  td_body_md : string;
  td_template_metadata : option (gmap string AnswerValue);
  td_variables : list VariableSchema;
}.

Record TemplateListResponseBody : Type := mkTemplateListResponseBody {
  templates : list TemplateListItem;
  pagination : PaginationMeta;
}.

Record TemplateDeleteResponseBody : Type := mkTemplateDeleteResponseBody {
  deleted_template_id : string;
  success : bool;
}.

Record TemplateMatchRequest : Type := mkTemplateMatchRequest {
  tmr_user_query : string;
}.

Record TemplateMatch : Type := mkTemplateMatch {
  template_id : string;
  title : string;
  confidence : number;
  explanation : string;
  doc_type : option string;
  jurisdiction : option string;
  semantic_similarity : option number;
  source : string;
  web_url : option string;
}.

Record TemplateMatchResponseBody : Type := mkTemplateMatchResponseBody {
  top_match : option TemplateMatch;
  alternatives : list TemplateMatch;
  found : bool;
  match_message : option string;
}.

Record QuestionRequest : Type := mkQuestionRequest {
  qr_template_id : string;
  qr_user_query : option string;
}.

Record QuestionResponseBody : Type := mkQuestionResponseBody {
  questions : list Question;
  prefilled : gmap string AnswerValue;
  q_template_id : string;
  q_template_title : string;
  q_message : option string;
}.

Record GenerateDraftRequest : Type := mkGenerateDraftRequest {
  gdr_template_id : string;
  gdr_answers : gmap string AnswerValue;
  gdr_user_query : option string;
}.

Record GenerateDraftResponseBody : Type := mkGenerateDraftResponseBody {
  draft_md : string;
  instance_id : number;
  d_template_id : string;
  d_template_title : string;
  missing_variables : list string;
  has_missing_variables : bool;
}.

End Types.

(* ===================================================================== *)
(** ** src/lib/api.ts *)
(* ===================================================================== *)

Module Api.
Import Js Types.

(** The browser [File] handed to the upload call. *)
Record File : Type := mkFile {
  name : string;
  type : string;
  size : Z;
}.

Inductive RequestData : Type :=
| FormData (file : File)
| MatchData (r : TemplateMatchRequest)
| QuestionData (r : QuestionRequest)
| GenerateDraftData (r : GenerateDraftRequest).

(** The calls made on [apiClient]. *)
Inductive AxiosRequest : Type :=
| axios_post (url : string) (data : RequestData)
| axios_get (url : string)
| axios_delete (url : string).

Record AxiosResponse (T : Type) : Type := mkAxiosResponse {
  status : Z;
  data : APIResponse T;
}.
Arguments mkAxiosResponse {T} _ _.
Arguments status {T} _.
Arguments data {T} _.

(** [apiClient]: the axios instance, seen as the settled outcome of each
    call made on it.  Whether axios resolves or rejects a given HTTP
    exchange is axios's business and is not decided here. *)
Definition AxiosInstance (T : Type) : Type :=
  AxiosRequest -> Promise (AxiosResponse T).

Definition handleResponse {T : Type} (response : AxiosResponse T)
  : Promise T :=
  let data := data response in
  if error data then
    Reject (new_Error (or_string (Types.message data) "API returned an error"))
  else
    match body data with
    | None => Reject (new_Error "API returned null body")
    | Some b => Resolve b
    end.

(** The instance is made by [axios.create] with a base address and a
    header only, so axios's default [validateStatus] is in force: a status
    from 200 to 299 is a success. *)
Definition validateStatus (status : Z) : bool :=
  (200 <=? status) && (status <? 300).

(** axios's [settle]: how the instance settles a call that the backend has
    answered.  A status that [validateStatus] refuses rejects the call with
    axios's own error, before any code of this file sees the response. *)
Definition settle {T : Type} (response : AxiosResponse T)
  : Promise (AxiosResponse T) :=
  if (status response =? 0) || validateStatus (status response) then
    Resolve response
  else
    Reject (new_Error ("Request failed with status code "
                       +:+ pretty (status response))).

Section Client.
(** How a template literal renders a number. *)
Variable String_of_number : number -> string.

Definition uploadDocument (apiClient : AxiosInstance UploadResponseBody)
    (file : File) : Promise UploadResponseBody :=
  await (apiClient (axios_post "/api/v1/upload" (FormData file)))
        (fun response => handleResponse response).

Definition getTemplates (apiClient : AxiosInstance TemplateListResponseBody)
    (skip limit : option number) : Promise TemplateListResponseBody :=
  let skip := or_default skip 0%float in
  let limit := or_default limit 100%float in
  await (apiClient (axios_get ("/api/v1/template?skip="
                               +:+ String_of_number skip
                               +:+ "&limit=" +:+ String_of_number limit)))
        (fun response => handleResponse response).

Definition getTemplate (apiClient : AxiosInstance TemplateDetail)
    (templateId : string) : Promise TemplateDetail :=
  await (apiClient (axios_get ("/api/v1/template/" +:+ templateId)))
        (fun response => handleResponse response).

Definition deleteTemplate
    (apiClient : AxiosInstance TemplateDeleteResponseBody)
    (templateId : string) : Promise TemplateDeleteResponseBody :=
  await (apiClient (axios_delete ("/api/v1/template/" +:+ templateId)))
        (fun response => handleResponse response).

Definition matchTemplate
    (apiClient : AxiosInstance TemplateMatchResponseBody)
    (query : string) : Promise TemplateMatchResponseBody :=
  let requestBody := mkTemplateMatchRequest query in
  await (apiClient (axios_post "/api/v1/draft/match" (MatchData requestBody)))
        (fun response => handleResponse response).

Definition getQuestions (apiClient : AxiosInstance QuestionResponseBody)
    (templateId : string) (userQuery : option string)
  : Promise QuestionResponseBody :=
  let requestBody := mkQuestionRequest templateId (or_null userQuery) in
  await (apiClient (axios_post "/api/v1/draft/questions"
                               (QuestionData requestBody)))
        (fun response => handleResponse response).

Definition generateDraft
    (apiClient : AxiosInstance GenerateDraftResponseBody)
    (templateId : string) (answers : gmap string AnswerValue)
    (userQuery : option string) : Promise GenerateDraftResponseBody :=
  let requestBody := mkGenerateDraftRequest templateId answers userQuery in
  await (apiClient (axios_post "/api/v1/draft/generate"
                               (GenerateDraftData requestBody)))
        (fun response => handleResponse response).
End Client.

(** *** The streaming match *)

Record SSEStatusUpdate : Type := mkSSEStatusUpdate {
  sse_status : string;
  sse_message : string;
  sse_data : option TemplateMatchResponseBody;
}.

(** What the two callbacks of [matchTemplateStream] were called with. *)
Inductive Callback : Type :=
| onStatusUpdate (update : SSEStatusUpdate)
| onError (error : Error).

(** A value caught by [.catch]: an [Error] or anything else. *)
Inductive Thrown : Type :=
| ThrownError (e : Error)
| ThrownOther.

(** Where the asynchronous body of [matchTemplateStream] is suspended. *)
Inductive Phase : Type :=
| Fetching      (* waiting for [fetch] *)
| Reading       (* waiting for [reader.read()] *)
| Settled.      (* the promise chain has finished *)

Record Stream : Type := mkStream {
  canceled : bool;
  phase : Phase;
  buffer : string;
  reader_canceled : bool;   (* [reader.cancel()] has been called *)
}.

(** What can happen to a suspended stream. *)
Inductive Event : Type :=
| FetchResponse (ok : bool) (status : Z) (has_reader : bool)
| FetchFailure (t : Thrown)
| ReadValue (text : string)  (* [done = false]; [text] is the decoded chunk *)
| ReadDone
| ReadFailure (t : Thrown)
| Cancel.                    (* the caller invokes the returned handle *)

(** The call itself: [canceled = false], the request is sent, the handle
    is returned. *)
Definition matchTemplateStream (query : string)
  : Stream * (string * TemplateMatchRequest) :=
  (mkStream false Fetching "" false,
   ("/api/v1/draft/match-stream", mkTemplateMatchRequest query)).

Definition is_terminal (status : string) : bool :=
  bool_decide (status = "success") || bool_decide (status = "error")
  || bool_decide (status = "no_templates").

Section StreamBody.
(** [JSON.parse] on the payload of a data line: the update it denotes,
    or [None] when it throws. *)
Variable JSON_parse : string -> option SSEStatusUpdate.

(** The [for (const line of lines)] loop: the callbacks it makes and
    whether it left through one of its [return]s.  (The callbacks
    themselves are taken not to throw, and a payload that parses not to be
    [null]; [process_lines_throwing] below does without either.) *)
Fixpoint process_lines (lines : list string) : list Callback * bool :=
  match lines with
  | [] => ([], false)
  | line :: rest =>
      if startsWith line "data: " then
        match JSON_parse (slice 6 line) with
        | Some data =>
            if is_terminal (sse_status data)
            then ([onStatusUpdate data], true)
            else let '(calls, returned) := process_lines rest in
                 (onStatusUpdate data :: calls, returned)
        | None =>
            ([onError (new_Error "Failed to parse server response")], true)
        end
      else process_lines rest
  end.

(** The [.catch] handler. *)
Definition catch (s : Stream) (t : Thrown) : Stream * list Callback :=
  (mkStream (canceled s) Settled (buffer s) (reader_canceled s),
   if canceled s then []
   else [onError match t with
                 | ThrownError e => e
                 | ThrownOther => new_Error "Connection failed"
                 end]).

(** The test [while (!canceled)] followed by the next [reader.read()]. *)
Definition loop_head (s : Stream) : Stream :=
  mkStream (canceled s) (if canceled s then Settled else Reading)
           (buffer s) (reader_canceled s).

Definition step (s : Stream) (e : Event) : Stream * list Callback :=
  match e, phase s with
  | Cancel, _ =>
      (mkStream true (phase s) (buffer s) (reader_canceled s), [])
  | FetchResponse ok status has_reader, Fetching =>
      if negb ok then
        catch s (ThrownError
                   (new_Error ("HTTP error! status: " +:+ pretty status)))
      else if negb has_reader then
        catch s (ThrownError (new_Error "No reader available"))
      else (loop_head s, [])
  | FetchFailure t, Fetching => catch s t
  | ReadValue text, Reading =>
      let pieces := split_newline (buffer s +:+ text) in
      let lines := removelast pieces in
      let buffer' := or_string (List.last pieces "") "" in
      let '(calls, returned) := process_lines lines in
      if returned
      then (mkStream (canceled s) Settled buffer' true, calls)
      else (loop_head (mkStream (canceled s) Reading buffer'
                                (reader_canceled s)), calls)
  | ReadDone, Reading =>
      (mkStream (canceled s) Settled (buffer s) (reader_canceled s), [])
  | ReadFailure t, Reading => catch s t
  | _, _ => (s, [])
  end.

(** All callbacks made while a sequence of events is delivered. *)
Fixpoint run (s : Stream) (events : list Event) : Stream * list Callback :=
  match events with
  | [] => (s, [])
  | e :: rest =>
      let '(s1, calls1) := step s e in
      let '(s2, calls2) := run s1 rest in
      (s2, calls1 ++ calls2)
  end.

(** The callbacks made by events delivered after the handle was
    invoked. *)
Fixpoint callbacks_after_cancel (s : Stream) (events : list Event)
  : list Callback :=
  match events with
  | [] => []
  | e :: rest =>
      let '(s1, calls) := step s e in
      (if canceled s then calls else [])
        ++ callbacks_after_cancel s1 rest
  end.
End StreamBody.

(** *** The streaming match when a callback throws or cancels

    The same body once more, now without taking the two callbacks to
    return: a callback may throw, and it may invoke the returned handle.
    A throw inside the [try] of the line loop lands in its [catch]; a throw
    inside that [catch] rejects the promise and lands in [.catch]. *)

(** What [JSON.parse] makes of the payload of a data line: it throws, or
    gives [null], or gives another value, read through its [status]. *)
Inductive Parsed : Type :=
| parse_throws
| parsed_null
| parsed (update : SSEStatusUpdate).

(** A callback and what it is called with ([None] for [null]). *)
Inductive Invocation : Type :=
| invoke_onStatusUpdate (data : option SSEStatusUpdate)
| invoke_onError (error : Error).

(** What a call of a callback does besides its own business: what it
    throws, if it does, and whether it invokes the handle. *)
Record Outcome : Type := mkOutcome {
  thrown : option Thrown;
  invokes_handle : bool;
}.

Record Call : Type := mkCall {
  invocation : Invocation;
  outcome : Outcome;
}.

(** How the [for] loop over the lines is left: at its end, through one of
    its [return]s, or by a throw out of its [catch] block. *)
Inductive Exit : Type :=
| loop_done
| loop_returned
| loop_threw (t : Thrown).

Section ThrowingCallbacks.
Variable JSON_parse : string -> Parsed.
(** The caller's callbacks: the outcome of a call, given the calls made
    before it. *)
Variable behaviour : list Call -> Invocation -> Outcome.

Definition call (history : list Call) (i : Invocation) : Call :=
  mkCall i (behaviour history i).

(** The [catch] block of the line loop: [onError], then
    [reader.cancel(); return] unless [onError] threw. *)
Definition catch_block (history : list Call) : list Call * Exit :=
  let c := call history
             (invoke_onError (new_Error "Failed to parse server response")) in
  ([c],
   match thrown (outcome c) with
   | Some t => loop_threw t
   | None => loop_returned
   end).

(** The [for (const line of lines)] loop; [history] holds the calls made
    before it.  After [onStatusUpdate(null)] the test [data.status] throws
    a [TypeError], whether or not the callback returned. *)
Fixpoint process_lines_throwing (history : list Call) (lines : list string)
  : list Call * Exit :=
  match lines with
  | [] => ([], loop_done)
  | line :: rest =>
      if startsWith line "data: " then
        match JSON_parse (slice 6 line) with
        | parse_throws => catch_block history
        | parsed_null =>
            let c := call history (invoke_onStatusUpdate None) in
            let '(calls, exit) := catch_block (history ++ [c]) in
            (c :: calls, exit)
        | parsed data =>
            let c := call history (invoke_onStatusUpdate (Some data)) in
            match thrown (outcome c) with
            | Some _ =>
                let '(calls, exit) := catch_block (history ++ [c]) in
                (c :: calls, exit)
            | None =>
                if is_terminal (sse_status data) then ([c], loop_returned)
                else
                  let '(calls, exit) :=
                    process_lines_throwing (history ++ [c]) rest in
                  (c :: calls, exit)
            end
        end
      else process_lines_throwing history rest
  end.

(** [canceled] after some calls: set if it was, or if one of them invoked
    the handle. *)
Definition canceled_after (canceled : bool) (calls : list Call) : bool :=
  canceled || existsb (fun c => invokes_handle (outcome c)) calls.

(** The [.catch] handler. *)
Definition catch_throwing (history : list Call) (s : Stream) (t : Thrown)
  : Stream * list Call :=
  if canceled s then
    (mkStream true Settled (buffer s) (reader_canceled s), [])
  else
    let c := call history
               (invoke_onError match t with
                               | ThrownError e => e
                               | ThrownOther => new_Error "Connection failed"
                               end) in
    (mkStream (canceled_after false [c]) Settled (buffer s)
              (reader_canceled s),
     [c]).

Definition step_throwing (history : list Call) (s : Stream) (e : Event)
  : Stream * list Call :=
  match e, phase s with
  | Cancel, _ =>
      (mkStream true (phase s) (buffer s) (reader_canceled s), [])
  | FetchResponse ok status has_reader, Fetching =>
      if negb ok then
        catch_throwing history s
          (ThrownError
             (new_Error ("HTTP error! status: " +:+ pretty status)))
      else if negb has_reader then
        catch_throwing history s
          (ThrownError (new_Error "No reader available"))
      else (loop_head s, [])
  | FetchFailure t, Fetching => catch_throwing history s t
  | ReadValue text, Reading =>
      let pieces := split_newline (buffer s +:+ text) in
      let lines := removelast pieces in
      let buffer' := or_string (List.last pieces "") "" in
      let '(calls, exit) := process_lines_throwing history lines in
      let canceled' := canceled_after (canceled s) calls in
      match exit with
      | loop_done =>
          (loop_head (mkStream canceled' Reading buffer'
                               (reader_canceled s)), calls)
      | loop_returned => (mkStream canceled' Settled buffer' true, calls)
      | loop_threw t =>
          let '(s1, more) :=
            catch_throwing (history ++ calls)
              (mkStream canceled' Reading buffer' (reader_canceled s)) t in
          (s1, calls ++ more)
      end
  | ReadDone, Reading =>
      (mkStream (canceled s) Settled (buffer s) (reader_canceled s), [])
  | ReadFailure t, Reading => catch_throwing history s t
  | _, _ => (s, [])
  end.

(** All calls made while a sequence of events is delivered. *)
Fixpoint run_throwing (history : list Call) (s : Stream)
    (events : list Event) : Stream * list Call :=
  match events with
  | [] => (s, [])
  | e :: rest =>
      let '(s1, calls1) := step_throwing history s e in
      let '(s2, calls2) := run_throwing (history ++ calls1) s1 rest in
      (s2, calls1 ++ calls2)
  end.
End ThrowingCallbacks.

End Api.

(* ===================================================================== *)
(** ** The upload page (component [UploadPage]) *)
(* ===================================================================== *)

Module Upload.

Record State : Type := mkState {
  file : option Api.File;
  loading : bool;
  error : option string;
  result : option Types.UploadResponseBody;
  dragActive : bool;
  (** Not React state: the files [uploadDocument] was called with, in
      order.  This is the only network call the page makes. *)
  uploaded : list Api.File;
}.

Definition initial : State := mkState None false None None false [].

Definition setFile (v : option Api.File) (s : State) : State :=
  mkState v (loading s) (error s) (result s) (dragActive s) (uploaded s).
Definition setLoading (v : bool) (s : State) : State :=
  mkState (file s) v (error s) (result s) (dragActive s) (uploaded s).
Definition setError (v : option string) (s : State) : State :=
  mkState (file s) (loading s) v (result s) (dragActive s) (uploaded s).
Definition setResult (v : option Types.UploadResponseBody) (s : State)
  : State :=
  mkState (file s) (loading s) (error s) v (dragActive s) (uploaded s).
Definition setDragActive (v : bool) (s : State) : State :=
  mkState (file s) (loading s) (error s) (result s) v (uploaded s).
Definition call_uploadDocument (f : Api.File) (s : State) : State :=
  mkState (file s) (loading s) (error s) (result s) (dragActive s)
          (uploaded s ++ [f]).

Definition handleDrag (event_type : string) (s : State) : State :=
  if bool_decide (event_type = "dragenter")
     || bool_decide (event_type = "dragover")
  then setDragActive true s
  else if bool_decide (event_type = "dragleave")
  then setDragActive false s
  else s.

Definition validTypes : list string :=
  ["application/pdf";
   "application/vnd.openxmlformats-officedocument.wordprocessingml.document"].

Definition maxSize : Z := 10 * 1024 * 1024.

Definition validateFile (file : Api.File) : option string :=
  if negb (bool_decide (Api.type file ∈ validTypes)) then
    Some "Please upload a PDF or DOCX file"
  else if Api.size file >? maxSize then
    Some "File size must be less than 10MB"
  else None.

(** The common tail of [handleDrop] and [handleFileInput]:
    [if (validationError) setError(validationError) else setFile(f)]. *)
Definition validate_and_select (f : Api.File) (s : State) : State :=
  match Js.or_null (validateFile f) with
  | Some validationError => setError (Some validationError) s
  | None => setFile (Some f) s
  end.

(** [first] is [e.dataTransfer.files[0]], when there is one. *)
Definition handleDrop (first : option Api.File) (s : State) : State :=
  let s := setDragActive false s in
  let s := setError None s in
  let s := setResult None s in
  match first with
  | Some droppedFile => validate_and_select droppedFile s
  | None => s
  end.

(** [first] is [e.target.files[0]], when there is one. *)
Definition handleFileInput (first : option Api.File) (s : State) : State :=
  let s := setError None s in
  let s := setResult None s in
  match first with
  | Some selectedFile => validate_and_select selectedFile s
  | None => s
  end.

(** [handleUpload] up to its [await]: the call is made with the selected
    file, if any. *)
Definition handleUpload (s : State) : State :=
  match file s with
  | None => s
  | Some f =>
      let s := setLoading true s in
      let s := setError None s in
      call_uploadDocument f s
  end.

(** [handleUpload] from its [await] on: [try] continues or [catch] runs,
    then [finally]. *)
Definition handleUpload_settled (p : Js.Promise Types.UploadResponseBody)
    (s : State) : State :=
  let s :=
    match p with
    | Js.Resolve data => setFile None (setResult (Some data) s)
    | Js.Reject e =>
        setError (Some (Js.or_string (Js.message e)
                                     "Failed to upload document")) s
    end in
  setLoading false s.

Definition handleReset (s : State) : State :=
  setError None (setResult None (setFile None s)).

(** What can happen on the page. *)
Inductive Event : Type :=
| Drag (event_type : string)
| Drop (first : option Api.File)
| FileInput (first : option Api.File)
| ClickUpload
| UploadSettled (p : Js.Promise Types.UploadResponseBody)
| ClickReset.

Definition handle (e : Event) (s : State) : State :=
  match e with
  | Drag t => handleDrag t s
  | Drop f => handleDrop f s
  | FileInput f => handleFileInput f s
  | ClickUpload => handleUpload s
  | UploadSettled p => handleUpload_settled p s
  | ClickReset => handleReset s
  end.

Definition run (events : list Event) (s : State) : State :=
  fold_left (fun s e => handle e s) events s.

End Upload.

(* ===================================================================== *)
(** ** src/app/chat/page.tsx *)
(* ===================================================================== *)

Module Chat.

Module Message.
Inductive kind : Type := user | assistant | system.

#[global] Instance kind_eq_dec : EqDecision kind.
Proof. solve_decision. Defined.

Record Metadata : Type := mkMetadata {
  templateMatches : option (list Types.TemplateMatch);
  questions : option (list Types.Question);
  draft : option Types.GenerateDraftResponseBody;
  prefilled : option (gmap string Types.AnswerValue);
}.

Record t : Type := mk {
  id : string;
  type : kind;
  content : string;
  timestamp : Z;
  metadata : option Metadata;
}.
End Message.

Module ChatSession.
Record t : Type := mk {
  id : string;
  title : string;
  messages : list Message.t;
  createdAt : Z;
  updatedAt : Z;
  templateId : option string;
  questions : option (list Types.Question);
  answers : option (gmap string Types.AnswerValue);
  draft : option Types.GenerateDraftResponseBody;
}.
End ChatSession.

Inductive Tab : Type := variables | document.
Inductive ToastType : Type := toast_success | toast_error | toast_info.

(** The calls the page makes on the API client. *)
Inductive ApiCall : Type :=
| call_matchTemplateStream (query : string)
| call_getQuestions (templateId : string) (userQuery : string)
| call_generateDraft (templateId : string)
                     (answers : gmap string Types.AnswerValue)
                     (userQuery : string).

Record State : Type := mkState {
  chatHistory : list ChatSession.t;
  currentChatId : option string;
  showHistory : bool;
  messages : list Message.t;
  userQuery : string;
  error : option string;
  isLoading : bool;
  topMatch : option Types.TemplateMatch;
  alternatives : list Types.TemplateMatch;
  selectedTemplateId : option string;
  answers : gmap string Types.AnswerValue;
  questions : list Types.Question;
  prefilledFields : gmap string Types.AnswerValue;
  draft : option Types.GenerateDraftResponseBody;
  showSidebar : bool;
  activeTab : Tab;
  showCommands : bool;
  commandFilter : string;
  toast : option (string * ToastType);
  (* refs: mutable cells, written at once *)
  hasInitializedRef : option string;
  isProcessingRef : bool;
  (* not React state: the API functions called so far, in order *)
  calls : list ApiCall;
}.

(** The state setters ([setMessages], [setAnswers], ...) and the writes
    to the refs. *)
Definition setChatHistory (v : list ChatSession.t) (s : State) : State :=
  mkState v (currentChatId s) (showHistory s) (messages s) (userQuery s)
    (error s) (isLoading s) (topMatch s) (alternatives s)
    (selectedTemplateId s) (answers s) (questions s) (prefilledFields s)
    (draft s) (showSidebar s) (activeTab s) (showCommands s)
    (commandFilter s) (toast s) (hasInitializedRef s) (isProcessingRef s)
    (calls s).
Definition setCurrentChatId (v : option string) (s : State) : State :=
  mkState (chatHistory s) v (showHistory s) (messages s) (userQuery s)
    (error s) (isLoading s) (topMatch s) (alternatives s)
    (selectedTemplateId s) (answers s) (questions s) (prefilledFields s)
    (draft s) (showSidebar s) (activeTab s) (showCommands s)
    (commandFilter s) (toast s) (hasInitializedRef s) (isProcessingRef s)
    (calls s).
Definition setShowHistory (v : bool) (s : State) : State :=
  mkState (chatHistory s) (currentChatId s) v (messages s) (userQuery s)
    (error s) (isLoading s) (topMatch s) (alternatives s)
    (selectedTemplateId s) (answers s) (questions s) (prefilledFields s)
    (draft s) (showSidebar s) (activeTab s) (showCommands s)
    (commandFilter s) (toast s) (hasInitializedRef s) (isProcessingRef s)
    (calls s).
Definition setMessages (v : list Message.t) (s : State) : State :=
  mkState (chatHistory s) (currentChatId s) (showHistory s) v
    (userQuery s) (error s) (isLoading s) (topMatch s) (alternatives s)
    (selectedTemplateId s) (answers s) (questions s) (prefilledFields s)
    (draft s) (showSidebar s) (activeTab s) (showCommands s)
    (commandFilter s) (toast s) (hasInitializedRef s) (isProcessingRef s)
    (calls s).
Definition setUserQuery (v : string) (s : State) : State :=
  mkState (chatHistory s) (currentChatId s) (showHistory s) (messages s) v
    (error s) (isLoading s) (topMatch s) (alternatives s)
    (selectedTemplateId s) (answers s) (questions s) (prefilledFields s)
    (draft s) (showSidebar s) (activeTab s) (showCommands s)
    (commandFilter s) (toast s) (hasInitializedRef s) (isProcessingRef s)
    (calls s).
Definition setError (v : option string) (s : State) : State :=
  mkState (chatHistory s) (currentChatId s) (showHistory s) (messages s)
    (userQuery s) v (isLoading s) (topMatch s) (alternatives s)
    (selectedTemplateId s) (answers s) (questions s) (prefilledFields s)
    (draft s) (showSidebar s) (activeTab s) (showCommands s)
    (commandFilter s) (toast s) (hasInitializedRef s) (isProcessingRef s)
    (calls s).
Definition setIsLoading (v : bool) (s : State) : State :=
  mkState (chatHistory s) (currentChatId s) (showHistory s) (messages s)
    (userQuery s) (error s) v (topMatch s) (alternatives s)
    (selectedTemplateId s) (answers s) (questions s) (prefilledFields s)
    (draft s) (showSidebar s) (activeTab s) (showCommands s)
    (commandFilter s) (toast s) (hasInitializedRef s) (isProcessingRef s)
    (calls s).
Definition setTopMatch (v : option Types.TemplateMatch) (s : State) : State :=
  mkState (chatHistory s) (currentChatId s) (showHistory s) (messages s)
    (userQuery s) (error s) (isLoading s) v (alternatives s)
    (selectedTemplateId s) (answers s) (questions s) (prefilledFields s)
    (draft s) (showSidebar s) (activeTab s) (showCommands s)
    (commandFilter s) (toast s) (hasInitializedRef s) (isProcessingRef s)
    (calls s).
Definition setAlternatives (v : list Types.TemplateMatch) (s : State) : State :=
  mkState (chatHistory s) (currentChatId s) (showHistory s) (messages s)
    (userQuery s) (error s) (isLoading s) (topMatch s) v
    (selectedTemplateId s) (answers s) (questions s) (prefilledFields s)
    (draft s) (showSidebar s) (activeTab s) (showCommands s)
    (commandFilter s) (toast s) (hasInitializedRef s) (isProcessingRef s)
    (calls s).
Definition setSelectedTemplateId (v : option string) (s : State) : State :=
  mkState (chatHistory s) (currentChatId s) (showHistory s) (messages s)
    (userQuery s) (error s) (isLoading s) (topMatch s) (alternatives s) v
    (answers s) (questions s) (prefilledFields s) (draft s)
    (showSidebar s) (activeTab s) (showCommands s) (commandFilter s)
    (toast s) (hasInitializedRef s) (isProcessingRef s) (calls s).
Definition setAnswers (v : gmap string Types.AnswerValue) (s : State) : State :=
  mkState (chatHistory s) (currentChatId s) (showHistory s) (messages s)
    (userQuery s) (error s) (isLoading s) (topMatch s) (alternatives s)
    (selectedTemplateId s) v (questions s) (prefilledFields s) (draft s)
    (showSidebar s) (activeTab s) (showCommands s) (commandFilter s)
    (toast s) (hasInitializedRef s) (isProcessingRef s) (calls s).
Definition setQuestions (v : list Types.Question) (s : State) : State :=
  mkState (chatHistory s) (currentChatId s) (showHistory s) (messages s)
    (userQuery s) (error s) (isLoading s) (topMatch s) (alternatives s)
    (selectedTemplateId s) (answers s) v (prefilledFields s) (draft s)
    (showSidebar s) (activeTab s) (showCommands s) (commandFilter s)
    (toast s) (hasInitializedRef s) (isProcessingRef s) (calls s).
Definition setPrefilledFields (v : gmap string Types.AnswerValue) (s : State) : State :=
  mkState (chatHistory s) (currentChatId s) (showHistory s) (messages s)
    (userQuery s) (error s) (isLoading s) (topMatch s) (alternatives s)
    (selectedTemplateId s) (answers s) (questions s) v (draft s)
    (showSidebar s) (activeTab s) (showCommands s) (commandFilter s)
    (toast s) (hasInitializedRef s) (isProcessingRef s) (calls s).
Definition setDraft (v : option Types.GenerateDraftResponseBody) (s : State) : State :=
  mkState (chatHistory s) (currentChatId s) (showHistory s) (messages s)
    (userQuery s) (error s) (isLoading s) (topMatch s) (alternatives s)
    (selectedTemplateId s) (answers s) (questions s) (prefilledFields s) v
    (showSidebar s) (activeTab s) (showCommands s) (commandFilter s)
    (toast s) (hasInitializedRef s) (isProcessingRef s) (calls s).
Definition setShowSidebar (v : bool) (s : State) : State :=
  mkState (chatHistory s) (currentChatId s) (showHistory s) (messages s)
    (userQuery s) (error s) (isLoading s) (topMatch s) (alternatives s)
    (selectedTemplateId s) (answers s) (questions s) (prefilledFields s)
    (draft s) v (activeTab s) (showCommands s) (commandFilter s) (toast s)
    (hasInitializedRef s) (isProcessingRef s) (calls s).
Definition setActiveTab (v : Tab) (s : State) : State :=
  mkState (chatHistory s) (currentChatId s) (showHistory s) (messages s)
    (userQuery s) (error s) (isLoading s) (topMatch s) (alternatives s)
    (selectedTemplateId s) (answers s) (questions s) (prefilledFields s)
    (draft s) (showSidebar s) v (showCommands s) (commandFilter s)
    (toast s) (hasInitializedRef s) (isProcessingRef s) (calls s).
Definition setShowCommands (v : bool) (s : State) : State :=
  mkState (chatHistory s) (currentChatId s) (showHistory s) (messages s)
    (userQuery s) (error s) (isLoading s) (topMatch s) (alternatives s)
    (selectedTemplateId s) (answers s) (questions s) (prefilledFields s)
    (draft s) (showSidebar s) (activeTab s) v (commandFilter s) (toast s)
    (hasInitializedRef s) (isProcessingRef s) (calls s).
Definition setCommandFilter (v : string) (s : State) : State :=
  mkState (chatHistory s) (currentChatId s) (showHistory s) (messages s)
    (userQuery s) (error s) (isLoading s) (topMatch s) (alternatives s)
    (selectedTemplateId s) (answers s) (questions s) (prefilledFields s)
    (draft s) (showSidebar s) (activeTab s) (showCommands s) v (toast s)
    (hasInitializedRef s) (isProcessingRef s) (calls s).
Definition setToast (v : option (string * ToastType)) (s : State) : State :=
  mkState (chatHistory s) (currentChatId s) (showHistory s) (messages s)
    (userQuery s) (error s) (isLoading s) (topMatch s) (alternatives s)
    (selectedTemplateId s) (answers s) (questions s) (prefilledFields s)
    (draft s) (showSidebar s) (activeTab s) (showCommands s)
    (commandFilter s) v (hasInitializedRef s) (isProcessingRef s)
    (calls s).
Definition write_hasInitializedRef (v : option string) (s : State) : State :=
  mkState (chatHistory s) (currentChatId s) (showHistory s) (messages s)
    (userQuery s) (error s) (isLoading s) (topMatch s) (alternatives s)
    (selectedTemplateId s) (answers s) (questions s) (prefilledFields s)
    (draft s) (showSidebar s) (activeTab s) (showCommands s)
    (commandFilter s) (toast s) v (isProcessingRef s) (calls s).
Definition write_isProcessingRef (v : bool) (s : State) : State :=
  mkState (chatHistory s) (currentChatId s) (showHistory s) (messages s)
    (userQuery s) (error s) (isLoading s) (topMatch s) (alternatives s)
    (selectedTemplateId s) (answers s) (questions s) (prefilledFields s)
    (draft s) (showSidebar s) (activeTab s) (showCommands s)
    (commandFilter s) (toast s) (hasInitializedRef s) v (calls s).
Definition set_calls (v : list ApiCall) (s : State) : State :=
  mkState (chatHistory s) (currentChatId s) (showHistory s) (messages s)
    (userQuery s) (error s) (isLoading s) (topMatch s) (alternatives s)
    (selectedTemplateId s) (answers s) (questions s) (prefilledFields s)
    (draft s) (showSidebar s) (activeTab s) (showCommands s)
    (commandFilter s) (toast s) (hasInitializedRef s) (isProcessingRef s)
    v.

Definition initial : State :=
  mkState [] None false [] "" None false None [] None ∅ [] ∅ None false
          variables false "" None None false [].

(** Values the browser hands to one [addMessage] or one session record:
    the generated identifier and the two [new Date()] readings. *)
Record Fresh : Type := mkFresh {
  fresh_id : string;
  date1 : Z;
  date2 : Z;
}.

Definition generateChatTitle (firstMessage : string) : string :=
  Js.trim firstMessage.

Definition is_user (msg : Message.t) : bool :=
  bool_decide (Message.type msg = Message.user).

Definition has_id (chatId : string) (chat : ChatSession.t) : bool :=
  bool_decide (ChatSession.id chat = chatId).

(** The session record built from the current state; the source writes it
    out once in [updateCurrentChatInHistory] and once in [createNewChat]. *)
Definition session_record (currentChatId : string) (d : Fresh) (s : State)
  : ChatSession.t :=
  let firstUserMessage := Js.find is_user (messages s) in
  let title := match firstUserMessage with
               | Some m => generateChatTitle (Message.content m)
               | None => "New Chat"
               end in
  ChatSession.mk currentChatId title (messages s) (date1 d) (date2 d)
    (Js.or_null (selectedTemplateId s))
    (if (0 <? Z.of_nat (length (questions s))) then Some (questions s)
     else None)
    (if (0 <? Z.of_nat (size (answers s))) then Some (answers s) else None)
    (draft s).

Definition updateCurrentChatInHistory (d : Fresh) (s : State) : State :=
  match Js.or_null (currentChatId s) with
  | None => s
  | Some currentChatId =>
      if (Z.of_nat (length (messages s)) =? 0) then s
      else
        let updatedChat := session_record currentChatId d s in
        setChatHistory
          (let prev := chatHistory s in
           let existingIndex := Js.findIndex (has_id currentChatId) prev in
           if (0 <=? existingIndex)
           then Js.array_set prev existingIndex updatedChat
           else updatedChat :: prev)
          s
  end.

(** The effect that keeps the history in step with the current chat. *)
Definition history_effect (d : Fresh) (s : State) : State :=
  match Js.or_null (currentChatId s) with
  | Some _ =>
      if (0 <? Z.of_nat (length (messages s)))
      then updateCurrentChatInHistory d s
      else s
  | None => s
  end.

(** [createNewChat], called from a handler that has made no update of its
    own yet, so that the values it closes over are those of [s]. *)
Definition createNewChat (newChatId : string) (d : Fresh) (s : State)
  : State :=
  let s1 :=
    match Js.or_null (currentChatId s) with
    | Some currentChatId =>
        if (0 <? Z.of_nat (length (messages s))) then
          let currentChat := session_record currentChatId d s in
          let existingChatIndex :=
            Js.findIndex (has_id currentChatId) (chatHistory s) in
          if (0 <=? existingChatIndex) then
            setChatHistory
              (imap (fun index chat =>
                       if bool_decide (Z.of_nat index = existingChatIndex)
                       then currentChat else chat)
                    (chatHistory s)) s
          else
            setChatHistory (currentChat :: chatHistory s) s
        else s
    | None => s
    end in
  let s := setCurrentChatId (Some newChatId) s1 in
  let s := setMessages [] s in
  let s := setUserQuery "" s in
  let s := setError None s in
  let s := setIsLoading false s in
  let s := setTopMatch None s in
  let s := setAlternatives [] s in
  let s := setSelectedTemplateId None s in
  let s := setAnswers ∅ s in
  let s := setQuestions [] s in
  let s := setPrefilledFields ∅ s in
  let s := setDraft None s in
  let s := setShowSidebar false s in
  setActiveTab variables s.

Definition switchToChat (chatId : string) (s : State) : State :=
  match Js.find (has_id chatId) (chatHistory s) with
  | Some chat =>
      let s := setCurrentChatId (Some chatId) s in
      let s := setMessages (ChatSession.messages chat) s in
      let s := setSelectedTemplateId
                 (Js.or_null (ChatSession.templateId chat)) s in
      let s := setQuestions (Js.or_default (ChatSession.questions chat) []) s in
      let s := setAnswers (Js.or_default (ChatSession.answers chat) ∅) s in
      let s := setPrefilledFields ∅ s in
      let s := setDraft (ChatSession.draft chat) s in
      let shouldShowSidebar :=
        match ChatSession.questions chat with
        | Some qs => (0 <? Z.of_nat (length qs))
        | None => false
        end || bool_decide (is_Some (ChatSession.draft chat)) in
      let s := setShowSidebar shouldShowSidebar s in
      match ChatSession.draft chat with
      | Some _ => setActiveTab document s
      | None => setActiveTab variables s
      end
  | None => s
  end.

(** The three updates [addMessage] can apply to the message list.  The
    result is [None] when the update throws: reading [.content] of an
    [undefined] last element is a [TypeError]. *)
Definition addMessage_update (newMessage : Message.t) (content : string)
    (replaceLast appendToLast : bool) (prev : list Message.t)
  : option (list Message.t) :=
  if replaceLast then
    let updated := prev in
    Some (Js.array_set updated (Z.of_nat (length updated) - 1) newMessage)
  else if appendToLast then
    let updated := prev in
    if (0 <? Z.of_nat (length updated)) then
      lastMessage ← updated !! Z.to_nat (Z.of_nat (length updated) - 1);
      Some (Js.array_set updated (Z.of_nat (length updated) - 1)
              (Message.mk (Message.id lastMessage) (Message.type lastMessage)
                 (Message.content lastMessage
                  +:+ String Js.newline (String Js.newline "") +:+ content)
                 (Message.timestamp lastMessage)
                 (Message.metadata lastMessage)))
    else Some (updated ++ [newMessage])
  else Some (prev ++ [newMessage]).

(** [addMessage]: the update is applied to the pending message list; were
    it to throw, the list would not change. *)
Definition addMessage (d : Fresh) (type : Message.kind) (content : string)
    (metadata : option Message.Metadata) (replaceLast appendToLast : bool)
    (s : State) : State :=
  let newMessage :=
    Message.mk (fresh_id d) type content (date1 d) metadata in
  match addMessage_update newMessage content replaceLast appendToLast
                          (messages s) with
  | Some updated => setMessages updated s
  | None => s
  end.

Definition add_call (c : ApiCall) (s : State) : State :=
  set_calls (calls s ++ [c]) s.

(** The texts shown to the user.  (The pictographs that open some of them
    in the source are left out: no property depends on them.) *)
Definition dquote : string := String (ascii_of_nat 34) "".

Definition no_match_text : string :=
  "I couldn&apos;t find a matching template for your request. Try uploading a document first or refining your query with more specific details about the legal document you need.".

Definition error_text (message fallback : string) : string :=
  "I encountered an error: " +:+ Js.or_string message fallback
  +:+ ". Please try again.".

(** [handleGetQuestions] up to its first [await]; [userQuery] is the value
    the callback closed over. *)
Definition handleGetQuestions (userQuery templateId : string) (s : State)
  : State :=
  let s := setError None s in
  let s := setIsLoading true s in
  add_call (call_getQuestions templateId userQuery) s.

(** [handleGetQuestions] once [getQuestions] has settled. *)
Definition handleGetQuestions_settled (userQuery templateId : string)
    (p : Js.Promise Types.QuestionResponseBody) (d : Fresh) (s : State)
  : State :=
  match p with
  | Js.Resolve result =>
      let prefilledAnswers := Types.prefilled result in
      let s := setAnswers prefilledAnswers s in
      let s := setPrefilledFields (Types.prefilled result) s in
      let s := setQuestions (Types.questions result) s in
      let s := setShowSidebar true s in
      let s := setActiveTab variables s in
      if (Z.of_nat (length (Types.questions result)) =? 0) then
        (* suspended again, at [await generateDraft(templateId, {}, ...)] *)
        add_call (call_generateDraft templateId ∅ userQuery) s
      else
        let prefilledCount := Z.of_nat (size (Types.prefilled result)) in
        let message :=
          "I need some information to generate your document. Please answer the "
          +:+ pretty (Z.of_nat (length (Types.questions result)))
          +:+ " questions provided in the form" in
        let message :=
          if (0 <? prefilledCount) then
            message +:+ String Js.newline (String Js.newline "")
            +:+ "**" +:+ pretty prefilledCount
            +:+ " fields were automatically filled** from your query! You can review and modify them as needed."
          else message in
        let s := addMessage d Message.assistant message
                   (Some (Message.mkMetadata None
                            (Some (Types.questions result)) None
                            (Some (Types.prefilled result))))
                   false true s in
        setIsLoading false s
  | Js.Reject error =>
      let s := addMessage d Message.assistant
                 (error_text (Js.message error) "Failed to generate questions")
                 None true false s in
      setIsLoading false s
  end.

(** [handleGetQuestions] once the draft it asked for (no questions were
    needed) has settled. *)
Definition handleGetQuestions_draft_settled
    (p : Js.Promise Types.GenerateDraftResponseBody) (d : Fresh) (s : State)
  : State :=
  match p with
  | Js.Resolve draftResult =>
      let s := setDraft (Some draftResult) s in
      let s := addMessage d Message.assistant
                 "Your document has been generated. No variables were needed!"
                 (Some (Message.mkMetadata None None (Some draftResult) None))
                 true false s in
      let s := setActiveTab document s in
      setIsLoading false s
  | Js.Reject error =>
      let s := addMessage d Message.assistant
                 (error_text (Js.message error) "Failed to generate questions")
                 None true false s in
      setIsLoading false s
  end.

(** [handleStartMatching] up to the call of [matchTemplateStream].
    [newChat] serves [createNewChat], [d] the user message. *)
Definition handleStartMatching (queryOverride : option string)
    (newChat : string * Fresh) (d : Fresh) (s : State) : State :=
  let query := match Js.or_null queryOverride with
               | Some q => q
               | None => userQuery s
               end in
  if negb (Js.truthy_string (Js.trim query)) then
    setError (Some "Please enter a description") s
  else
    let s := match Js.or_null (currentChatId s) with
             | None => createNewChat (fst newChat) (snd newChat) s
             | Some _ => s
             end in
    if isProcessingRef s then s
    else
      let s := write_isProcessingRef true s in
      let s := setError None s in
      let s := setIsLoading true s in
      let s := match Js.or_null queryOverride with
               | None => setUserQuery "" s
               | Some _ => s
               end in
      let s := addMessage d Message.user query None false false s in
      add_call (call_matchTemplateStream query) s.

(** The first callback given to [matchTemplateStream]; [userQuery] is the
    value [handleGetQuestions] closed over. *)
Definition on_status_update (userQuery : string)
    (update : Api.SSEStatusUpdate) (d : Fresh) (s : State) : State :=
  let status := Api.sse_status update in
  if bool_decide (status = "searching") then
    addMessage d Message.assistant "Searching for matching templates..."
               None false false s
  else if bool_decide (status = "searching_web") then
    addMessage d Message.assistant "Searching the web for templates..."
               None true false s
  else
    match bool_decide (status = "success"), Api.sse_data update with
    | true, Some result =>
        match Types.found result, Types.top_match result with
        | true, Some top_match =>
            let s := setTopMatch (Some top_match) s in
            let s := setAlternatives (Types.alternatives result) s in
            let s :=
              if (0 <? Z.of_nat (length (Types.alternatives result))) then
                addMessage d Message.assistant
                  ("I found "
                   +:+ pretty (Z.of_nat (length (Types.alternatives result)) + 1)
                   +:+ " matching templates. Here are the options:")
                  (Some (Message.mkMetadata
                           (Some (top_match :: Types.alternatives result))
                           None None None))
                  true false s
              else
                let s := addMessage d Message.assistant
                           ("Perfect! I found a matching template: "
                            +:+ dquote +:+ Types.title top_match +:+ dquote
                            +:+ ". Let me generate some questions to help create your document.")
                           None true false s in
                let s := setSelectedTemplateId
                           (Some (Types.template_id top_match)) s in
                handleGetQuestions userQuery (Types.template_id top_match) s in
            let s := setIsLoading false s in
            write_isProcessingRef false s
        | _, _ =>
            let s := addMessage d Message.assistant no_match_text
                                None true false s in
            let s := setIsLoading false s in
            write_isProcessingRef false s
        end
    | _, _ =>
        if bool_decide (status = "error") then
          let s := addMessage d Message.assistant
                     (error_text (Api.sse_message update)
                                 "Failed to match template")
                     None true false s in
          let s := setIsLoading false s in
          write_isProcessingRef false s
        else if bool_decide (status = "no_templates") then
          let s := addMessage d Message.assistant no_match_text
                              None true false s in
          let s := setIsLoading false s in
          write_isProcessingRef false s
        else s
    end.

(** The second callback given to [matchTemplateStream]. *)
Definition on_error (error : Js.Error) (d : Fresh) (s : State) : State :=
  let s := addMessage d Message.assistant
             (error_text (Js.message error) "Connection failed")
             None true false s in
  let s := setIsLoading false s in
  write_isProcessingRef false s.

(** One callback made by the stream, as the page handles it. *)
Definition deliver (userQuery : string) (c : Api.Callback) (d : Fresh)
    (s : State) : State :=
  match c with
  | Api.onStatusUpdate update => on_status_update userQuery update d s
  | Api.onError error => on_error error d s
  end.

Definition handleSelectTemplate (templateId : string) (d : Fresh)
    (s : State) : State :=
  let template :=
    match Js.find (fun alt => bool_decide (Types.template_id alt = templateId))
                  (alternatives s) with
    | Some alt => Some alt
    | None => topMatch s
    end in
  let s1 :=
    match template with
    | Some template =>
        addMessage d Message.assistant
          ("Great choice! Lets use " +:+ dquote +:+ Types.title template
           +:+ dquote
           +:+ " to create your document. Let me generate some questions to gather the necessary information.")
          None false false s
    | None => s
    end in
  let s1 := setSelectedTemplateId (Some templateId) s1 in
  handleGetQuestions (userQuery s) templateId s1.

Definition handleAnswerChange (variableName : string)
    (value : Types.AnswerValue) (s : State) : State :=
  setAnswers (<[variableName := value]> (answers s)) s.

(** Truthiness of [answers[key]]; a missing key reads [undefined]. *)
Definition truthy_answer (a : option Types.AnswerValue) : bool :=
  match a with
  | None => false
  | Some Types.VNull => false
  | Some (Types.VString v) => Js.truthy_string v
  | Some (Types.VNumber n) => Js.truthy_number n
  | Some (Types.VBoolean b) => b
  end.

(** [a === ''] *)
Definition is_empty_string (a : option Types.AnswerValue) : bool :=
  match a with
  | Some (Types.VString v) => bool_decide (v = "")
  | _ => false
  end.

Section FillWithExamples.
(** [Number(text)] *)
Variable Number : string -> Js.number.

(** The value stored for an example, by declared data type. *)
Definition example_value (dtype example : string) : Types.AnswerValue :=
  if bool_decide (dtype = "number") || bool_decide (dtype = "int")
     || bool_decide (dtype = "float")
  then Types.VNumber (Number example)
  else if bool_decide (dtype = "boolean")
  then Types.VBoolean (bool_decide (Js.toLowerCase example = "true")
                       || bool_decide (Js.toLowerCase example = "yes"))
  else Types.VString example.

(** One round of the [questions.forEach] callback; [answers] is the map
    the handler closed over. *)
Definition fill_one (answers : gmap string Types.AnswerValue)
    (examples : gmap string Types.AnswerValue) (question : Types.Question)
  : gmap string Types.AnswerValue :=
  match Js.or_null (Types.example question) with
  | Some example =>
      if negb (truthy_answer (answers !! Types.key question))
         || is_empty_string (answers !! Types.key question)
      then <[Types.key question :=
               example_value (Types.dtype question) example]> examples
      else examples
  | None => examples
  end.

Definition collect_examples (answers : gmap string Types.AnswerValue)
    (questions : list Types.Question) : gmap string Types.AnswerValue :=
  fold_left (fill_one answers) questions ∅.

Definition handleFillWithExamples (s : State) : State :=
  let examples := collect_examples (answers s) (questions s) in
  (* [{ ...prev, ...examples }]: the examples win *)
  setAnswers (examples ∪ answers s) s.
End FillWithExamples.

Definition handleClearPrefilled (fieldKey : string) (s : State) : State :=
  let s := setAnswers (<[fieldKey := Types.VString ""]> (answers s)) s in
  setPrefilledFields (delete fieldKey (prefilledFields s)) s.

Definition handleClearAllPrefilled (s : State) : State :=
  let clearedAnswers :=
    ((fun _ => Types.VString "") <$> prefilledFields s) ∪ answers s in
  let s := setAnswers clearedAnswers s in
  setPrefilledFields ∅ s.

(** [handleGenerateDraft] up to its [await]. *)
Definition handleGenerateDraft (d1 d2 : Fresh) (s : State) : State :=
  match Js.or_null (selectedTemplateId s) with
  | None => s
  | Some selectedTemplateId =>
      let answers0 := answers s in
      let userQuery0 := userQuery s in
      let s := setError None s in
      let s := setIsLoading true s in
      let s := addMessage d1 Message.user
                 "Please generate my document with the provided answers."
                 None false false s in
      let s := addMessage d2 Message.assistant "Generating your document..."
                 None false false s in
      add_call (call_generateDraft selectedTemplateId answers0 userQuery0) s
  end.

(** [handleGenerateDraft] once [generateDraft] has settled. *)
Definition handleGenerateDraft_settled
    (p : Js.Promise Types.GenerateDraftResponseBody) (d : Fresh) (s : State)
  : State :=
  match p with
  | Js.Resolve result =>
      let s := setDraft (Some result) s in
      let s := addMessage d Message.assistant
                 "Your document is ready! Here it is:"
                 (Some (Message.mkMetadata None None (Some result) None))
                 true false s in
      let s := setActiveTab document s in
      setIsLoading false s
  | Js.Reject error =>
      let s := addMessage d Message.assistant
                 (error_text (Js.message error) "Failed to generate draft")
                 None true false s in
      setIsLoading false s
  end.

Definition handleReset (newChatId : string) (d : Fresh) (s : State)
  : State :=
  createNewChat newChatId d s.

Definition handleInputChange (value : string) (s : State) : State :=
  let s := setUserQuery value s in
  if bool_decide (value = "/") || Js.startsWith value "/" then
    setCommandFilter (Js.slice 1 value) (setShowCommands true s)
  else
    setCommandFilter "" (setShowCommands false s).

(** The slash commands. *)
Inductive Command : Type := command_draft | command_vars.

Definition commands : list Command := [command_draft; command_vars].

Definition command_name (c : Command) : string :=
  match c with
  | command_draft => "/draft"
  | command_vars => "/vars"
  end.

(** [answers[key] !== null && answers[key] !== undefined
     && answers[key] !== ''] for a key of the map. *)
Definition is_filled (v : Types.AnswerValue) : bool :=
  match v with
  | Types.VNull => false
  | Types.VString t => negb (bool_decide (t = ""))
  | _ => true
  end.

Definition filledCount (answers : gmap string Types.AnswerValue) : Z :=
  Z.of_nat (length (List.filter (fun kv => is_filled (snd kv))
                                (map_to_list answers))).

(** [inputRef.current?.focus()] inside a handler.  When the input does not
    hold the focus already ([gains_focus]), the call fires its [onFocus] at
    once: [handleInputFocus] runs with the query of the current render,
    [userQuery], and its updates join those pending in [s]. *)
Definition focus_input (gains_focus : bool) (userQuery : string) (s : State)
  : State :=
  if gains_focus && Js.startsWith userQuery "/" then
    setCommandFilter (Js.slice 1 userQuery) (setShowCommands true s)
  else s.

(** [cmd.action()]; [gains_focus] tells whether the input is without the
    focus when the action runs, as it is after a click on the command. *)
Definition command_action (c : Command) (gains_focus : bool) (s : State)
  : State :=
  match c with
  | command_draft =>
      let s1 := setUserQuery "" s in
      let s1 := setShowCommands false s1 in
      let s1 := setCommandFilter "" s1 in
      let s1 := focus_input gains_focus (userQuery s) s1 in
      setUserQuery "I need a new document draft for..." s1
  | command_vars =>
      let s1 := setUserQuery "" s in
      let s1 := setShowCommands false s1 in
      let s1 := setCommandFilter "" s1 in
      if (Z.of_nat (length (questions s)) =? 0) then
        setToast
          (Some ("Please select a template first to view variables. Type your document request to get started!",
                 toast_info)) s1
      else
        let s1 := setToast
                    (Some ("Variables progress: "
                           +:+ pretty (filledCount (answers s)) +:+ "/"
                           +:+ pretty (Z.of_nat (length (questions s)))
                           +:+ " filled", toast_info)) s1 in
        let s1 := setShowSidebar true s1 in
        setActiveTab variables s1
  end.

(** The global [keydown] listener; [tagName] is that of the event target. *)
Definition handleGlobalKeyPress (key tagName : string) (s : State) : State :=
  if bool_decide (key = "/") && negb (bool_decide (tagName = "INPUT"))
     && negb (bool_decide (tagName = "TEXTAREA"))
  then setCommandFilter "" (setShowCommands true (setUserQuery "/" s))
  else s.

Definition handleKeyPress (key : string) (shiftKey : bool)
    (newChat : string * Fresh) (d : Fresh) (s : State) : State :=
  if bool_decide (key = "Enter") && negb shiftKey then
    if showCommands s then
      let filteredCommands :=
        List.filter
          (fun cmd => Js.includes (Js.toLowerCase (command_name cmd))
                                  (Js.toLowerCase (commandFilter s)))
          commands in
      match filteredCommands with
      | first :: _ =>
          (* the key press comes from the input, which holds the focus *)
          command_action first false s
      | [] => s
      end
    else handleStartMatching None newChat d s
  else if bool_decide (key = "Escape") then
    setCommandFilter "" (setShowCommands false s)
  else s.

Definition handleInputFocus (s : State) : State :=
  if Js.startsWith (userQuery s) "/" then
    setCommandFilter (Js.slice 1 (userQuery s)) (setShowCommands true s)
  else s.

(** The effect that reads the page address: [initialQuery] and
    [templateId] are the [query] and [templateId] parameters ([''] when
    missing), [draftMode] is [mode === 'draft'].  An initial query is
    submitted from a timer, that is by a later [handleStartMatching]. *)
Definition url_effect (initialQuery : string) (draftMode : bool)
    (templateId : string) (newChat : string * Fresh) (d : Fresh) (s : State)
  : State :=
  if (Z.of_nat (length (messages s)) =? 0) then
    let key := Js.or_string initialQuery "" +:+ "-"
               +:+ (if draftMode then "true" else "false") +:+ "-"
               +:+ templateId in
    if bool_decide (hasInitializedRef s = Some key) then s
    else
      let s0 := write_hasInitializedRef (Some key) s in
      let ensure_chat (s1 : State) :=
        match Js.or_null (currentChatId s) with
        | None => createNewChat (fst newChat) (snd newChat) s1
        | Some _ => s1
        end in
      if Js.truthy_string templateId then
        let s1 := ensure_chat s0 in
        let s1 := addMessage d Message.assistant
                    "Template selected from upload. Loading variables form..."
                    None false false s1 in
        let s1 := setSelectedTemplateId (Some templateId) s1 in
        handleGetQuestions (userQuery s) templateId s1
      else if draftMode then
        let s1 := ensure_chat s0 in
        setUserQuery "" s1
      else s0
  else s.

(** What can happen on the page between two renders. *)
Inductive Action : Type :=
| SwitchToChat (chatId : string)
| Reset (newChatId : string) (d : Fresh)
| StartMatching (queryOverride : option string) (newChat : string * Fresh)
                (d : Fresh)
| StreamCallback (userQuery : string) (c : Api.Callback) (d : Fresh)
| QuestionsSettled (userQuery templateId : string)
                   (p : Js.Promise Types.QuestionResponseBody) (d : Fresh)
| QuestionsDraftSettled (p : Js.Promise Types.GenerateDraftResponseBody)
                        (d : Fresh)
| SelectTemplate (templateId : string) (d : Fresh)
| AnswerChange (variableName : string) (value : Types.AnswerValue)
| FillWithExamples
| ClearPrefilled (fieldKey : string)
| ClearAllPrefilled
| GenerateDraft (d1 d2 : Fresh)
| DraftSettled (p : Js.Promise Types.GenerateDraftResponseBody) (d : Fresh)
| InputChange (value : string)
| ToggleHistory
| SelectTab (tab : Tab)
| CloseToast
| RunCommand (c : Command) (gains_focus : bool)
| GlobalKeyPress (key tagName : string)
| KeyPress (key : string) (shiftKey : bool) (newChat : string * Fresh)
           (d : Fresh)
| InputFocus
| UrlEffect (initialQuery : string) (draftMode : bool) (templateId : string)
            (newChat : string * Fresh) (d : Fresh)
| HistoryEffect (d : Fresh).

Section Page.
Variable Number : string -> Js.number.

Definition handle (a : Action) (s : State) : State :=
  match a with
  | SwitchToChat chatId => switchToChat chatId s
  | Reset newChatId d => handleReset newChatId d s
  | StartMatching queryOverride newChat d =>
      handleStartMatching queryOverride newChat d s
  | StreamCallback userQuery c d => deliver userQuery c d s
  | QuestionsSettled userQuery templateId p d =>
      handleGetQuestions_settled userQuery templateId p d s
  | QuestionsDraftSettled p d => handleGetQuestions_draft_settled p d s
  | SelectTemplate templateId d => handleSelectTemplate templateId d s
  | AnswerChange variableName value =>
      handleAnswerChange variableName value s
  | FillWithExamples => handleFillWithExamples Number s
  | ClearPrefilled fieldKey => handleClearPrefilled fieldKey s
  | ClearAllPrefilled => handleClearAllPrefilled s
  | GenerateDraft d1 d2 => handleGenerateDraft d1 d2 s
  | DraftSettled p d => handleGenerateDraft_settled p d s
  | InputChange value => handleInputChange value s
  | ToggleHistory => setShowHistory (negb (showHistory s)) s
  | SelectTab tab => setActiveTab tab s
  | CloseToast => setToast None s
  | RunCommand c gains_focus => command_action c gains_focus s
  | GlobalKeyPress key tagName => handleGlobalKeyPress key tagName s
  | KeyPress key shiftKey newChat d => handleKeyPress key shiftKey newChat d s
  | InputFocus => handleInputFocus s
  | UrlEffect initialQuery draftMode templateId newChat d =>
      url_effect initialQuery draftMode templateId newChat d s
  | HistoryEffect d => history_effect d s
  end.

Definition run (actions : list Action) (s : State) : State :=
  fold_left (fun s a => handle a s) actions s.

(** While another chat is current: every state passed through, the last
    one included, has a current chat other than [chatId]. *)
Fixpoint stays_away (chatId : string) (actions : list Action) (s : State)
  : Prop :=
  currentChatId s ≠ Some chatId
  ∧ match actions with
    | [] => True
    | a :: rest => stays_away chatId rest (handle a s)
    end.
End Page.

(** *** Downloads *)

(** The parts of the [docx] library's values that the page sets. *)
Record TextRun : Type := mkTextRun {
  text : string;
  bold : bool;
  size : option Z;
}.

Record Paragraph : Type := mkParagraph {
  children : list TextRun;
  spacing_after : Z;
}.

(** [raw.split('|').map(cell => cell.trim()).filter(cell => cell)] *)
Definition table_cells (raw : string) : list string :=
  List.filter Js.truthy_string (Js.trim <$> Js.split "|"%char raw).

(** The inner [while] of [convertMarkdownToDocx], started at [j] with
    [lines] the lines from [j] on: the rows pushed, and the lines from the
    final [j] on. *)
Fixpoint table_rows (lines : list string)
  : list (list string) * list string :=
  match lines with
  | [] => ([], [])
  | raw :: rest =>
      if Js.startsWith (Js.trim raw) "|" then
        let cells := table_cells raw in
        let '(rows, after) := table_rows rest in
        ((if (0 <? Z.of_nat (length cells)) then cells :: rows else rows),
         after)
      else ([], lines)
  end.

(** The paragraphs pushed for a table. *)
Definition table_paragraphs (tableRows : list (list string))
  : list Paragraph :=
  if (1 <? Z.of_nat (length tableRows)) then
    mkParagraph
      [mkTextRun ("Table with " +:+ pretty (Z.of_nat (length tableRows))
                  +:+ " rows") true None] 200
    :: ((fun row => mkParagraph [mkTextRun (Js.join " | " row) false None]
                                100) <$> tableRows)
  else [].

(** The [for] loop of [convertMarkdownToDocx] from index [i] on, with
    [lines] the lines from [i] on; the result is what is pushed from there.
    Every turn moves [i] forward, so the number of lines left is fuel
    enough. *)
Fixpoint convert_lines (fuel : nat) (lines : list string)
  : list Paragraph :=
  match fuel, lines with
  | S fuel, raw :: rest =>
      let line := Js.trim raw in
      if Js.startsWith line "#" then
        let level :=
          if (Z.of_nat (Js.leading_hashes line) =? 0) then 1
          else Z.of_nat (Js.leading_hashes line) in
        let text := Js.strip_heading line in
        mkParagraph [mkTextRun text true (Some (32 - level * 4))] 200
        :: convert_lines fuel rest
      else if Js.startsWith line "|" && Js.includes line "|" then
        let '(tableRows, after) := table_rows lines in
        table_paragraphs tableRows ++ convert_lines fuel after
      else if Js.startsWith line "*" || Js.digits_then_dot false line then
        mkParagraph [mkTextRun line false None] 100
        :: convert_lines fuel rest
      else if Js.truthy_string line then
        mkParagraph [mkTextRun line false None] 200
        :: convert_lines fuel rest
      else convert_lines fuel rest
  | _, _ => []
  end.

Definition convertMarkdownToDocx (markdown : string) : list Paragraph :=
  let lines := Js.split_newline markdown in
  convert_lines (length lines) lines.

Inductive Format : Type := md | pdf | docx.

(** What [handleDownload] hands to the browser.  The pages of the PDF are
    drawn from a canvas and are not described here. *)
Inductive Saved : Type :=
| save_markdown (name : string) (content : string)
| save_pdf (name : string)
| save_docx (name : string) (content : list Paragraph).

Definition handleDownload (format : Format) (s : State) : option Saved :=
  match draft s with
  | None => None
  | Some draft =>
      let fileName :=
        Js.replace_white_space (Types.d_template_title draft) in
      Some match format with
           | md => save_markdown (fileName +:+ ".md") (Types.draft_md draft)
           | pdf => save_pdf (fileName +:+ ".pdf")
           | docx => save_docx (fileName +:+ ".docx")
                               (convertMarkdownToDocx (Types.draft_md draft))
           end
  end.

End Chat.

(* ===================================================================== *)
(** ** The templates page (component [TemplatesPage]) *)
(* ===================================================================== *)

Module Templates.

(** The calls the page makes on the API client. *)
Inductive ApiCall : Type :=
| call_getTemplates
| call_getTemplate (templateId : string).

Record State : Type := mkState {
  templates : list Types.TemplateListItem;
  filteredTemplates : list Types.TemplateListItem;
  loading : bool;
  error : option string;
  searchQuery : string;
  selectedTemplate : option Types.TemplateDetail;
  clickedTemplateId : option string;
  loadingDetail : bool;
  toast : option (string * Chat.ToastType);
  (** Not React state: the API calls made, and the addresses handed to
      [router.push], in order. *)
  calls : list ApiCall;
  pushed : list string;
}.

Definition initial : State :=
  mkState [] [] true None "" None None false None [] [].

Definition setTemplates (v : list Types.TemplateListItem) (s : State)
  : State :=
  mkState v (filteredTemplates s) (loading s) (error s) (searchQuery s)
          (selectedTemplate s) (clickedTemplateId s) (loadingDetail s)
          (toast s) (calls s) (pushed s).
Definition setFilteredTemplates (v : list Types.TemplateListItem)
    (s : State) : State :=
  mkState (templates s) v (loading s) (error s) (searchQuery s)
          (selectedTemplate s) (clickedTemplateId s) (loadingDetail s)
          (toast s) (calls s) (pushed s).
Definition setLoading (v : bool) (s : State) : State :=
  mkState (templates s) (filteredTemplates s) v (error s) (searchQuery s)
          (selectedTemplate s) (clickedTemplateId s) (loadingDetail s)
          (toast s) (calls s) (pushed s).
Definition setError (v : option string) (s : State) : State :=
  mkState (templates s) (filteredTemplates s) (loading s) v (searchQuery s)
          (selectedTemplate s) (clickedTemplateId s) (loadingDetail s)
          (toast s) (calls s) (pushed s).
Definition setSearchQuery (v : string) (s : State) : State :=
  mkState (templates s) (filteredTemplates s) (loading s) (error s) v
          (selectedTemplate s) (clickedTemplateId s) (loadingDetail s)
          (toast s) (calls s) (pushed s).
Definition setSelectedTemplate (v : option Types.TemplateDetail)
    (s : State) : State :=
  mkState (templates s) (filteredTemplates s) (loading s) (error s)
          (searchQuery s) v (clickedTemplateId s) (loadingDetail s)
          (toast s) (calls s) (pushed s).
Definition setClickedTemplateId (v : option string) (s : State) : State :=
  mkState (templates s) (filteredTemplates s) (loading s) (error s)
          (searchQuery s) (selectedTemplate s) v (loadingDetail s)
          (toast s) (calls s) (pushed s).
Definition setLoadingDetail (v : bool) (s : State) : State :=
  mkState (templates s) (filteredTemplates s) (loading s) (error s)
          (searchQuery s) (selectedTemplate s) (clickedTemplateId s) v
          (toast s) (calls s) (pushed s).
Definition setToast (v : option (string * Chat.ToastType)) (s : State)
  : State :=
  mkState (templates s) (filteredTemplates s) (loading s) (error s)
          (searchQuery s) (selectedTemplate s) (clickedTemplateId s)
          (loadingDetail s) v (calls s) (pushed s).
Definition add_call (c : ApiCall) (s : State) : State :=
  mkState (templates s) (filteredTemplates s) (loading s) (error s)
          (searchQuery s) (selectedTemplate s) (clickedTemplateId s)
          (loadingDetail s) (toast s) (calls s ++ [c]) (pushed s).
Definition router_push (address : string) (s : State) : State :=
  mkState (templates s) (filteredTemplates s) (loading s) (error s)
          (searchQuery s) (selectedTemplate s) (clickedTemplateId s)
          (loadingDetail s) (toast s) (calls s) (pushed s ++ [address]).

(** [field?.toLowerCase().includes(query)] on a possibly missing field. *)
Definition field_includes (field : option string) (query : string) : bool :=
  match field with
  | Some v => Js.includes (Js.toLowerCase v) query
  | None => false
  end.

(** The predicate handed to [templates.filter]. *)
Definition matches (query : string) (t : Types.TemplateListItem) : bool :=
  let b := Types.tli_base t in
  Js.includes (Js.toLowerCase (Types.tb_title b)) query
  || field_includes (Types.tb_doc_type b) query
  || field_includes (Types.tb_jurisdiction b) query
  || existsb (fun tag => Js.includes (Js.toLowerCase tag) query)
             (Types.tb_similarity_tags b).

(** The effect on [searchQuery, templates]. *)
Definition search_effect (s : State) : State :=
  if decide (Js.trim (searchQuery s) = "") then
    setFilteredTemplates (templates s) s
  else
    let query := Js.toLowerCase (searchQuery s) in
    let filtered := List.filter (matches query) (templates s) in
    setFilteredTemplates filtered s.

(** [fetchTemplates] up to its [await]. *)
Definition fetchTemplates (s : State) : State :=
  let s := setLoading true s in
  let s := setError None s in
  add_call call_getTemplates s.

(** [fetchTemplates] from its [await] on. *)
Definition fetchTemplates_settled
    (p : Js.Promise Types.TemplateListResponseBody) (s : State) : State :=
  let s :=
    match p with
    | Js.Resolve data =>
        let s := setTemplates (Types.templates data) s in
        setFilteredTemplates (Types.templates data) s
    | Js.Reject e =>
        setError (Some (Js.or_string (Js.message e)
                                     "Failed to load templates")) s
    end in
  setLoading false s.

Definition handleSelectTemplate (templateId : string) (s : State) : State :=
  let s := setClickedTemplateId (Some templateId) s in
  let s := setLoadingDetail true s in
  add_call (call_getTemplate templateId) s.

Definition handleSelectTemplate_settled
    (p : Js.Promise Types.TemplateDetail) (s : State) : State :=
  let s :=
    match p with
    | Js.Resolve template => setSelectedTemplate (Some template) s
    | Js.Reject e =>
        setToast (Some (Js.or_string (Js.message e)
                                     "Failed to load template details",
                        Chat.toast_error)) s
    end in
  setLoadingDetail false s.

(** The [download] attribute that [handleDownloadTemplate] sets.  No
    element of the page invokes this handler. *)
Definition handleDownloadTemplate (template : Types.TemplateDetail)
  : string :=
  Js.replace_white_space (Types.tb_title (Types.td_base template))
  +:+ ".json".

Definition handleUseTemplate (templateId : string) (s : State) : State :=
  router_push ("/chat?templateId=" +:+ templateId
               +:+ "&mode=template_selection") s.

(** What can happen on the page. *)
Inductive Event : Type :=
| Mount
| Search (value : string)
| TemplatesSettled (p : Js.Promise Types.TemplateListResponseBody)
| ClickTemplate (templateId : string)
| DetailSettled (p : Js.Promise Types.TemplateDetail)
| CloseDetail
| ClickUse (templateId : string)
| CloseToast.

(** What an event commits before the page renders again: the state updates
    of its handler, batched.  At mount the two effects run one after the
    other and their updates are committed together. *)
Definition commit (e : Event) (s : State) : State :=
  match e with
  | Mount => search_effect (fetchTemplates s)
  | Search value => setSearchQuery value s
  | TemplatesSettled p => fetchTemplates_settled p s
  | ClickTemplate templateId => handleSelectTemplate templateId s
  | DetailSettled p => handleSelectTemplate_settled p s
  | CloseDetail => setSelectedTemplate None s
  | ClickUse templateId => handleUseTemplate templateId s
  | CloseToast => setToast None s
  end.

(** Whether that commit changed a dependency of the search effect, which
    then runs after the render: the query is compared by value, the array
    of templates is a new one whenever it is set. *)
Definition search_effect_due (e : Event) (s : State) : bool :=
  match e with
  | Search value => negb (bool_decide (value = searchQuery s))
  | TemplatesSettled (Js.Resolve _) => true
  | _ => false
  end.

(** The states the page renders for an event, in order: what the handler
    committed and, when the search effect is due, what the effect commits
    after that render. *)
Definition renders (e : Event) (s : State) : list State :=
  if search_effect_due e s then [commit e s; search_effect (commit e s)]
  else [commit e s].

(** The state the page rests in after an event, in which the next event
    finds it: the last of these renders. *)
Definition handle (e : Event) (s : State) : State :=
  if search_effect_due e s then search_effect (commit e s)
  else commit e s.

Definition run (events : list Event) (s : State) : State :=
  fold_left (fun s e => handle e s) events s.

End Templates.

(* ===================================================================== *)
(** ** The stepwise draft page (the [ChatPage] component with [Step]) *)
(* ===================================================================== *)

Module Stepwise.

Inductive Step : Type :=
| step_input | step_matching | step_select_template | step_questions
| step_generating | step_result.

(** The calls the page makes on the API client. *)
Inductive ApiCall : Type :=
| call_matchTemplate (query : string)
| call_getQuestions (templateId : string) (userQuery : string)
| call_generateDraft (templateId : string)
                     (answers : gmap string Types.AnswerValue)
                     (userQuery : string).

Record State : Type := mkState {
  step : Step;
  userQuery : string;
  error : option string;
  topMatch : option Types.TemplateMatch;
  alternatives : list Types.TemplateMatch;
  selectedTemplateId : option string;
  questions : list Types.Question;
  answers : gmap string Types.AnswerValue;
  draft : option Types.GenerateDraftResponseBody;
  (** Not React state: the API calls made, in order. *)
  calls : list ApiCall;
}.

Definition initial : State :=
  mkState step_input "" None None [] None [] ∅ None [].

Definition setStep (v : Step) (s : State) : State :=
  mkState v (userQuery s) (error s) (topMatch s) (alternatives s)
          (selectedTemplateId s) (questions s) (answers s) (draft s)
          (calls s).
Definition setUserQuery (v : string) (s : State) : State :=
  mkState (step s) v (error s) (topMatch s) (alternatives s)
          (selectedTemplateId s) (questions s) (answers s) (draft s)
          (calls s).
Definition setError (v : option string) (s : State) : State :=
  mkState (step s) (userQuery s) v (topMatch s) (alternatives s)
          (selectedTemplateId s) (questions s) (answers s) (draft s)
          (calls s).
Definition setTopMatch (v : option Types.TemplateMatch) (s : State)
  : State :=
  mkState (step s) (userQuery s) (error s) v (alternatives s)
          (selectedTemplateId s) (questions s) (answers s) (draft s)
          (calls s).
Definition setAlternatives (v : list Types.TemplateMatch) (s : State)
  : State :=
  mkState (step s) (userQuery s) (error s) (topMatch s) v
          (selectedTemplateId s) (questions s) (answers s) (draft s)
          (calls s).
Definition setSelectedTemplateId (v : option string) (s : State) : State :=
  mkState (step s) (userQuery s) (error s) (topMatch s) (alternatives s)
          v (questions s) (answers s) (draft s) (calls s).
Definition setQuestions (v : list Types.Question) (s : State) : State :=
  mkState (step s) (userQuery s) (error s) (topMatch s) (alternatives s)
          (selectedTemplateId s) v (answers s) (draft s) (calls s).
Definition setAnswers (v : gmap string Types.AnswerValue) (s : State)
  : State :=
  mkState (step s) (userQuery s) (error s) (topMatch s) (alternatives s)
          (selectedTemplateId s) (questions s) v (draft s) (calls s).
Definition setDraft (v : option Types.GenerateDraftResponseBody)
    (s : State) : State :=
  mkState (step s) (userQuery s) (error s) (topMatch s) (alternatives s)
          (selectedTemplateId s) (questions s) (answers s) v (calls s).
Definition add_call (c : ApiCall) (s : State) : State :=
  mkState (step s) (userQuery s) (error s) (topMatch s) (alternatives s)
          (selectedTemplateId s) (questions s) (answers s) (draft s)
          (calls s ++ [c]).

(** [handleGetQuestions] up to its [await]; [userQuery] is the query of
    the render whose handler runs. *)
Definition handleGetQuestions (userQuery templateId : string) (s : State)
  : State :=
  let s := setError None s in
  let s := setStep step_questions s in
  add_call (call_getQuestions templateId userQuery) s.

(** [handleGetQuestions] from its [await] on. *)
Definition handleGetQuestions_settled
    (p : Js.Promise Types.QuestionResponseBody) (s : State) : State :=
  match p with
  | Js.Resolve result =>
      let s := setQuestions (Types.questions result) s in
      setAnswers (Types.prefilled result) s
  | Js.Reject e =>
      let s := setError (Some (Js.or_string (Js.message e)
                                 "Failed to generate questions")) s in
      setStep step_input s
  end.

(** [handleStartMatching] up to its [await]. *)
Definition handleStartMatching (s : State) : State :=
  if negb (Js.truthy_string (Js.trim (userQuery s))) then
    setError (Some "Please enter a description") s
  else
    let s1 := setError None s in
    let s1 := setStep step_matching s1 in
    add_call (call_matchTemplate (userQuery s)) s1.

(** [handleStartMatching] from its [await] on, up to the [await] of
    [handleGetQuestions] when that is reached; [userQuery] is the query of
    the render whose handler was started. *)
Definition handleStartMatching_settled (userQuery : string)
    (p : Js.Promise Types.TemplateMatchResponseBody) (s : State) : State :=
  match p with
  | Js.Resolve result =>
      match Types.found result, Types.top_match result with
      | true, Some top_match =>
          let s := setTopMatch (Some top_match) s in
          let s := setAlternatives (Types.alternatives result) s in
          if (Z.of_nat (length (Types.alternatives result)) >? 0) then
            setStep step_select_template s
          else
            let s := setSelectedTemplateId
                       (Some (Types.template_id top_match)) s in
            handleGetQuestions userQuery (Types.template_id top_match) s
      | _, _ =>
          let s := setError
                     (Some "No matching template found. Try uploading a document first or refining your query.")
                     s in
          setStep step_input s
      end
  | Js.Reject e =>
      let s := setError (Some (Js.or_string (Js.message e)
                                 "Failed to match template")) s in
      setStep step_input s
  end.

Definition handleSelectTemplate (templateId : string) (s : State) : State :=
  let s1 := setSelectedTemplateId (Some templateId) s in
  handleGetQuestions (userQuery s) templateId s1.

Definition handleAnswerChange (variableName : string)
    (value : Types.AnswerValue) (s : State) : State :=
  setAnswers (<[variableName := value]> (answers s)) s.

(** [handleGenerateDraft] up to its [await]. *)
Definition handleGenerateDraft (s : State) : State :=
  match Js.or_null (selectedTemplateId s) with
  | None => s
  | Some templateId =>
      let s1 := setError None s in
      let s1 := setStep step_generating s1 in
      add_call (call_generateDraft templateId (answers s) (userQuery s)) s1
  end.

(** [handleGenerateDraft] from its [await] on. *)
Definition handleGenerateDraft_settled
    (p : Js.Promise Types.GenerateDraftResponseBody) (s : State) : State :=
  match p with
  | Js.Resolve result =>
      let s := setDraft (Some result) s in
      setStep step_result s
  | Js.Reject e =>
      let s := setError (Some (Js.or_string (Js.message e)
                                 "Failed to generate draft")) s in
      setStep step_questions s
  end.

Definition handleReset (s : State) : State :=
  let s := setStep step_input s in
  let s := setUserQuery "" s in
  let s := setError None s in
  let s := setTopMatch None s in
  let s := setAlternatives [] s in
  let s := setSelectedTemplateId None s in
  let s := setQuestions [] s in
  let s := setAnswers ∅ s in
  setDraft None s.

(** The name and the content of the file that [handleDownload] saves. *)
Definition handleDownload (s : State) : option (string * string) :=
  match draft s with
  | None => None
  | Some draft =>
      Some (Js.replace_white_space (Types.d_template_title draft) +:+ ".md",
            Types.draft_md draft)
  end.

(** What can happen on the page.  A reply carries what the handler it
    continues had in scope. *)
Inductive Event : Type :=
| InputChange (value : string)
| StartMatching
| MatchSettled (userQuery : string)
               (p : Js.Promise Types.TemplateMatchResponseBody)
| SelectTemplate (templateId : string)
| QuestionsSettled (p : Js.Promise Types.QuestionResponseBody)
| AnswerChange (variableName : string) (value : Types.AnswerValue)
| GenerateDraft
| DraftSettled (p : Js.Promise Types.GenerateDraftResponseBody)
| Reset.

Definition handle (e : Event) (s : State) : State :=
  match e with
  | InputChange value => setUserQuery value s
  | StartMatching => handleStartMatching s
  | MatchSettled userQuery p => handleStartMatching_settled userQuery p s
  | SelectTemplate templateId => handleSelectTemplate templateId s
  | QuestionsSettled p => handleGetQuestions_settled p s
  | AnswerChange variableName value =>
      handleAnswerChange variableName value s
  | GenerateDraft => handleGenerateDraft s
  | DraftSettled p => handleGenerateDraft_settled p s
  | Reset => handleReset s
  end.

Definition run (events : list Event) (s : State) : State :=
  fold_left (fun s e => handle e s) events s.

End Stepwise.

(* ===================================================================== *)
(** ** The dashboard (component [Dashboard]) *)
(* ===================================================================== *)

Module Dashboard.

Inductive InputMode : Type := chat | upload | draft.

Record State : Type := mkState {
  inputMode : InputMode;
  userQuery : string;
  showCommands : bool;
  commandFilter : string;
  selectedFile : option Api.File;
  (** Not React state: the addresses the page navigates to, by
      [router.push] or by a [Link], in order. *)
  pushed : list string;
}.

Definition initial : State := mkState chat "" false "" None [].

Definition setInputMode (v : InputMode) (s : State) : State :=
  mkState v (userQuery s) (showCommands s) (commandFilter s)
          (selectedFile s) (pushed s).
Definition setUserQuery (v : string) (s : State) : State :=
  mkState (inputMode s) v (showCommands s) (commandFilter s)
          (selectedFile s) (pushed s).
Definition setShowCommands (v : bool) (s : State) : State :=
  mkState (inputMode s) (userQuery s) v (commandFilter s)
          (selectedFile s) (pushed s).
Definition setCommandFilter (v : string) (s : State) : State :=
  mkState (inputMode s) (userQuery s) (showCommands s) v
          (selectedFile s) (pushed s).
Definition setSelectedFile (v : option Api.File) (s : State) : State :=
  mkState (inputMode s) (userQuery s) (showCommands s) (commandFilter s)
          v (pushed s).
Definition router_push (address : string) (s : State) : State :=
  mkState (inputMode s) (userQuery s) (showCommands s) (commandFilter s)
          (selectedFile s) (pushed s ++ [address]).

(** The action cards, each a [Link] to its [href]. *)
Inductive ActionCard : Type := card_upload | card_chat | card_templates.

Definition actionCards : list ActionCard :=
  [card_upload; card_chat; card_templates].

Definition href (card : ActionCard) : string :=
  match card with
  | card_upload => "/upload"
  | card_chat => "/chat"
  | card_templates => "/templates"
  end.

(** The slash commands. *)
Inductive Command : Type := command_draft | command_upload.

Definition commands : list Command := [command_draft; command_upload].

Definition command_name (c : Command) : string :=
  match c with
  | command_draft => "/draft"
  | command_upload => "/upload"
  end.

(** [cmd.action()] *)
Definition command_action (c : Command) (s : State) : State :=
  match c with
  | command_draft =>
      let s := setUserQuery "" s in
      let s := setShowCommands false s in
      let s := setCommandFilter "" s in
      setInputMode draft s
  | command_upload => router_push "/upload" s
  end.

Section Page.
Variable encodeURIComponent : string -> string.

Definition handleChatSubmit (s : State) : State :=
  if Js.truthy_string (Js.trim (userQuery s)) then
    let query := userQuery s in
    let s := setUserQuery "" s in
    router_push ("/chat?query=" +:+ encodeURIComponent query) s
  else s.

Definition handleKeyPress (key : string) (shiftKey : bool) (s : State)
  : State :=
  if bool_decide (key = "Enter") && negb shiftKey
     && match inputMode s with chat => true | _ => false end then
    if showCommands s then
      let filteredCommands :=
        List.filter
          (fun cmd => Js.includes (Js.toLowerCase (command_name cmd))
                                  (Js.toLowerCase (commandFilter s)))
          commands in
      match filteredCommands with
      | first :: _ => command_action first s
      | [] => s
      end
    else if Js.truthy_string (Js.trim (userQuery s)) then handleChatSubmit s
    else s
  else if bool_decide (key = "Escape") then
    setCommandFilter "" (setShowCommands false s)
  else s.

Definition handleInputChange (value : string) (s : State) : State :=
  let s := setUserQuery value s in
  if bool_decide (value = "/") || Js.startsWith value "/" then
    let s := setShowCommands true s in
    let s := setCommandFilter (Js.slice 1 value) s in
    if bool_decide (Js.trim value = "/upload") then
      let s := router_push "/upload" s in
      let s := setUserQuery "" s in
      let s := setShowCommands false s in
      setCommandFilter "" s
    else if bool_decide (Js.trim value = "/draft") then
      let s := setInputMode draft s in
      let s := setUserQuery "" s in
      let s := setShowCommands false s in
      setCommandFilter "" s
    else s
  else
    setCommandFilter "" (setShowCommands false s).

(** [first] is [e.target.files?.[0]], when there is one. *)
Definition handleFileChange (first : option Api.File) (s : State) : State :=
  match first with
  | Some file => setSelectedFile (Some file) s
  | None => s
  end.

Definition handleFileUpload (s : State) : State :=
  match selectedFile s with
  | Some _ => router_push "/upload" s
  | None => s
  end.

Definition handleFileRemove (s : State) : State :=
  setSelectedFile None s.

(** The global [keydown] listener; [tagName] is that of the event target. *)
Definition handleGlobalKeyPress (key tagName : string) (s : State) : State :=
  if bool_decide (key = "/") && negb (bool_decide (tagName = "INPUT"))
     && negb (bool_decide (tagName = "TEXTAREA"))
  then setCommandFilter "" (setShowCommands true (setUserQuery "/" s))
  else s.

(** What can happen on the page. *)
Inductive Event : Type :=
| KeyPress (key : string) (shiftKey : bool)
| InputChange (value : string)
| ClickSend
| RunCommand (c : Command)
| FileChange (first : option Api.File)
| ClickUpload
| ClickRemove
| GlobalKeyPress (key tagName : string)
| FollowCard (card : ActionCard).

Definition handle (e : Event) (s : State) : State :=
  match e with
  | KeyPress key shiftKey => handleKeyPress key shiftKey s
  | InputChange value => handleInputChange value s
  | ClickSend => handleChatSubmit s
  | RunCommand c => command_action c s
  | FileChange first => handleFileChange first s
  | ClickUpload => handleFileUpload s
  | ClickRemove => handleFileRemove s
  | GlobalKeyPress key tagName => handleGlobalKeyPress key tagName s
  | FollowCard card => router_push (href card) s
  end.

Definition run (events : list Event) (s : State) : State :=
  fold_left (fun s e => handle e s) events s.
End Page.

End Dashboard.

(* ===================================================================== *)
(** * Vocabulary of the properties *)
(* ===================================================================== *)

Module Spec.

(** The axios instance resolves every call with the given HTTP status and
    envelope. *)
Definition replies {T : Type} (apiClient : Api.AxiosInstance T)
    (status : Z) (envelope : Types.APIResponse T) : Prop :=
  forall request,
    apiClient request = Js.Resolve (Api.mkAxiosResponse status envelope).

(** An axios instance that does so. *)
Definition always {T : Type} (status : Z) (envelope : Types.APIResponse T)
  : Api.AxiosInstance T :=
  fun _ => Js.Resolve (Api.mkAxiosResponse status envelope).

(** The backend answers every call with the given HTTP status and
    envelope, and the axios instance settles each call accordingly. *)
Definition backend_answers {T : Type} (apiClient : Api.AxiosInstance T)
    (status : Z) (envelope : Types.APIResponse T) : Prop :=
  forall request,
    apiClient request = Api.settle (Api.mkAxiosResponse status envelope).

(** The axios instance in front of such a backend. *)
Definition backend {T : Type} (status : Z) (envelope : Types.APIResponse T)
  : Api.AxiosInstance T :=
  fun _ => Api.settle (Api.mkAxiosResponse status envelope).

(** The promise rejects with an error carrying exactly this message. *)
Definition rejects_with {T : Type} (p : Js.Promise T) (message : string)
  : Prop :=
  p = Js.Reject (Js.new_Error message).

(** The query [handleStartMatching] works on: [queryOverride || userQuery]. *)
Definition query_of (queryOverride : option string) (s : Chat.State)
  : string :=
  match Js.or_null queryOverride with
  | Some q => q
  | None => Chat.userQuery s
  end.

(** The status updates that end a match operation, branch by branch. *)
Inductive terminal_update : Api.SSEStatusUpdate -> Prop :=
| success_found message result top_match :
    Types.found result = true ->
    Types.top_match result = Some top_match ->
    terminal_update (Api.mkSSEStatusUpdate "success" message (Some result))
| success_no_match message result :
    Types.found result = false \/ Types.top_match result = None ->
    terminal_update (Api.mkSSEStatusUpdate "success" message (Some result))
| error_status message data :
    terminal_update (Api.mkSSEStatusUpdate "error" message data)
| no_templates_status message data :
    terminal_update (Api.mkSSEStatusUpdate "no_templates" message data).

(** Why a key received an example: one of the questions names it, has a
    non-empty example, and the answer the handler saw was falsy. *)
Definition example_origin (answers : gmap string Types.AnswerValue)
    (questions : list Types.Question) (k : string) : Prop :=
  Chat.truthy_answer (answers !! k) = false
  /\ exists q e, q ∈ questions /\ Types.key q = k
                 /\ Types.example q = Some e /\ e <> "".

(** The text holds no line feed. *)
Fixpoint single_line (s : string) : bool :=
  match s with
  | EmptyString => true
  | String c r => negb (bool_decide (c = Js.newline)) && single_line r
  end.

(** A call that ends the stream: the error callback, or a status update
    with a terminal status, when it returns. *)
Definition ends_stream (c : Api.Call) : bool :=
  match Api.thrown (Api.outcome c), Api.invocation c with
  | Some _, _ => false
  | None, Api.invoke_onError _ => true
  | None, Api.invoke_onStatusUpdate (Some update) =>
      Api.is_terminal (Api.sse_status update)
  | None, Api.invoke_onStatusUpdate None => false
  end.

(** Every call of the list that ends the stream is its last element. *)
Fixpoint ends_last (calls : list Api.Call) : bool :=
  match calls with
  | [] => true
  | c :: rest =>
      if ends_stream c then match rest with [] => true | _ => false end
      else ends_last rest
  end.

(** The call is one of the error callback. *)
Definition is_error_call (c : Api.Call) : bool :=
  match Api.invocation c with
  | Api.invoke_onError _ => true
  | Api.invoke_onStatusUpdate _ => false
  end.

(** The callbacks never throw and never invoke the handle. *)
Definition well_behaved (behaviour : list Api.Call -> Api.Invocation
                                     -> Api.Outcome) : Prop :=
  forall history i, behaviour history i = Api.mkOutcome None false.

(** The callback and argument of a call, when the argument is not
    [null]. *)
Definition callback_of (c : Api.Call) : option Api.Callback :=
  match Api.invocation c with
  | Api.invoke_onStatusUpdate (Some update) =>
      Some (Api.onStatusUpdate update)
  | Api.invoke_onStatusUpdate None => None
  | Api.invoke_onError error => Some (Api.onError error)
  end.

(** [JSON.parse] never gives [null], and is the given partial function
    otherwise. *)
Definition parses_as (JSON_parse : string -> Api.Parsed)
    (parse : string -> option Api.SSEStatusUpdate) : Prop :=
  forall payload,
    JSON_parse payload
    = match parse payload with
      | Some update => Api.parsed update
      | None => Api.parse_throws
      end.

(** The line is a data line of the stream. *)
Definition is_data_line (line : string) : bool :=
  Js.startsWith line "data: ".

(** The axios instance rejects every call with the given error. *)
Definition refuses {T : Type} (apiClient : Api.AxiosInstance T)
    (e : Js.Error) : Prop :=
  forall request, apiClient request = Js.Reject e.

(** An axios instance that does so. *)
Definition never {T : Type} (e : Js.Error) : Api.AxiosInstance T :=
  fun _ => Js.Reject e.

(** The text is empty or holds white space only. *)
Fixpoint blank (s : string) : bool :=
  match s with
  | EmptyString => true
  | String c r => Js.is_white_space c && blank r
  end.

(** The identifiers of the sessions in the history, in order. *)
Definition history_ids (s : Chat.State) : list string :=
  Chat.ChatSession.id <$> Chat.chatHistory s.

(** The clear button of each of the given fields, pressed in turn. *)
Definition clear_each (keys : list string) (s : Chat.State) : Chat.State :=
  fold_left (fun s k => Chat.handleClearPrefilled k s) keys s.

(** [answers[key]] counts as filled in the progress counter. *)
Definition counts_as_filled (a : option Types.AnswerValue) : Z :=
  match a with
  | Some v => if Chat.is_filled v then 1 else 0
  | None => 0
  end.

(** The history of [s'] has the identifiers of [s], or those preceded by
    one identifier that [s] did not have. *)
Definition grows_by_at_most_one (s s' : Chat.State) : Prop :=
  history_ids s' = history_ids s
  \/ exists id, history_ids s' = id :: history_ids s
                /\ id ∉ history_ids s.

(** The text holds no white space. *)
Fixpoint no_white_space (s : string) : bool :=
  match s with
  | EmptyString => true
  | String c r => negb (Js.is_white_space c) && no_white_space r
  end.

(** The file name of a download of the chat page. *)
Definition saved_name (f : Chat.Saved) : string :=
  match f with
  | Chat.save_markdown name _ => name
  | Chat.save_pdf name => name
  | Chat.save_docx name _ => name
  end.

(** The line, trimmed, starts neither a heading nor a table row. *)
Definition plain_line (raw : string) : bool :=
  negb (Js.startsWith (Js.trim raw) "#")
  && negb (Js.startsWith (Js.trim raw) "|").

(** The paragraph of a line of plain text: list items are set closer. *)
Definition plain_paragraph (line : string) : Chat.Paragraph :=
  Chat.mkParagraph
    [Chat.mkTextRun line false None]
    (if Js.startsWith line "*" || Js.digits_then_dot false line
     then 100 else 200).

(** The line, trimmed, starts a table row. *)
Definition table_line (raw : string) : bool :=
  Js.startsWith (Js.trim raw) "|".

(** The list shown is what the search gives for the query and the
    templates of the state. *)
Definition search_applied (s : Templates.State) : Prop :=
  Templates.filteredTemplates s
  = Templates.filteredTemplates (Templates.search_effect s).

(** What each step of the stepwise page relies on when it renders. *)
Definition step_invariant (s : Stepwise.State) : Prop :=
  match Stepwise.step s with
  | Stepwise.step_result => is_Some (Stepwise.draft s)
  | Stepwise.step_select_template =>
      is_Some (Stepwise.topMatch s) /\ Stepwise.alternatives s <> []
  | Stepwise.step_generating =>
      Js.or_null (Stepwise.selectedTemplateId s) <> None
  | _ => True
  end.

(** The addresses the dashboard navigates to: the three pages of the
    action cards as such, or the chat page with a query that is not
    blank. *)
Definition dashboard_address (encodeURIComponent : string -> string)
    (address : string) : Prop :=
  address = "/upload" \/ address = "/chat" \/ address = "/templates"
  \/ exists query, Js.trim query <> ""
                   /\ address = "/chat?query=" +:+ encodeURIComponent query.

End Spec.

(** The selected file and every uploaded file passed validation. *)
Definition upload_invariant (s : Upload.State) : Prop :=
  (forall f, Upload.file s = Some f -> Upload.validateFile f = None)
  /\ Forall (fun f => Upload.validateFile f = None) (Upload.uploaded s).

(* ===================================================================== *)
(** * Properties *)
(* ===================================================================== *)

(** ** Arrays *)

Section ArrayFacts.
Context {A : Type}.
Implicit Types (l : list A) (p : A -> bool).

Lemma array_set_last l (x y : A) :
  Js.array_set (l ++ [x]) (Z.of_nat (length (l ++ [x])) - 1) y = l ++ [y].
Proof.
  unfold Js.array_set. rewrite length_app. cbn [length].
  replace (Z.of_nat (length l + 1) - 1) with (Z.of_nat (length l)) by lia.
  destruct (Z.ltb_spec (Z.of_nat (length l)) 0) as [Hneg|_]; [lia|].
  rewrite Nat2Z.id.
  replace (length l) with (length l + 0)%nat by lia.
  rewrite insert_app_r. reflexivity.
Qed.

Lemma array_set_empty (i : Z) (y : A) : Js.array_set [] i y = [].
Proof. unfold Js.array_set. destruct (i <? 0); reflexivity. Qed.

Lemma findIndex_bounds p l : -1 <= Js.findIndex p l < Z.of_nat (length l).
Proof.
  induction l as [|x l IH]; cbn [Js.findIndex length]; [lia|].
  destruct (p x); [lia|].
  destruct (Z.ltb_spec (Js.findIndex p l) 0); lia.
Qed.

Lemma findIndex_found p l :
  0 <= Js.findIndex p l ->
  exists x, l !! Z.to_nat (Js.findIndex p l) = Some x /\ p x = true
            /\ Js.find p l = Some x.
Proof.
  induction l as [|x l IH]; cbn [Js.findIndex]; [lia|].
  unfold Js.find in *. cbn [List.find].
  destruct (p x) eqn:Hpx.
  - intros _. exists x. auto.
  - destruct (Z.ltb_spec (Js.findIndex p l) 0) as [Hlt|Hge]; [lia|].
    intros _. destruct (IH Hge) as (y & Hy & Hpy & Hfind).
    exists y. split; [|auto].
    replace (Z.to_nat (Js.findIndex p l + 1))
      with (S (Z.to_nat (Js.findIndex p l))) by lia.
    exact Hy.
Qed.

Lemma findIndex_missing p l :
  Js.findIndex p l < 0 -> Js.find p l = None.
Proof.
  induction l as [|x l IH]; cbn [Js.findIndex]; [reflexivity|].
  unfold Js.find in *. cbn [List.find].
  destruct (p x); [lia|].
  destruct (Z.ltb_spec (Js.findIndex p l) 0); [auto|lia].
Qed.

(** Overwriting an element that [p] rejects by one that [p] rejects does
    not change what [find p] returns. *)
Lemma find_insert_rejected p l (i : nat) (v : A) :
  p v = false ->
  (forall x, l !! i = Some x -> p x = false) ->
  Js.find p (<[i := v]> l) = Js.find p l.
Proof.
  unfold Js.find. revert i.
  induction l as [|x l IH]; intros i Hv Hi; [reflexivity|].
  destruct i as [|i]; cbn.
  - rewrite Hv, (Hi x eq_refl). reflexivity.
  - destruct (p x); [reflexivity|]. apply IH; assumption.
Qed.

Lemma find_array_set_rejected p l (i : Z) (v : A) :
  p v = false ->
  (forall x, l !! Z.to_nat i = Some x -> p x = false) ->
  Js.find p (Js.array_set l i v) = Js.find p l.
Proof.
  intros Hv Hi. unfold Js.array_set.
  destruct (i <? 0); [reflexivity|].
  apply find_insert_rejected; assumption.
Qed.

Lemma find_imap_rejected p (f : nat -> A -> A) l :
  (forall i x, l !! i = Some x -> f i x = x \/ (p x = false /\ p (f i x) = false)) ->
  Js.find p (imap f l) = Js.find p l.
Proof.
  unfold Js.find. revert f.
  induction l as [|x l IH]; intros f Hf; [reflexivity|].
  cbn [imap List.find].
  destruct (Hf 0%nat x eq_refl) as [->|[Hx ->]].
  - destruct (p x); [reflexivity|].
    apply IH. intros i y Hy. apply (Hf (S i) y Hy).
  - rewrite Hx. apply IH. intros i y Hy. apply (Hf (S i) y Hy).
Qed.

(** Overwriting the first element that [p] accepts by one that [p]
    accepts makes [find p] return the new element. *)
Lemma find_array_set_first p l (v : A) :
  p v = true ->
  0 <= Js.findIndex p l ->
  Js.find p (Js.array_set l (Js.findIndex p l) v) = Some v.
Proof.
  intros Hv. unfold Js.find, Js.array_set.
  induction l as [|x l IH]; cbn [Js.findIndex]; [lia|].
  destruct (p x) eqn:Hpx.
  - intros _. change (Z.to_nat 0) with 0%nat. cbn. rewrite Hv. reflexivity.
  - destruct (Z.ltb_spec (Js.findIndex p l) 0) as [Hlt|Hge]; [lia|].
    intros _.
    destruct (Z.ltb_spec (Js.findIndex p l + 1) 0) as [?|_]; [lia|].
    replace (Z.to_nat (Js.findIndex p l + 1))
      with (S (Z.to_nat (Js.findIndex p l))) by lia.
    cbn. rewrite Hpx.
    specialize (IH Hge).
    destruct (Z.ltb_spec (Js.findIndex p l) 0) as [?|_]; [lia|].
    exact IH.
Qed.
End ArrayFacts.

(** ** Message append *)

(** No call of [addMessage] throws. *)
Lemma addMessage_update_total (m : Chat.Message.t) (content : string)
    (replaceLast appendToLast : bool) (prev : list Chat.Message.t) :
  is_Some (Chat.addMessage_update m content replaceLast appendToLast prev).
Proof.
  unfold Chat.addMessage_update.
  destruct replaceLast; [eauto|]. destruct appendToLast; [|eauto].
  destruct (Z.ltb_spec 0 (Z.of_nat (length prev))) as [Hpos|_]; [|eauto].
  destruct (lookup_lt_is_Some_2 prev (Z.to_nat (Z.of_nat (length prev) - 1)))
    as [x Hx]; [lia|].
  rewrite Hx. cbn. eauto.
Qed.

(** C5.  In append-to-last mode on an empty message list, [addMessage] does
    not throw and behaves as a plain append: the list becomes the
    one-element list holding the new message. *)
Theorem append_to_last_on_empty_is_plain_append
    (d : Chat.Fresh) (type : Chat.Message.kind) (content : string)
    (metadata : option Chat.Message.Metadata) (s : Chat.State) :
  Chat.messages s = [] ->
  let m := Chat.Message.mk (Chat.fresh_id d) type content (Chat.date1 d)
                           metadata in
  Chat.addMessage_update m content false true (Chat.messages s) = Some [m]
  /\ Chat.messages (Chat.addMessage d type content metadata false true s) = [m]
  /\ Chat.addMessage d type content metadata false true s
     = Chat.addMessage d type content metadata false false s.
Proof.
  intros Hempty m. unfold Chat.addMessage. rewrite Hempty. cbn. auto.
Qed.

Lemma append_to_last_on_empty_is_plain_append_witness :
  Chat.messages
    (Chat.addMessage (Chat.mkFresh "m1" 1000 1000) Chat.Message.assistant
       "Searching" None false true Chat.initial)
  = [Chat.Message.mk "m1" Chat.Message.assistant "Searching" 1000 None].
Proof.
  apply (append_to_last_on_empty_is_plain_append
           (Chat.mkFresh "m1" 1000 1000) Chat.Message.assistant "Searching"
           None Chat.initial).
  reflexivity.
Defined.

(** C9.  In replace-last mode on an empty message list, [addMessage] does
    not throw and the list stays empty: the write goes to index -1, which is
    not an element, so the new message is dropped. *)
Theorem replace_last_on_empty_discards
    (d : Chat.Fresh) (type : Chat.Message.kind) (content : string)
    (metadata : option Chat.Message.Metadata) (appendToLast : bool)
    (s : Chat.State) :
  Chat.messages s = [] ->
  let m := Chat.Message.mk (Chat.fresh_id d) type content (Chat.date1 d)
                           metadata in
  Chat.addMessage_update m content true appendToLast (Chat.messages s) = Some []
  /\ Chat.messages (Chat.addMessage d type content metadata true appendToLast s)
     = [].
Proof.
  intros Hempty m. unfold Chat.addMessage. rewrite Hempty. cbn. auto.
Qed.

Lemma replace_last_on_empty_discards_witness :
  Chat.messages
    (Chat.addMessage (Chat.mkFresh "m1" 1000 1000) Chat.Message.assistant
       "Searching the web" None true false Chat.initial)
  = [].
Proof.
  apply (replace_last_on_empty_discards
           (Chat.mkFresh "m1" 1000 1000) Chat.Message.assistant
           "Searching the web" None false Chat.initial).
  reflexivity.
Defined.

(** ** Upload validation *)

Lemma validateFile_message_nonempty (f : Api.File) :
  Js.or_null (Upload.validateFile f) = Upload.validateFile f.
Proof.
  unfold Upload.validateFile.
  destruct (negb _); [reflexivity|]. destruct (_ >? _); reflexivity.
Qed.

Lemma upload_invariant_initial : upload_invariant Upload.initial.
Proof. split; [discriminate|constructor]. Qed.

Lemma validate_and_select_invariant (f : Api.File) (s : Upload.State) :
  upload_invariant s -> upload_invariant (Upload.validate_and_select f s).
Proof.
  intros [Hfile Hup]. unfold Upload.validate_and_select.
  rewrite validateFile_message_nonempty.
  destruct (Upload.validateFile f) eqn:Hv; split; cbn; auto.
  intros g [= <-]. exact Hv.
Qed.

Lemma handle_upload_invariant (e : Upload.Event) (s : Upload.State) :
  upload_invariant s -> upload_invariant (Upload.handle e s).
Proof.
  intros Hinv. pose proof Hinv as [Hfile Hup].
  destruct e as [t|first|first| |p| ]; cbn [Upload.handle].
  - unfold Upload.handleDrag.
    repeat (match goal with |- context [if ?b then _ else _] => destruct b end);
      exact Hinv.
  - unfold Upload.handleDrop.
    destruct first as [f|]; [apply validate_and_select_invariant|];
      split; cbn; auto.
  - unfold Upload.handleFileInput.
    destruct first as [f|]; [apply validate_and_select_invariant|];
      split; cbn; auto.
  - unfold Upload.handleUpload.
    destruct (Upload.file s) as [f|] eqn:Hf; [|exact Hinv].
    split; cbn; [rewrite Hf; auto|].
    apply Forall_app. split; [exact Hup|].
    constructor; [auto|constructor].
  - unfold Upload.handleUpload_settled.
    destruct p; split; cbn; auto; discriminate.
  - split; cbn; auto; discriminate.
Qed.

Lemma run_upload_invariant (events : list Upload.Event) (s : Upload.State) :
  upload_invariant s -> upload_invariant (Upload.run events s).
Proof.
  unfold Upload.run. revert s.
  induction events as [|e events IH]; intros s Hinv; [exact Hinv|].
  cbn [fold_left]. apply IH, handle_upload_invariant, Hinv.
Qed.

(** A file that fails validation is never handed to [uploadDocument]. *)
Lemma rejected_file_never_uploaded (f : Api.File) (events : list Upload.Event) :
  Upload.validateFile f <> None ->
  f ∉ Upload.uploaded (Upload.run events Upload.initial).
Proof.
  intros Hrej Hin.
  destruct (run_upload_invariant events _ upload_invariant_initial) as [_ Hup].
  rewrite Forall_forall in Hup. apply Hrej, Hup, Hin.
Qed.

(** C6.  For a file of an accepted type, a size of exactly 10 MB passes
    validation (the file becomes the selected file) and a size of 10 MB plus
    one byte fails it; a failed file is not selected, choosing it makes no
    network call, and no later event uploads it. *)
Theorem upload_size_boundary (name type : string) :
  type ∈ Upload.validTypes ->
  let at_limit := Api.mkFile name type (10 * 1024 * 1024) in
  let over_limit := Api.mkFile name type (10 * 1024 * 1024 + 1) in
  (Upload.validateFile at_limit = None
   /\ forall s, Upload.file (Upload.handleFileInput (Some at_limit) s)
                = Some at_limit
                /\ Upload.file (Upload.handleDrop (Some at_limit) s)
                   = Some at_limit)
  /\ (Upload.validateFile over_limit = Some "File size must be less than 10MB"
      /\ (forall s,
             Upload.file (Upload.handleFileInput (Some over_limit) s)
             = Upload.file s
             /\ Upload.uploaded (Upload.handleFileInput (Some over_limit) s)
                = Upload.uploaded s
             /\ Upload.file (Upload.handleDrop (Some over_limit) s)
                = Upload.file s
             /\ Upload.uploaded (Upload.handleDrop (Some over_limit) s)
                = Upload.uploaded s)
      /\ forall events,
           over_limit ∉ Upload.uploaded (Upload.run events Upload.initial)).
Proof.
  intros Htype at_limit over_limit.
  assert (Hat : Upload.validateFile at_limit = None).
  { unfold Upload.validateFile. cbn [Api.type Api.size at_limit].
    rewrite bool_decide_eq_true_2 by exact Htype. reflexivity. }
  assert (Hover : Upload.validateFile over_limit
                  = Some "File size must be less than 10MB").
  { unfold Upload.validateFile. cbn [Api.type Api.size over_limit].
    rewrite bool_decide_eq_true_2 by exact Htype. reflexivity. }
  split; [split; [exact Hat|]|split; [exact Hover|split]].
  - intros s. unfold Upload.handleFileInput, Upload.handleDrop,
      Upload.validate_and_select.
    rewrite validateFile_message_nonempty, Hat. split; reflexivity.
  - intros s. unfold Upload.handleFileInput, Upload.handleDrop,
      Upload.validate_and_select.
    rewrite validateFile_message_nonempty, Hover. repeat split; reflexivity.
  - intros events. apply rejected_file_never_uploaded.
    rewrite Hover. discriminate.
Qed.

Lemma upload_size_boundary_witness :
  Upload.validateFile (Api.mkFile "lease.pdf" "application/pdf" 10485760) = None
  /\ Upload.validateFile (Api.mkFile "lease.pdf" "application/pdf" 10485761)
     = Some "File size must be less than 10MB".
Proof.
  assert (Htype : "application/pdf" ∈ Upload.validTypes)
    by (unfold Upload.validTypes; constructor).
  destruct (upload_size_boundary "lease.pdf" "application/pdf" Htype)
    as [[Hat _] [Hover _]].
  split; [exact Hat|exact Hover].
Defined.

(** ** Response envelopes *)

Lemma handleResponse_error {T : Type} (status : Z) (X : string)
    (b : option T) :
  Api.handleResponse (Api.mkAxiosResponse status (Types.mkAPIResponse true X b))
  = Js.Reject (Js.new_Error (Js.or_string X "API returned an error")).
Proof. reflexivity. Qed.

Lemma handleResponse_null_body {T : Type} (status : Z) (M : string) :
  Api.handleResponse
    (Api.mkAxiosResponse status (Types.mkAPIResponse false M (@None T)))
  = Js.Reject (Js.new_Error "API returned null body").
Proof. reflexivity. Qed.

Lemma or_string_nonempty (X d : string) : X <> "" -> Js.or_string X d = X.
Proof.
  intros HX. unfold Js.or_string, Js.truthy_string.
  destruct (decide (X = "")); [contradiction|reflexivity].
Qed.

(** Every API function is [handleResponse] applied to what axios resolved. *)
Ltac through_axios Hreplies :=
  unfold Spec.rejects_with, Api.uploadDocument, Api.getTemplates,
    Api.getTemplate, Api.deleteTemplate, Api.matchTemplate, Api.getQuestions,
    Api.generateDraft;
  intros; rewrite Hreplies; cbn [Js.await].

(** The instance resolves a reply whose status is from 200 to 299. *)
Lemma settle_success {T : Type} (apiClient : Api.AxiosInstance T)
    (status : Z) (envelope : Types.APIResponse T) :
  Api.validateStatus status = true ->
  Spec.backend_answers apiClient status envelope ->
  Spec.replies apiClient status envelope.
Proof.
  intros Hstatus Hanswers request. rewrite Hanswers. unfold Api.settle.
  cbn [Api.status]. rewrite Hstatus, orb_true_r. reflexivity.
Qed.

(** C2, as the code has it.  When the backend answers with a status from
    200 to 299 and the envelope [{error: true, message: X}], and [X] is not
    empty, each of the seven API functions rejects with an error whose
    message is exactly [X]. *)
Theorem error_envelope_rejects_with_its_message
    (String_of_number : Js.number -> string) (status : Z) (X : string) :
  Api.validateStatus status = true ->
  X <> "" ->
  (forall apiClient b file,
      Spec.backend_answers apiClient status (Types.mkAPIResponse true X b) ->
      Spec.rejects_with (Api.uploadDocument apiClient file) X)
  /\ (forall apiClient b skip limit,
         Spec.backend_answers apiClient status
                              (Types.mkAPIResponse true X b) ->
         Spec.rejects_with
           (Api.getTemplates String_of_number apiClient skip limit) X)
  /\ (forall apiClient b templateId,
         Spec.backend_answers apiClient status
                              (Types.mkAPIResponse true X b) ->
         Spec.rejects_with (Api.getTemplate apiClient templateId) X)
  /\ (forall apiClient b templateId,
         Spec.backend_answers apiClient status
                              (Types.mkAPIResponse true X b) ->
         Spec.rejects_with (Api.deleteTemplate apiClient templateId) X)
  /\ (forall apiClient b query,
         Spec.backend_answers apiClient status
                              (Types.mkAPIResponse true X b) ->
         Spec.rejects_with (Api.matchTemplate apiClient query) X)
  /\ (forall apiClient b templateId userQuery,
         Spec.backend_answers apiClient status
                              (Types.mkAPIResponse true X b) ->
         Spec.rejects_with (Api.getQuestions apiClient templateId userQuery) X)
  /\ (forall apiClient b templateId answers userQuery,
         Spec.backend_answers apiClient status
                              (Types.mkAPIResponse true X b) ->
         Spec.rejects_with
           (Api.generateDraft apiClient templateId answers userQuery) X).
Proof.
  intros Hstatus HX.
  repeat split; intros apiClient b; intros;
    match goal with
    | H : Spec.backend_answers _ _ _ |- _ =>
        apply (settle_success _ _ _ Hstatus) in H; through_axios H
    end;
    rewrite handleResponse_error, or_string_nonempty by exact HX;
    reflexivity.
Qed.

Lemma error_envelope_rejects_with_its_message_witness :
  Api.getTemplate
    (Spec.backend 200 (Types.mkAPIResponse true "Template not found" None))
    "tpl_42"
  = Js.Reject (Js.new_Error "Template not found").
Proof.
  assert (Hstatus : Api.validateStatus 200 = true) by reflexivity.
  assert (HX : "Template not found" <> "") by discriminate.
  destruct (error_envelope_rejects_with_its_message
              (fun _ => "0") 200 "Template not found" Hstatus HX)
    as (_ & _ & Hget & _).
  apply (Hget _ None "tpl_42"). intros request. reflexivity.
Defined.

(** C2 as stated fails in two ways.  With an empty message the rejection
    carries the fallback text, not [""]; and a reply with status 500 is
    rejected by axios itself, with its own message, whatever the envelope
    says. *)
Lemma error_envelope_counterexample :
  let file := Api.mkFile "lease.pdf" "application/pdf" 1024 in
  let empty := Api.uploadDocument
                 (Spec.backend 200 (Types.mkAPIResponse true "" None))
                 file in
  let refused := Api.uploadDocument
                   (Spec.backend 500
                      (Types.mkAPIResponse true "Parsing failed" None))
                   file in
  (empty = Js.Reject (Js.new_Error "API returned an error")
   /\ ~ Spec.rejects_with empty "")
  /\ (refused
      = Js.Reject (Js.new_Error "Request failed with status code 500")
      /\ ~ Spec.rejects_with refused "Parsing failed").
Proof.
  split; (split; [vm_compute; reflexivity|]);
    unfold Spec.rejects_with; vm_compute; discriminate.
Qed.

(** C7, as the code has it.  When axios resolves with an envelope whose
    [error] is false and whose [body] is null, each of the seven API
    functions rejects, and the error's message is the fixed text
    ["API returned null body"], whatever the envelope's message. *)
Theorem null_body_rejects_with_fixed_message
    (String_of_number : Js.number -> string) (status : Z) (M : string) :
  (forall apiClient file,
      Spec.replies apiClient status (Types.mkAPIResponse false M None) ->
      Spec.rejects_with (Api.uploadDocument apiClient file)
                        "API returned null body")
  /\ (forall apiClient skip limit,
         Spec.replies apiClient status (Types.mkAPIResponse false M None) ->
         Spec.rejects_with
           (Api.getTemplates String_of_number apiClient skip limit)
           "API returned null body")
  /\ (forall apiClient templateId,
         Spec.replies apiClient status (Types.mkAPIResponse false M None) ->
         Spec.rejects_with (Api.getTemplate apiClient templateId)
                           "API returned null body")
  /\ (forall apiClient templateId,
         Spec.replies apiClient status (Types.mkAPIResponse false M None) ->
         Spec.rejects_with (Api.deleteTemplate apiClient templateId)
                           "API returned null body")
  /\ (forall apiClient query,
         Spec.replies apiClient status (Types.mkAPIResponse false M None) ->
         Spec.rejects_with (Api.matchTemplate apiClient query)
                           "API returned null body")
  /\ (forall apiClient templateId userQuery,
         Spec.replies apiClient status (Types.mkAPIResponse false M None) ->
         Spec.rejects_with (Api.getQuestions apiClient templateId userQuery)
                           "API returned null body")
  /\ (forall apiClient templateId answers userQuery,
         Spec.replies apiClient status (Types.mkAPIResponse false M None) ->
         Spec.rejects_with
           (Api.generateDraft apiClient templateId answers userQuery)
           "API returned null body").
Proof.
  repeat split; intros apiClient; intros;
    match goal with H : Spec.replies _ _ _ |- _ => through_axios H end;
    apply handleResponse_null_body.
Qed.

Lemma null_body_rejects_with_fixed_message_witness :
  Api.getTemplate
    (Spec.always 200 (Types.mkAPIResponse false "Template loaded" None))
    "tpl_42"
  = Js.Reject (Js.new_Error "API returned null body").
Proof.
  destruct (null_body_rejects_with_fixed_message
              (fun _ => "0") 200 "Template loaded")
    as (_ & _ & Hget & _).
  apply (Hget _ "tpl_42"). intros request. reflexivity.
Defined.

(** C7 as stated fails: the rejection does not carry the envelope's
    message. *)
Lemma null_body_message_counterexample :
  let p := Api.getTemplate
             (Spec.always 200 (Types.mkAPIResponse false "Template loaded" None))
             "tpl_42" in
  p = Js.Reject (Js.new_Error "API returned null body")
  /\ ~ Spec.rejects_with p "Template loaded".
Proof.
  split; [reflexivity|]. unfold Spec.rejects_with. cbn. discriminate.
Qed.

(** ** The match stream and its cancellation handle *)

Section StreamFacts.
Variable JSON_parse : string -> option Api.SSEStatusUpdate.

Lemma step_keeps_canceled (s : Api.Stream) (e : Api.Event) :
  Api.canceled s = true ->
  Api.canceled (fst (Api.step JSON_parse s e)) = true.
Proof.
  intros Hc. unfold Api.step, Api.catch, Api.loop_head.
  destruct e, (Api.phase s); cbn; try exact Hc; try reflexivity;
    repeat (match goal with
            | |- context [if ?b then _ else _] => destruct b
            | |- context [let '(_, _) := ?p in _] => destruct p
            end; cbn); auto.
Qed.

(** Once canceled, a stream that is not waiting for a read makes no
    callback and never waits for a read again. *)
Lemma step_canceled_idle (s : Api.Stream) (e : Api.Event) :
  Api.canceled s = true ->
  Api.phase s <> Api.Reading ->
  snd (Api.step JSON_parse s e) = []
  /\ Api.phase (fst (Api.step JSON_parse s e)) <> Api.Reading.
Proof.
  intros Hc Hph. unfold Api.step, Api.catch, Api.loop_head.
  destruct e, (Api.phase s) eqn:Hphase; cbn; rewrite ?Hc, ?Hphase;
    try contradiction; try (split; [reflexivity|discriminate]);
    repeat (match goal with
            | |- context [if ?b then _ else _] => destruct b
            end; cbn; rewrite ?Hc, ?Hphase);
    split; try reflexivity; try discriminate; try assumption.
Qed.

(** Cancellation is honoured when it comes before the response arrives or
    after the stream has settled. *)
Lemma quiet_after_cancel_when_idle (events : list Api.Event)
    (s : Api.Stream) :
  Api.canceled s = true ->
  Api.phase s <> Api.Reading ->
  Api.callbacks_after_cancel JSON_parse s events = [].
Proof.
  revert s. induction events as [|e events IH]; intros s Hc Hph;
    [reflexivity|].
  cbn [Api.callbacks_after_cancel].
  pose proof (step_keeps_canceled s e Hc) as Hc'.
  destruct (step_canceled_idle s e Hc Hph) as [Hcalls Hph'].
  destruct (Api.step JSON_parse s e) as [s1 calls]. cbn in *.
  rewrite Hc, Hcalls, (IH s1 Hc' Hph'). reflexivity.
Qed.
End StreamFacts.

(** A data line, split off a chunk. *)
Lemma split_newline_single_line (s : string) :
  Spec.single_line s = true -> Js.split_newline s = [s].
Proof.
  induction s as [|c r IH]; cbn [Spec.single_line Js.split_newline];
    [reflexivity|].
  intros Hs. apply andb_true_iff in Hs as [Hc Hr].
  apply negb_true_iff, bool_decide_eq_false_1 in Hc.
  destruct (decide (c = Js.newline)); [contradiction|].
  rewrite (IH Hr). reflexivity.
Qed.

Lemma split_newline_line (a b : string) :
  Spec.single_line a = true ->
  Js.split_newline (a +:+ String Js.newline b) = a :: Js.split_newline b.
Proof.
  induction a as [|c r IH]; intros Ha.
  - cbn. destruct (decide (Js.newline = Js.newline)); [reflexivity|].
    contradiction.
  - cbn [Spec.single_line] in Ha. apply andb_true_iff in Ha as [Hc Hr].
    apply negb_true_iff, bool_decide_eq_false_1 in Hc.
    change (String c r +:+ String Js.newline b)
      with (String c (r +:+ String Js.newline b)).
    cbn [Js.split_newline].
    destruct (decide (c = Js.newline)); [contradiction|].
    rewrite (IH Hr). reflexivity.
Qed.

(** Two data lines, the second with a terminal status, arriving in two
    chunks: both updates are handed to [onStatusUpdate], in order, and the
    stream closes its reader. *)
Lemma stream_delivers_two_updates
    (JSON_parse : string -> option Api.SSEStatusUpdate)
    (query payload1 payload2 : string) (update1 update2 : Api.SSEStatusUpdate) :
  Spec.single_line payload1 = true ->
  Spec.single_line payload2 = true ->
  JSON_parse payload1 = Some update1 ->
  Api.is_terminal (Api.sse_status update1) = false ->
  JSON_parse payload2 = Some update2 ->
  Api.is_terminal (Api.sse_status update2) = true ->
  Api.run JSON_parse (fst (Api.matchTemplateStream query))
    [Api.FetchResponse true 200 true;
     Api.ReadValue ("data: " +:+ payload1 +:+ String Js.newline "");
     Api.ReadValue ("data: " +:+ payload2 +:+ String Js.newline "")]
  = (Api.mkStream false Api.Settled "" true,
     [Api.onStatusUpdate update1; Api.onStatusUpdate update2]).
Proof.
  intros Hline1 Hline2 Hparse1 Hlive Hparse2 Hterminal.
  assert (Hsplit : forall payload,
             Spec.single_line payload = true ->
             Js.split_newline ("" +:+ "data: " +:+ payload +:+ String Js.newline "")
             = ["data: " +:+ payload; ""]).
  { intros payload Hp.
    change ("" +:+ "data: " +:+ payload +:+ String Js.newline "")
      with (("data: " +:+ payload) +:+ String Js.newline "").
    rewrite split_newline_line; [reflexivity|]. exact Hp. }
  assert (Hdata : forall payload,
             Js.startsWith ("data: " +:+ payload) "data: " = true
             /\ Js.slice 6 ("data: " +:+ payload) = payload)
    by (intros payload; split; [destruct payload; reflexivity|reflexivity]).
  cbn [Api.run Api.matchTemplateStream fst Api.step Api.phase Api.canceled
       Api.buffer Api.reader_canceled Api.loop_head negb].
  rewrite (Hsplit payload1 Hline1).
  cbn [removelast List.last Api.process_lines].
  destruct (Hdata payload1) as [-> ->]. rewrite Hparse1, Hlive.
  cbn [Api.phase Api.canceled Api.buffer Api.reader_canceled Api.loop_head].
  change (Js.or_string "" "") with "".
  cbn [Api.step Api.phase Api.canceled Api.buffer Api.reader_canceled].
  rewrite (Hsplit payload2 Hline2).
  cbn [removelast List.last Api.process_lines].
  destruct (Hdata payload2) as [-> ->]. rewrite Hparse2, Hterminal.
  change (Js.or_string "" "") with "".
  reflexivity.
Qed.

(** C3, evaluated on the code.  The handle is invoked while a read is
    pending; the chunk that then arrives is still split into lines and its
    data line still reaches a callback: [onStatusUpdate] if the payload
    parses, [onError] if it does not. *)
Theorem callback_fires_after_cancel
    (JSON_parse : string -> option Api.SSEStatusUpdate) :
  let stream := fst (Api.matchTemplateStream "lease agreement") in
  let events := [Api.FetchResponse true 200 true;
                 Api.Cancel;
                 Api.ReadValue ("data: x" +:+ String Js.newline "")] in
  Api.callbacks_after_cancel JSON_parse stream events
  = match JSON_parse "x" with
    | Some update => [Api.onStatusUpdate update]
    | None => [Api.onError (Js.new_Error "Failed to parse server response")]
    end.
Proof.
  cbv -[Api.is_terminal].
  destruct (JSON_parse "x") as [update|]; [|reflexivity].
  destruct (Api.is_terminal _); reflexivity.
Qed.

(** ** Frame facts for the chat handlers *)

(** [addMessage] only ever replaces the message list. *)
Lemma addMessage_sets_messages (d : Chat.Fresh) (type : Chat.Message.kind)
    (content : string) (metadata : option Chat.Message.Metadata)
    (replaceLast appendToLast : bool) (s : Chat.State) :
  exists updated,
    Chat.addMessage d type content metadata replaceLast appendToLast s
    = Chat.setMessages updated s.
Proof.
  unfold Chat.addMessage.
  destruct (addMessage_update_total
              (Chat.Message.mk (Chat.fresh_id d) type content (Chat.date1 d)
                               metadata)
              content replaceLast appendToLast (Chat.messages s))
    as [updated ->].
  exists updated. reflexivity.
Qed.

(** Replaces every [addMessage] in the goal by the [setMessages] it is. *)
Ltac addMessage_as_setter :=
  repeat match goal with
         | |- context [Chat.addMessage ?d ?t ?c ?m ?r ?a ?s] =>
             let l := fresh "updated" in
             let E := fresh "Eupdated" in
             destruct (addMessage_sets_messages d t c m r a s) as [l E];
             rewrite E; clear E
         end.

(** Splits the goal along every [if] and [match] of a handler. *)
Ltac handler_cases :=
  repeat match goal with
         | |- context [if ?b then _ else _] => destruct b
         | |- context [match ?x with _ => _ end] => destruct x
         end.

Lemma createNewChat_flag_calls (newChatId : string) (d : Chat.Fresh)
    (s : Chat.State) :
  Chat.isProcessingRef (Chat.createNewChat newChatId d s)
  = Chat.isProcessingRef s
  /\ Chat.calls (Chat.createNewChat newChatId d s) = Chat.calls s.
Proof.
  unfold Chat.createNewChat. handler_cases; split; reflexivity.
Qed.

(** ** The in-flight guard of the match operation *)

(** C4.  [handleStartMatching] sets the guard flag and only then issues the
    streaming request; each terminal branch of the callbacks (success with
    a match, success without one, [error], [no_templates], transport error)
    clears it; and while it is set, [handleStartMatching] issues no
    request. *)
Theorem match_guard_flag :
  (forall queryOverride newChat d s,
      Js.truthy_string (Js.trim (Spec.query_of queryOverride s)) = true ->
      Chat.isProcessingRef s = false ->
      exists before,
        Chat.isProcessingRef before = true
        /\ Chat.calls before = Chat.calls s
        /\ Chat.handleStartMatching queryOverride newChat d s
           = Chat.add_call
               (Chat.call_matchTemplateStream (Spec.query_of queryOverride s))
               before)
  /\ (forall userQuery update d s,
         Spec.terminal_update update ->
         Chat.isProcessingRef (Chat.on_status_update userQuery update d s)
         = false)
  /\ (forall error d s, Chat.isProcessingRef (Chat.on_error error d s) = false)
  /\ (forall queryOverride newChat d s,
         Chat.isProcessingRef s = true ->
         Chat.isProcessingRef (Chat.handleStartMatching queryOverride newChat d s)
         = true
         /\ Chat.calls (Chat.handleStartMatching queryOverride newChat d s)
            = Chat.calls s).
Proof.
  split; [|split; [|split]].
  - intros queryOverride newChat d s Hquery Hflag.
    unfold Chat.handleStartMatching. fold (Spec.query_of queryOverride s).
    rewrite Hquery. cbn [negb].
    set (s1 := match Js.or_null (Chat.currentChatId s) with
               | Some _ => s
               | None => Chat.createNewChat (fst newChat) (snd newChat) s
               end).
    assert (Hs1 : Chat.isProcessingRef s1 = false /\ Chat.calls s1 = Chat.calls s).
    { subst s1. destruct (Js.or_null (Chat.currentChatId s)); [auto|].
      destruct (createNewChat_flag_calls (fst newChat) (snd newChat) s)
        as [-> ->]. auto. }
    destruct Hs1 as [Hflag1 Hcalls1]. rewrite Hflag1.
    eexists. split; [|split; [|reflexivity]].
    + addMessage_as_setter. handler_cases; reflexivity.
    + addMessage_as_setter. handler_cases; exact Hcalls1.
  - intros userQuery update d s Hterminal.
    destruct Hterminal as [m r tm Hfound Htop|m r [Hfound|Htop]|m data|m data];
      unfold Chat.on_status_update; cbn [Api.sse_status Api.sse_data];
      repeat (case_bool_decide; try discriminate; try congruence);
      rewrite ?Hfound, ?Htop;
      addMessage_as_setter; handler_cases; reflexivity.
  - intros error d s. unfold Chat.on_error.
    addMessage_as_setter. reflexivity.
  - intros queryOverride newChat d s Hflag.
    unfold Chat.handleStartMatching.
    destruct (negb _); [auto|].
    destruct (Js.or_null (Chat.currentChatId s)); [rewrite Hflag; auto|].
    destruct (createNewChat_flag_calls (fst newChat) (snd newChat) s)
      as [Hf Hc].
    rewrite Hf, Hflag. rewrite Hf. auto.
Qed.

Lemma match_guard_flag_witness :
  let d := Chat.mkFresh "m1" 1000 1000 in
  let s := Chat.handleStartMatching (Some "I need an NDA") ("chat1", d) d
                                    Chat.initial in
  (Chat.isProcessingRef s = true
   /\ Chat.calls s = [Chat.call_matchTemplateStream "I need an NDA"])
  /\ Chat.calls (Chat.handleStartMatching (Some "I need an NDA") ("chat2", d) d s)
     = Chat.calls s
  /\ Chat.isProcessingRef
       (Chat.on_status_update ""
          (Api.mkSSEStatusUpdate "no_templates" "No templates" None) d s)
     = false.
Proof.
  intros d s.
  destruct match_guard_flag as (Hset & Hclear & _ & Hguard).
  destruct (Hset (Some "I need an NDA") ("chat1", d) d Chat.initial)
    as (before & Hflag & Hcalls & Hrun); [reflexivity|reflexivity|].
  assert (Hs : Chat.isProcessingRef s = true
               /\ Chat.calls s
                  = [Chat.call_matchTemplateStream "I need an NDA"]).
  { subst s. rewrite Hrun. cbn. rewrite Hflag, Hcalls. auto. }
  split; [exact Hs|split].
  - apply Hguard, Hs.
  - apply Hclear. constructor.
Defined.

(** ** A single match is selected at once *)

(** C8.  When the stream reports [searching] and then [success] with
    [found = true], a top match and no alternatives, the page selects the
    top match's template, asks for its questions in the same callback, and
    shows one plain assistant message: no message carrying template
    choices is added. *)
Theorem single_match_is_selected_at_once
    (userQuery m1 m2 : string) (data1 : option Types.TemplateMatchResponseBody)
    (top_match : Types.TemplateMatch) (note : option string)
    (d1 d2 : Chat.Fresh) (s : Chat.State) :
  let searching := Api.mkSSEStatusUpdate "searching" m1 data1 in
  let success :=
    Api.mkSSEStatusUpdate "success" m2
      (Some (Types.mkTemplateMatchResponseBody (Some top_match) [] true note)) in
  let s' := Chat.on_status_update userQuery success d2
              (Chat.on_status_update userQuery searching d1 s) in
  Chat.selectedTemplateId s' = Some (Types.template_id top_match)
  /\ Chat.calls s'
     = Chat.calls s
       ++ [Chat.call_getQuestions (Types.template_id top_match) userQuery]
  /\ Chat.topMatch s' = Some top_match
  /\ Chat.alternatives s' = []
  /\ Chat.messages s'
     = Chat.messages s
       ++ [Chat.Message.mk (Chat.fresh_id d2) Chat.Message.assistant
             ("Perfect! I found a matching template: "
              +:+ Chat.dquote +:+ Types.title top_match +:+ Chat.dquote
              +:+ ". Let me generate some questions to help create your document.")
             (Chat.date1 d2) None].
Proof.
  intros searching success s'. subst s' searching success.
  unfold Chat.on_status_update. cbn [Api.sse_status Api.sse_data].
  repeat (case_bool_decide; try discriminate; try congruence).
  cbn [Types.found Types.top_match Types.alternatives length].
  change (0 <? Z.of_nat 0) with false. cbn iota.
  unfold Chat.handleGetQuestions, Chat.addMessage, Chat.addMessage_update.
  cbn -[Js.array_set String.app].
  rewrite array_set_last.
  repeat split; reflexivity.
Qed.

(** ** Fill with examples *)

Section FillFacts.
Variable Number : string -> Js.number.

Lemma is_empty_string_falsy (a : option Types.AnswerValue) :
  Chat.is_empty_string a = true -> Chat.truthy_answer a = false.
Proof.
  destruct a as [[v| | |]|]; cbn; try discriminate; try reflexivity.
  intros Hv. apply bool_decide_eq_true_1 in Hv. subst v. reflexivity.
Qed.

Lemma or_null_Some (o : option string) (e : string) :
  Js.or_null o = Some e -> o = Some e /\ e <> "".
Proof.
  destruct o as [v|]; cbn; [|discriminate].
  unfold Js.truthy_string. destruct (decide (v = "")); [discriminate|].
  intros [= <-]. auto.
Qed.

Lemma fill_one_origin (answers examples : gmap string Types.AnswerValue)
    (q : Types.Question) (k : string) :
  is_Some (Chat.fill_one Number answers examples q !! k) ->
  is_Some (examples !! k) \/ Spec.example_origin answers [q] k.
Proof.
  unfold Chat.fill_one.
  destruct (Js.or_null (Types.example q)) as [e|] eqn:He; [|auto].
  destruct (negb _ || _) eqn:Hcond; [|auto].
  destruct (decide (Types.key q = k)) as [<-|Hne].
  - intros _. right. split.
    + apply orb_true_iff in Hcond as [Hn|He'].
      * apply negb_true_iff, Hn.
      * apply is_empty_string_falsy, He'.
    + apply or_null_Some in He as [He Hne].
      exists q, e. repeat split; auto. apply list_elem_of_singleton.
      reflexivity.
  - rewrite lookup_insert_ne by exact Hne. auto.
Qed.

Lemma collect_examples_origin (answers : gmap string Types.AnswerValue)
    (questions : list Types.Question) (k : string) :
  is_Some (Chat.collect_examples Number answers questions !! k) ->
  Spec.example_origin answers questions k.
Proof.
  unfold Chat.collect_examples.
  assert (Hgen : forall acc,
             is_Some (fold_left (Chat.fill_one Number answers) questions acc !! k) ->
             is_Some (acc !! k) \/ Spec.example_origin answers questions k).
  { induction questions as [|q questions IH]; intros acc; cbn [fold_left];
      [auto|].
    intros Hk. destruct (IH _ Hk) as [Hacc|(Hf & q' & e & Hin & Hrest)].
    - destruct (fill_one_origin _ _ _ _ Hacc)
        as [?|(Hf & q' & e & Hin & Hrest)]; [auto|].
      right. split; [exact Hf|]. exists q', e. split; [|exact Hrest].
      apply list_elem_of_singleton in Hin. subst q'. left.
    - right. split; [exact Hf|]. exists q', e. split; [|exact Hrest].
      right. exact Hin. }
  intros Hk. destruct (Hgen ∅ Hk) as [Hempty|?]; [|assumption].
  rewrite lookup_empty in Hempty. destruct Hempty as [? [=]].
Qed.
End FillFacts.

(** C10, as the code has it.  Fill-with-examples leaves every key whose
    current answer is truthy as it is, and a key it changes is the key of a
    question with a non-empty example whose current answer is falsy:
    absent, [null], [''], [0], [NaN] or [false]. *)
Theorem fill_with_examples_frame (Number : string -> Js.number)
    (s : Chat.State) (k : string) :
  let before := Chat.answers s in
  let after := Chat.answers (Chat.handleFillWithExamples Number s) in
  (Chat.truthy_answer (before !! k) = true -> after !! k = before !! k)
  /\ (after !! k <> before !! k ->
      Chat.truthy_answer (before !! k) = false
      /\ exists q e, q ∈ Chat.questions s /\ Types.key q = k
                     /\ Types.example q = Some e /\ e <> "").
Proof.
  intros before after. subst before after.
  unfold Chat.handleFillWithExamples. cbn [Chat.answers Chat.setAnswers].
  rewrite lookup_union.
  destruct (Chat.collect_examples Number (Chat.answers s) (Chat.questions s) !! k)
    as [v|] eqn:Hk.
  - destruct (collect_examples_origin Number (Chat.answers s)
                (Chat.questions s) k) as [Hfalsy Horigin];
      [rewrite Hk; eauto|].
    split; [rewrite Hfalsy; discriminate|]. intros _. split; assumption.
  - rewrite (left_id None _). split; [reflexivity|]. intros Hne. contradiction.
Qed.

Lemma fill_with_examples_frame_witness :
  let questions :=
    [Types.mkQuestion "tenant" "Who is the tenant?" None (Some "Jane Doe")
                      true "string" None None;
     Types.mkQuestion "city" "Which city?" None (Some "Pune")
                      true "string" None None] in
  let s := Chat.setQuestions questions
             (Chat.setAnswers {["tenant" := Types.VString "Asha Rao"]}
                              Chat.initial) in
  Chat.answers (Chat.handleFillWithExamples (fun _ => 0%float) s) !! "tenant"
  = Some (Types.VString "Asha Rao").
Proof.
  intros questions s.
  destruct (fill_with_examples_frame (fun _ => 0%float) s "tenant")
    as [Hkeep _].
  rewrite Hkeep; reflexivity.
Defined.

(** C10 as stated fails: an answer that is present and is not the empty
    string, but is falsy, is overwritten.  Here a [false] and a [0] are
    replaced by the examples. *)
Lemma fill_with_examples_counterexample :
  let questions :=
    [Types.mkQuestion "is_signed" "Is it signed?" None (Some "true")
                      true "boolean" None None;
     Types.mkQuestion "term_years" "How many years?" None (Some "5")
                      true "int" None None] in
  let before : gmap string Types.AnswerValue :=
    <["is_signed" := Types.VBoolean false]>
      (<["term_years" := Types.VNumber 0%float]> ∅) in
  let s := Chat.setQuestions questions (Chat.setAnswers before Chat.initial) in
  let after := Chat.answers (Chat.handleFillWithExamples (fun _ => 5%float) s) in
  (before !! "is_signed" = Some (Types.VBoolean false)
   /\ after !! "is_signed" = Some (Types.VBoolean true))
  /\ (before !! "term_years" = Some (Types.VNumber 0%float)
      /\ after !! "term_years" = Some (Types.VNumber 5%float)).
Proof. vm_compute. repeat split; reflexivity. Qed.

(** ** The session store *)

Lemma or_null_currentChatId (o : option string) (cur : string) :
  Js.or_null o = Some cur -> o = Some cur /\ cur <> "".
Proof. apply or_null_Some. Qed.

Lemma or_null_idempotent (o : option string) :
  Js.or_null (Js.or_null o) = Js.or_null o.
Proof.
  destruct o as [v|]; cbn; [|reflexivity].
  destruct (Js.truthy_string v) eqn:Hv; cbn; [rewrite Hv|]; reflexivity.
Qed.

Lemma has_id_other (S cur : string) (chat : Chat.ChatSession.t) :
  cur <> S -> Chat.has_id cur chat = true -> Chat.has_id S chat = false.
Proof.
  unfold Chat.has_id. intros Hne Hcur.
  apply bool_decide_eq_true_1 in Hcur. apply bool_decide_eq_false_2. congruence.
Qed.

Lemma has_id_session_record (S cur : string) (d : Chat.Fresh) (s : Chat.State) :
  Chat.has_id S (Chat.session_record cur d s) = bool_decide (cur = S).
Proof. reflexivity. Qed.

(** An upsert made for another chat leaves the stored record of [S] alone. *)
Lemma upsert_frame (S : string) (d : Chat.Fresh) (s : Chat.State) :
  Chat.currentChatId s <> Some S ->
  Js.find (Chat.has_id S) (Chat.chatHistory (Chat.updateCurrentChatInHistory d s))
  = Js.find (Chat.has_id S) (Chat.chatHistory s).
Proof.
  intros Haway. unfold Chat.updateCurrentChatInHistory.
  destruct (Js.or_null (Chat.currentChatId s)) as [cur|] eqn:Hcur;
    [|reflexivity].
  apply or_null_currentChatId in Hcur as [Hcur _].
  assert (Hne : cur <> S) by congruence.
  destruct (_ =? 0); [reflexivity|]. cbn [Chat.chatHistory Chat.setChatHistory].
  destruct (Z.leb_spec 0 (Js.findIndex (Chat.has_id cur) (Chat.chatHistory s)))
    as [Hfound|Hmissing].
  - apply find_array_set_rejected.
    + rewrite has_id_session_record. apply bool_decide_eq_false_2, Hne.
    + intros x Hx.
      destruct (findIndex_found _ _ Hfound) as (y & Hy & Hidy & _).
      rewrite Hx in Hy. injection Hy as <-.
      apply (has_id_other S cur x Hne Hidy).
  - unfold Js.find. cbn [List.find]. rewrite has_id_session_record.
    rewrite bool_decide_eq_false_2 by exact Hne. reflexivity.
Qed.

Lemma history_effect_frame (S : string) (d : Chat.Fresh) (s : Chat.State) :
  Chat.currentChatId s <> Some S ->
  Js.find (Chat.has_id S) (Chat.chatHistory (Chat.history_effect d s))
  = Js.find (Chat.has_id S) (Chat.chatHistory s).
Proof.
  intros Haway. unfold Chat.history_effect.
  destruct (Js.or_null _); [|reflexivity].
  destruct (0 <? _); [|reflexivity]. apply upsert_frame, Haway.
Qed.

Lemma createNewChat_frame (S newChatId : string) (d : Chat.Fresh)
    (s : Chat.State) :
  Chat.currentChatId s <> Some S ->
  Js.find (Chat.has_id S) (Chat.chatHistory (Chat.createNewChat newChatId d s))
  = Js.find (Chat.has_id S) (Chat.chatHistory s).
Proof.
  intros Haway. unfold Chat.createNewChat.
  destruct (Js.or_null (Chat.currentChatId s)) as [cur|] eqn:Hcur;
    [|reflexivity].
  apply or_null_currentChatId in Hcur as [Hcur _].
  assert (Hne : cur <> S) by congruence.
  destruct (0 <? _); [|reflexivity].
  destruct (Z.leb_spec 0 (Js.findIndex (Chat.has_id cur) (Chat.chatHistory s)))
    as [Hfound|Hmissing]; cbn [Chat.chatHistory Chat.setChatHistory
      Chat.setCurrentChatId Chat.setMessages Chat.setUserQuery Chat.setError
      Chat.setIsLoading Chat.setTopMatch Chat.setAlternatives
      Chat.setSelectedTemplateId Chat.setAnswers Chat.setQuestions
      Chat.setPrefilledFields Chat.setDraft Chat.setShowSidebar
      Chat.setActiveTab].
  - apply find_imap_rejected. intros i x Hx.
    case_bool_decide as Hi; [right|left; reflexivity].
    destruct (findIndex_found _ _ Hfound) as (y & Hy & Hidy & _).
    rewrite <- Hi, Nat2Z.id, Hx in Hy. injection Hy as <-.
    split; [apply (has_id_other S cur x Hne Hidy)|].
    rewrite has_id_session_record. apply bool_decide_eq_false_2, Hne.
  - unfold Js.find. cbn [List.find]. rewrite has_id_session_record.
    rewrite bool_decide_eq_false_2 by exact Hne. reflexivity.
Qed.

(** Proves that a handler which never calls [setChatHistory] leaves the
    history as it was. *)
Ltac history_untouched :=
  repeat first [progress addMessage_as_setter | progress handler_cases];
  reflexivity.

(** Proves a goal about a particular state [t] by proving it, with [tac],
    about every state. *)
Ltac for_every_state t tac :=
  pattern t;
  lazymatch goal with
  | |- ?P t =>
      let H := fresh "Hany" in
      assert (H : forall s1 : Chat.State, P s1)
        by (intros ?; cbv beta; tac);
      exact (H t)
  end.

(** Unfolds the handlers that are straight-line code over the setters. *)
Ltac unfold_handlers :=
  unfold Chat.switchToChat, Chat.deliver, Chat.on_status_update, Chat.on_error,
    Chat.handleGetQuestions_settled, Chat.handleGetQuestions_draft_settled,
    Chat.handleSelectTemplate, Chat.handleGetQuestions,
    Chat.handleAnswerChange, Chat.handleFillWithExamples,
    Chat.handleClearPrefilled, Chat.handleClearAllPrefilled,
    Chat.handleGenerateDraft, Chat.handleGenerateDraft_settled,
    Chat.handleInputChange, Chat.command_action, Chat.focus_input,
    Chat.handleGlobalKeyPress, Chat.handleInputFocus.

Lemma handleStartMatching_frame (S : string) (queryOverride : option string)
    (newChat : string * Chat.Fresh) (d : Chat.Fresh) (s : Chat.State) :
  Chat.currentChatId s <> Some S ->
  Js.find (Chat.has_id S)
    (Chat.chatHistory (Chat.handleStartMatching queryOverride newChat d s))
  = Js.find (Chat.has_id S) (Chat.chatHistory s).
Proof.
  intros Haway. unfold Chat.handleStartMatching.
  destruct (negb _); [reflexivity|].
  destruct (Js.or_null (Chat.currentChatId s)).
  - history_untouched.
  - rewrite <- (createNewChat_frame S (fst newChat) (snd newChat) s Haway).
    for_every_state (Chat.createNewChat (fst newChat) (snd newChat) s)
                    history_untouched.
Qed.

Lemma url_effect_frame (S initialQuery : string) (draftMode : bool)
    (templateId : string) (newChat : string * Chat.Fresh) (d : Chat.Fresh)
    (s : Chat.State) :
  Chat.currentChatId s <> Some S ->
  Js.find (Chat.has_id S)
    (Chat.chatHistory
       (Chat.url_effect initialQuery draftMode templateId newChat d s))
  = Js.find (Chat.has_id S) (Chat.chatHistory s).
Proof.
  intros Haway. unfold Chat.url_effect, Chat.handleGetQuestions.
  destruct (_ =? 0); [|reflexivity].
  case_bool_decide; [reflexivity|]. cbv zeta.
  set (s0 := Chat.write_hasInitializedRef _ s).
  assert (Hs0 : Js.find (Chat.has_id S)
                  (Chat.chatHistory
                     (Chat.createNewChat (fst newChat) (snd newChat) s0))
                = Js.find (Chat.has_id S) (Chat.chatHistory s))
    by (apply (createNewChat_frame S (fst newChat) (snd newChat) s0), Haway).
  destruct (Js.truthy_string templateId); [|destruct draftMode];
    [| |reflexivity];
    (destruct (Js.or_null (Chat.currentChatId s)); [history_untouched|]);
    rewrite <- Hs0;
    for_every_state (Chat.createNewChat (fst newChat) (snd newChat) s0)
                    history_untouched.
Qed.

Lemma handle_frame (Number : string -> Js.number) (S : string)
    (a : Chat.Action) (s : Chat.State) :
  Chat.currentChatId s <> Some S ->
  Js.find (Chat.has_id S) (Chat.chatHistory (Chat.handle Number a s))
  = Js.find (Chat.has_id S) (Chat.chatHistory s).
Proof.
  intros Haway. destruct a; cbn [Chat.handle];
    lazymatch goal with
    | |- context [Chat.handleReset _ _ _] =>
        apply createNewChat_frame, Haway
    | |- context [Chat.handleStartMatching _ _ _ _] =>
        apply handleStartMatching_frame, Haway
    | |- context [Chat.handleKeyPress _ _ _ _ _] =>
        unfold Chat.handleKeyPress;
        destruct (_ && _);
          [destruct (Chat.showCommands s);
             [unfold_handlers; history_untouched
             |apply handleStartMatching_frame, Haway]
          |history_untouched]
    | |- context [Chat.url_effect _ _ _ _ _ _] =>
        apply url_effect_frame, Haway
    | |- context [Chat.history_effect _ _] =>
        apply history_effect_frame, Haway
    | _ => unfold_handlers; history_untouched
    end.
Qed.

Lemma stays_away_frame (Number : string -> Js.number) (S : string)
    (actions : list Chat.Action) (s : Chat.State) :
  Chat.stays_away Number S actions s ->
  Js.find (Chat.has_id S) (Chat.chatHistory (Chat.run Number actions s))
  = Js.find (Chat.has_id S) (Chat.chatHistory s).
Proof.
  unfold Chat.run. revert s.
  induction actions as [|a actions IH]; intros s [Haway Hrest];
    [reflexivity|].
  cbn [fold_left]. rewrite (IH _ Hrest). apply handle_frame, Haway.
Qed.

(** [switchToChat] loads the stored record of the chat it is given. *)
Lemma switchToChat_loads (S : string) (chat : Chat.ChatSession.t)
    (s : Chat.State) :
  Js.find (Chat.has_id S) (Chat.chatHistory s) = Some chat ->
  let s' := Chat.switchToChat S s in
  Chat.currentChatId s' = Some S
  /\ Chat.messages s' = Chat.ChatSession.messages chat
  /\ Chat.selectedTemplateId s' = Js.or_null (Chat.ChatSession.templateId chat)
  /\ Chat.questions s' = Js.or_default (Chat.ChatSession.questions chat) []
  /\ Chat.answers s' = Js.or_default (Chat.ChatSession.answers chat) ∅
  /\ Chat.draft s' = Chat.ChatSession.draft chat.
Proof.
  intros Hfind s'. subst s'. unfold Chat.switchToChat. rewrite Hfind.
  destruct (Chat.ChatSession.draft chat) eqn:Hdraft;
    cbn; rewrite ?Hdraft; repeat split; reflexivity.
Qed.

(** What a session record holds, read back the way [switchToChat] reads
    it, is what the state held when the record was made. *)
Lemma session_record_fields (S : string) (d : Chat.Fresh) (s0 : Chat.State) :
  let chat := Chat.session_record S d s0 in
  Chat.ChatSession.id chat = S
  /\ Chat.ChatSession.messages chat = Chat.messages s0
  /\ Chat.ChatSession.templateId chat = Js.or_null (Chat.selectedTemplateId s0)
  /\ Js.or_default (Chat.ChatSession.questions chat) [] = Chat.questions s0
  /\ Js.or_default (Chat.ChatSession.answers chat) ∅ = Chat.answers s0
  /\ Chat.ChatSession.draft chat = Chat.draft s0.
Proof.
  cbn. repeat split.
  - destruct (Chat.questions s0); reflexivity.
  - destruct (Z.ltb_spec 0 (Z.of_nat (size (Chat.answers s0)))) as [|Hsize];
      [reflexivity|].
    cbn. symmetry. apply map_size_empty_iff. lia.
Qed.

(** The upsert stores the record of the current chat where [find] sees it. *)
Lemma upsert_stores_record (S : string) (d : Chat.Fresh) (s0 : Chat.State) :
  Chat.currentChatId s0 = Some S -> S <> "" -> Chat.messages s0 <> [] ->
  Js.find (Chat.has_id S) (Chat.chatHistory (Chat.history_effect d s0))
  = Some (Chat.session_record S d s0).
Proof.
  intros Hcur HS Hmsgs.
  unfold Chat.history_effect, Chat.updateCurrentChatInHistory.
  rewrite Hcur. cbn [Js.or_null]. unfold Js.truthy_string.
  destruct (decide (S = "")); [contradiction|].
  assert (Hlen : 0 < Z.of_nat (length (Chat.messages s0))).
  { destruct (Chat.messages s0); [contradiction|cbn [length]; lia]. }
  destruct (Z.ltb_spec 0 (Z.of_nat (length (Chat.messages s0)))); [|lia].
  destruct (Z.eqb_spec (Z.of_nat (length (Chat.messages s0))) 0); [lia|].
  cbn [Chat.chatHistory Chat.setChatHistory].
  destruct (Z.leb_spec 0 (Js.findIndex (Chat.has_id S) (Chat.chatHistory s0)))
    as [Hfound|Hmissing].
  - apply find_array_set_first; [|exact Hfound].
    rewrite has_id_session_record. apply bool_decide_eq_true_2. reflexivity.
  - unfold Js.find. cbn [List.find]. rewrite has_id_session_record.
    rewrite bool_decide_eq_true_2 by reflexivity. reflexivity.
Qed.

(** Let the history hold, for chat [S], the record made from a state [s0].
    Whatever happens while other chats are current, switching back to [S]
    makes [S] current and loads the fields of that record, which are those
    [s0] had. *)
Lemma restore_after_away (Number : string -> Js.number)
    (S : string) (d : Chat.Fresh) (s0 : Chat.State)
    (actions : list Chat.Action) (s : Chat.State) :
  Js.find (Chat.has_id S) (Chat.chatHistory s)
  = Some (Chat.session_record S d s0) ->
  Chat.stays_away Number S actions s ->
  let chat := Chat.session_record S d s0 in
  let s' := Chat.switchToChat S (Chat.run Number actions s) in
  Chat.currentChatId s' = Some S
  /\ (Chat.messages s' = Chat.ChatSession.messages chat
      /\ Chat.selectedTemplateId s' = Chat.ChatSession.templateId chat
      /\ Chat.questions s' = Js.or_default (Chat.ChatSession.questions chat) []
      /\ Chat.answers s' = Js.or_default (Chat.ChatSession.answers chat) ∅
      /\ Chat.draft s' = Chat.ChatSession.draft chat)
  /\ (Chat.messages s' = Chat.messages s0
      /\ Chat.selectedTemplateId s' = Js.or_null (Chat.selectedTemplateId s0)
      /\ Chat.questions s' = Chat.questions s0
      /\ Chat.answers s' = Chat.answers s0
      /\ Chat.draft s' = Chat.draft s0).
Proof.
  intros Hstored Haway chat s'.
  assert (Hfind : Js.find (Chat.has_id S)
                    (Chat.chatHistory (Chat.run Number actions s)) = Some chat).
  { rewrite (stays_away_frame Number S actions s Haway). exact Hstored. }
  destruct (switchToChat_loads S chat _ Hfind)
    as (Hcur & Hm & Ht & Hq & Ha & Hd).
  destruct (session_record_fields S d s0) as (_ & Hm0 & Ht0 & Hq0 & Ha0 & Hd0).
  fold chat in Hm0, Ht0, Hq0, Ha0, Hd0. fold s' in Hcur, Hm, Ht, Hq, Ha, Hd.
  assert (Ht' : Chat.selectedTemplateId s' = Chat.ChatSession.templateId chat).
  { rewrite Ht, Ht0. apply or_null_idempotent. }
  split; [exact Hcur|split].
  - repeat split; assumption.
  - repeat split; congruence.
Qed.

Lemma imap_unchanged {A : Type} (f : nat -> A -> A) (l : list A) :
  (forall i x, l !! i = Some x -> f i x = x) -> imap f l = l.
Proof.
  intros Hf. transitivity (imap (const id) l).
  - apply imap_ext. intros i x Hx. cbn. apply Hf, Hx.
  - rewrite imap_const. apply list_fmap_id.
Qed.

(** [createNewChat] overwrites by position; that is the same array write
    the upsert makes. *)
Lemma imap_replace_is_array_set {A : Type} (l : list A) (k : Z) (v : A) :
  0 <= k ->
  imap (fun index x => if bool_decide (Z.of_nat index = k) then v else x) l
  = Js.array_set l k v.
Proof.
  unfold Js.array_set. revert k.
  induction l as [|x l IH]; intros k Hk.
  - destruct (k <? 0); reflexivity.
  - destruct (Z.ltb_spec k 0) as [?|_]; [lia|]. rewrite imap_cons.
    destruct (Z.eq_dec k 0) as [->|Hk0].
    + rewrite bool_decide_eq_true_2 by reflexivity.
      change (Z.to_nat 0) with 0%nat. simpl. f_equal.
      apply imap_unchanged. intros i y _. cbn.
      rewrite bool_decide_eq_false_2 by lia. reflexivity.
    + rewrite bool_decide_eq_false_2 by (cbn; lia).
      replace (Z.to_nat k) with (S (Z.to_nat (k - 1))) by lia.
      simpl. f_equal.
      transitivity
        (imap (fun index y =>
                 if bool_decide (Z.of_nat index = k - 1) then v else y) l).
      * apply imap_ext. intros i y _. cbn.
        destruct (decide (Z.of_nat (S i) = k)) as [Heq|Hneq].
        -- rewrite !bool_decide_eq_true_2 by lia. reflexivity.
        -- rewrite !bool_decide_eq_false_2 by lia. reflexivity.
      * rewrite IH by lia.
        destruct (Z.ltb_spec (k - 1) 0) as [?|_]; [lia|reflexivity].
Qed.

(** Leaving a chat that has messages through [createNewChat] stores its
    record once more. *)
Lemma createNewChat_stores_record (S newChatId : string) (d : Chat.Fresh)
    (s : Chat.State) :
  Chat.currentChatId s = Some S -> S <> "" -> Chat.messages s <> [] ->
  Js.find (Chat.has_id S) (Chat.chatHistory (Chat.createNewChat newChatId d s))
  = Some (Chat.session_record S d s).
Proof.
  intros Hcur HS Hmsgs. unfold Chat.createNewChat.
  rewrite Hcur. cbn [Js.or_null]. unfold Js.truthy_string.
  destruct (decide (S = "")); [contradiction|].
  assert (Hlen : 0 < Z.of_nat (length (Chat.messages s))).
  { destruct (Chat.messages s); [contradiction|cbn [length]; lia]. }
  destruct (Z.ltb_spec 0 (Z.of_nat (length (Chat.messages s)))); [|lia].
  destruct (Z.leb_spec 0 (Js.findIndex (Chat.has_id S) (Chat.chatHistory s)))
    as [Hfound|Hmissing]; cbn [Chat.chatHistory Chat.setChatHistory
      Chat.setCurrentChatId Chat.setMessages Chat.setUserQuery Chat.setError
      Chat.setIsLoading Chat.setTopMatch Chat.setAlternatives
      Chat.setSelectedTemplateId Chat.setAnswers Chat.setQuestions
      Chat.setPrefilledFields Chat.setDraft Chat.setShowSidebar
      Chat.setActiveTab].
  - rewrite imap_replace_is_array_set by exact Hfound.
    apply find_array_set_first; [|exact Hfound].
    rewrite has_id_session_record. apply bool_decide_eq_true_2. reflexivity.
  - unfold Js.find. cbn [List.find]. rewrite has_id_session_record.
    rewrite bool_decide_eq_true_2 by reflexivity. reflexivity.
Qed.

(** Proves that a handler which never calls [setCurrentChatId] leaves the
    current chat as it was. *)
Ltac current_untouched :=
  repeat first [progress addMessage_as_setter | progress handler_cases];
  reflexivity.

Lemma handleStartMatching_keeps_current (S : string)
    (queryOverride : option string) (newChat : string * Chat.Fresh)
    (d : Chat.Fresh) (s : Chat.State) :
  Js.or_null (Chat.currentChatId s) = Some S ->
  Chat.currentChatId (Chat.handleStartMatching queryOverride newChat d s)
  = Chat.currentChatId s.
Proof.
  intros Hnull. unfold Chat.handleStartMatching. rewrite Hnull.
  current_untouched.
Qed.

(** Only [switchToChat] and [createNewChat] change which chat is current;
    the handlers that call [createNewChat] on their way do so only when no
    chat is current. *)
Lemma handle_leaves (Number : string -> Js.number) (S : string)
    (a : Chat.Action) (s : Chat.State) :
  Chat.currentChatId s = Some S -> S <> "" ->
  Chat.currentChatId (Chat.handle Number a s) <> Some S ->
  (exists chatId, a = Chat.SwitchToChat chatId)
  \/ (exists newChatId d, a = Chat.Reset newChatId d).
Proof.
  intros Hcur HS Hleft.
  assert (Hnull : Js.or_null (Chat.currentChatId s) = Some S).
  { rewrite Hcur. cbn. unfold Js.truthy_string.
    destruct (decide (S = "")); [contradiction|reflexivity]. }
  destruct a; cbn [Chat.handle] in Hleft;
    try (left; eexists; reflexivity);
    try (right; eexists; eexists; reflexivity);
    exfalso; apply Hleft; rewrite <- Hcur;
    lazymatch goal with
    | |- context [Chat.handleStartMatching _ _ _ _] =>
        apply (handleStartMatching_keeps_current S), Hnull
    | |- context [Chat.handleKeyPress _ _ _ _ _] =>
        unfold Chat.handleKeyPress;
        destruct (_ && _);
          [destruct (Chat.showCommands s);
             [unfold_handlers; current_untouched
             |apply (handleStartMatching_keeps_current S), Hnull]
          |current_untouched]
    | |- context [Chat.url_effect _ _ _ _ _ _] =>
        unfold Chat.url_effect, Chat.handleGetQuestions;
        rewrite Hnull; current_untouched
    | |- context [Chat.history_effect _ _] =>
        unfold Chat.history_effect, Chat.updateCurrentChatInHistory;
        current_untouched
    | _ => unfold_handlers; current_untouched
    end.
Qed.

Lemma history_effect_keeps_fields (d : Chat.Fresh) (s : Chat.State) :
  Chat.currentChatId (Chat.history_effect d s) = Chat.currentChatId s
  /\ Chat.messages (Chat.history_effect d s) = Chat.messages s
  /\ Chat.selectedTemplateId (Chat.history_effect d s)
     = Chat.selectedTemplateId s
  /\ Chat.questions (Chat.history_effect d s) = Chat.questions s
  /\ Chat.answers (Chat.history_effect d s) = Chat.answers s
  /\ Chat.draft (Chat.history_effect d s) = Chat.draft s.
Proof.
  unfold Chat.history_effect, Chat.updateCurrentChatInHistory.
  handler_cases; repeat split; reflexivity.
Qed.

Lemma switchToChat_keeps_history (chatId : string) (s : Chat.State) :
  Chat.chatHistory (Chat.switchToChat chatId s) = Chat.chatHistory s.
Proof. unfold Chat.switchToChat. handler_cases; reflexivity. Qed.

(** C1.  Chat [S] is current and has messages, and the history effect has
    stored its record.  The user leaves [S] (by switching to another chat or
    by starting a new one), anything happens while other chats are current,
    and the user switches back to [S].  Then [S] is current again and its
    message list, selected template, question list, answer map and draft are
    those of the record the history holds for [S], which are those the state
    had when [S] was last current (a selected template that was the empty
    string was recorded, and comes back, as no template). *)
Theorem switch_back_restores_snapshot (Number : string -> Js.number)
    (S : string) (d : Chat.Fresh) (s0 : Chat.State)
    (leave : Chat.Action) (actions : list Chat.Action) :
  Chat.currentChatId s0 = Some S -> S <> "" -> Chat.messages s0 <> [] ->
  let stored := Chat.history_effect d s0 in
  let away := Chat.handle Number leave stored in
  Chat.stays_away Number S actions away ->
  let back := Chat.switchToChat S (Chat.run Number actions away) in
  exists chat,
    Js.find (Chat.has_id S) (Chat.chatHistory (Chat.run Number actions away))
    = Some chat
    /\ Chat.currentChatId back = Some S
    /\ (Chat.messages back = Chat.ChatSession.messages chat
        /\ Chat.selectedTemplateId back = Chat.ChatSession.templateId chat
        /\ Chat.questions back
           = Js.or_default (Chat.ChatSession.questions chat) []
        /\ Chat.answers back = Js.or_default (Chat.ChatSession.answers chat) ∅
        /\ Chat.draft back = Chat.ChatSession.draft chat)
    /\ (Chat.messages back = Chat.messages s0
        /\ Chat.selectedTemplateId back
           = Js.or_null (Chat.selectedTemplateId s0)
        /\ Chat.questions back = Chat.questions s0
        /\ Chat.answers back = Chat.answers s0
        /\ Chat.draft back = Chat.draft s0).
Proof.
  intros Hcur HS Hmsgs stored away Haway back.
  destruct (history_effect_keeps_fields d s0)
    as (Hcur1 & Hm1 & Ht1 & Hq1 & Ha1 & Hd1).
  fold stored in Hcur1, Hm1, Ht1, Hq1, Ha1, Hd1.
  assert (Hleft : Chat.currentChatId away <> Some S)
    by (destruct actions; apply Haway).
  assert (Hcur_stored : Chat.currentChatId stored = Some S) by congruence.
  destruct (handle_leaves Number S leave stored Hcur_stored HS Hleft)
    as [[chatId ->]|(newChatId & d' & ->)].
  - (* left by switching to another chat *)
    assert (Hstored : Js.find (Chat.has_id S) (Chat.chatHistory away)
                      = Some (Chat.session_record S d s0)).
    { subst away. cbn [Chat.handle]. rewrite switchToChat_keeps_history.
      apply upsert_stores_record; assumption. }
    exists (Chat.session_record S d s0).
    split; [rewrite (stays_away_frame Number S actions away Haway);
            exact Hstored|].
    apply (restore_after_away Number S d s0 actions away Hstored Haway).
  - (* left by starting a new chat *)
    assert (Hmsgs1 : Chat.messages stored <> []) by congruence.
    assert (Hstored : Js.find (Chat.has_id S) (Chat.chatHistory away)
                      = Some (Chat.session_record S d' stored)).
    { subst away. cbn [Chat.handle]. unfold Chat.handleReset.
      apply createNewChat_stores_record; assumption. }
    exists (Chat.session_record S d' stored).
    split; [rewrite (stays_away_frame Number S actions away Haway);
            exact Hstored|].
    destruct (restore_after_away Number S d' stored actions away Hstored Haway)
      as (Hback & Hrecord & Hm & Ht & Hq & Ha & Hd).
    fold back in Hback, Hrecord, Hm, Ht, Hq, Ha, Hd.
    split; [exact Hback|split; [exact Hrecord|]].
    repeat split; congruence.
Qed.

Lemma switch_back_restores_snapshot_witness :
  let d := Chat.mkFresh "m1" 1000 1000 in
  let m := Chat.Message.mk "m1" Chat.Message.user "Draft a lease" 1000 None in
  let other := Chat.ChatSession.mk "chat2" "An NDA"
                 [Chat.Message.mk "m0" Chat.Message.user "An NDA" 900 None]
                 900 900 None None None None in
  let s0 := Chat.setSelectedTemplateId (Some "tpl_7")
              (Chat.setMessages [m]
                 (Chat.setCurrentChatId (Some "chat1")
                    (Chat.setChatHistory [other] Chat.initial))) in
  let actions := [Chat.AnswerChange "tenant" (Types.VString "Asha Rao");
                  Chat.HistoryEffect (Chat.mkFresh "m2" 2000 2000);
                  Chat.FillWithExamples] in
  let back := Chat.switchToChat "chat1"
                (Chat.run (fun _ => 0%float) actions
                   (Chat.switchToChat "chat2" (Chat.history_effect d s0))) in
  Chat.currentChatId back = Some "chat1"
  /\ Chat.messages back = [m]
  /\ Chat.selectedTemplateId back = Some "tpl_7".
Proof.
  intros d m other s0 actions back.
  assert (Hcur : Chat.currentChatId s0 = Some "chat1") by reflexivity.
  assert (HS : "chat1" <> "") by discriminate.
  assert (Hmsgs : Chat.messages s0 <> []) by discriminate.
  assert (Haway : Chat.stays_away (fun _ => 0%float) "chat1" actions
                    (Chat.handle (fun _ => 0%float) (Chat.SwitchToChat "chat2")
                                 (Chat.history_effect d s0))).
  { vm_compute. repeat split; discriminate. }
  destruct (switch_back_restores_snapshot (fun _ => 0%float) "chat1" d s0
              (Chat.SwitchToChat "chat2") actions Hcur HS Hmsgs Haway)
    as (chat & _ & Hback & _ & Hm & Ht & _).
  subst back. split; [exact Hback|split].
  - cbn [Chat.handle] in Hm. rewrite Hm. vm_compute. reflexivity.
  - cbn [Chat.handle] in Ht. rewrite Ht. vm_compute. reflexivity.
Defined.

(* ===================================================================== *)
(** * Further properties *)
(* ===================================================================== *)

(** ** The match stream: framing of lines and order of callbacks *)

Lemma string_app_assoc (a b c : string) : (a +:+ b) +:+ c = a +:+ (b +:+ c).
Proof.
  induction a as [|x a IH]; [reflexivity|].
  change (String x ((a +:+ b) +:+ c) = String x (a +:+ (b +:+ c))).
  rewrite IH. reflexivity.
Qed.

Lemma split_newline_nonempty (s : string) : Js.split_newline s <> [].
Proof.
  destruct s as [|c r]; cbn [Js.split_newline]; [discriminate|].
  destruct (decide (c = Js.newline)); [discriminate|].
  destruct (Js.split_newline r); discriminate.
Qed.



Section StreamOrder.
Variable JSON_parse : string -> option Api.SSEStatusUpdate.


End StreamOrder.

(** *** Callbacks that throw *)

Section ThrowingOrder.
Variable JSON_parse : string -> Api.Parsed.
Variable behaviour : list Api.Call -> Api.Invocation -> Api.Outcome.

Lemma ends_last_app (l1 l2 : list Api.Call) :
  forallb (fun c => negb (Spec.ends_stream c)) l1 = true ->
  Spec.ends_last (l1 ++ l2) = Spec.ends_last l2.
Proof.
  induction l1 as [|c l1 IH]; [reflexivity|].
  cbn. intros Hc. apply andb_true_iff in Hc as [Hc Hl1].
  apply negb_true_iff in Hc. rewrite Hc. apply IH, Hl1.
Qed.

Lemma ends_last_one (c : Api.Call) : Spec.ends_last [c] = true.
Proof. cbn. destruct (Spec.ends_stream c); reflexivity. Qed.

(** The [catch] block: its one call ends the stream exactly when the block
    returns. *)
Lemma catch_block_ends (history : list Api.Call) :
  let '(calls, exit) := Api.catch_block behaviour history in
  Spec.ends_last calls = true
  /\ (exit <> Api.loop_returned ->
      forallb (fun c => negb (Spec.ends_stream c)) calls = true).
Proof.
  unfold Api.catch_block. split; [apply ends_last_one|].
  cbn. unfold Spec.ends_stream. cbn.
  destruct (Api.thrown _); [reflexivity|]. intros Hexit. contradiction.
Qed.

(** One pass over the lines: a call that ends the stream is made last, and
    only when the loop is left through a [return]. *)
Lemma process_lines_ends (lines : list string) (history : list Api.Call) :
  let '(calls, exit) :=
    Api.process_lines_throwing JSON_parse behaviour history lines in
  Spec.ends_last calls = true
  /\ (exit <> Api.loop_returned ->
      forallb (fun c => negb (Spec.ends_stream c)) calls = true).
Proof.
  revert history.
  induction lines as [|line lines IH]; intros history;
    cbn [Api.process_lines_throwing].
  - split; [reflexivity|]. intros _. reflexivity.
  - destruct (Js.startsWith line "data: "); [|apply IH].
    destruct (JSON_parse (Js.slice 6 line)) as [| |data].
    + apply catch_block_ends.
    + pose proof (catch_block_ends
                    (history ++ [Api.call behaviour history
                                   (Api.invoke_onStatusUpdate None)]))
        as Hcatch.
      destruct (Api.catch_block behaviour _) as [calls exit].
      destruct Hcatch as [Hlast Hnone].
      assert (Hnull : Spec.ends_stream
                        (Api.call behaviour history
                           (Api.invoke_onStatusUpdate None)) = false).
      { unfold Spec.ends_stream. cbn. destruct (Api.thrown _); reflexivity. }
      cbn [Spec.ends_last forallb]. rewrite Hnull. cbn [negb andb].
      split; assumption.
    + destruct (Api.thrown
                  (Api.outcome
                     (Api.call behaviour history
                        (Api.invoke_onStatusUpdate (Some data)))))
        as [t|] eqn:Hthrown.
      * pose proof (catch_block_ends
                      (history ++ [Api.call behaviour history
                                     (Api.invoke_onStatusUpdate (Some data))]))
          as Hcatch.
        destruct (Api.catch_block behaviour _) as [calls exit].
        destruct Hcatch as [Hlast Hnone].
        assert (Hthrew : Spec.ends_stream
                           (Api.call behaviour history
                              (Api.invoke_onStatusUpdate (Some data)))
                         = false)
          by (unfold Spec.ends_stream; rewrite Hthrown; reflexivity).
        cbn [Spec.ends_last forallb]. rewrite Hthrew. cbn [negb andb].
        split; assumption.
      * destruct (Api.is_terminal (Api.sse_status data)) eqn:Hterminal.
        -- split; [apply ends_last_one|]. intros Hexit. contradiction.
        -- specialize (IH (history ++ [Api.call behaviour history
                                         (Api.invoke_onStatusUpdate
                                            (Some data))])).
           destruct (Api.process_lines_throwing JSON_parse behaviour _ lines)
             as [calls exit].
           destruct IH as [Hlast Hnone].
           assert (Hlive : Spec.ends_stream
                             (Api.call behaviour history
                                (Api.invoke_onStatusUpdate (Some data)))
                           = false).
           { unfold Spec.ends_stream. rewrite Hthrown. cbn.
             exact Hterminal. }
           cbn [Spec.ends_last forallb]. rewrite Hlive. cbn [negb andb].
           split; assumption.
Qed.

Lemma catch_throwing_ends (history : list Api.Call) (s : Api.Stream)
    (t : Api.Thrown) :
  Spec.ends_last (snd (Api.catch_throwing behaviour history s t)) = true
  /\ Api.phase (fst (Api.catch_throwing behaviour history s t))
     = Api.Settled.
Proof.
  unfold Api.catch_throwing. destruct (Api.canceled s).
  - split; reflexivity.
  - split; [apply ends_last_one|reflexivity].
Qed.

Lemma step_throwing_settled (history : list Api.Call) (s : Api.Stream)
    (e : Api.Event) :
  Api.phase s = Api.Settled ->
  Api.phase (fst (Api.step_throwing JSON_parse behaviour history s e))
  = Api.Settled
  /\ snd (Api.step_throwing JSON_parse behaviour history s e) = [].
Proof.
  intros Hs. unfold Api.step_throwing. rewrite Hs. destruct e; cbn; auto.
Qed.

Lemma run_throwing_settled (events : list Api.Event)
    (history : list Api.Call) (s : Api.Stream) :
  Api.phase s = Api.Settled ->
  snd (Api.run_throwing JSON_parse behaviour history s events) = [].
Proof.
  revert history s.
  induction events as [|e events IH]; intros history s Hs; [reflexivity|].
  cbn [Api.run_throwing].
  destruct (step_throwing_settled history s e Hs) as [Hphase Hcalls].
  destruct (Api.step_throwing JSON_parse behaviour history s e)
    as [s1 calls1].
  cbn in Hphase, Hcalls.
  specialize (IH (history ++ calls1) s1 Hphase).
  destruct (Api.run_throwing JSON_parse behaviour _ s1 events)
    as [s2 calls2].
  cbn in IH. cbn. rewrite Hcalls, IH. reflexivity.
Qed.

(** One event: either no call ends the stream, or the call that does is
    made last and the stream is settled. *)
Lemma step_throwing_ends (history : list Api.Call) (s : Api.Stream)
    (e : Api.Event) :
  forallb (fun c => negb (Spec.ends_stream c))
          (snd (Api.step_throwing JSON_parse behaviour history s e)) = true
  \/ (Spec.ends_last
        (snd (Api.step_throwing JSON_parse behaviour history s e)) = true
      /\ Api.phase (fst (Api.step_throwing JSON_parse behaviour history s e))
         = Api.Settled).
Proof.
  unfold Api.step_throwing.
  destruct e as [ok status has_reader|t|text| |t| ], (Api.phase s);
    try (left; reflexivity);
    try (right; apply catch_throwing_ends).
  - destruct (negb ok); [right; apply catch_throwing_ends|].
    destruct (negb has_reader); [right; apply catch_throwing_ends|].
    left. reflexivity.
  - cbv zeta.
    pose proof (process_lines_ends
                  (removelast (Js.split_newline (Api.buffer s +:+ text)))
                  history) as Hlines.
    destruct (Api.process_lines_throwing JSON_parse behaviour history _)
      as [calls exit].
    destruct Hlines as [Hlast Hnone].
    destruct exit as [| |t].
    + left. apply Hnone. discriminate.
    + right. split; [exact Hlast|reflexivity].
    + pose proof (catch_throwing_ends (history ++ calls)
                    (Api.mkStream (Api.canceled_after (Api.canceled s) calls)
                       Api.Reading
                       (Js.or_string
                          (List.last
                             (Js.split_newline (Api.buffer s +:+ text)) "")
                          "")
                       (Api.reader_canceled s)) t) as Hcatch.
      destruct (Api.catch_throwing behaviour _ _ t) as [s1 more].
      destruct Hcatch as [Hmore Hphase].
      right. split; [|exact Hphase]. cbn [snd].
      rewrite ends_last_app by (apply Hnone; discriminate). exact Hmore.
Qed.
End ThrowingOrder.

(** X1.  A callback that ends a match stream and returns is the last
    callback made.  Whatever the events, whatever [JSON.parse] makes of the
    payloads, and whatever the two callbacks do (return, throw, invoke the
    handle), nothing is reported after an error callback that returned or
    after a status update with status [success], [error] or [no_templates]
    that returned. *)
Theorem final_callback_is_last (JSON_parse : string -> Api.Parsed)
    (behaviour : list Api.Call -> Api.Invocation -> Api.Outcome)
    (query : string) (events : list Api.Event) :
  Spec.ends_last
    (snd (Api.run_throwing JSON_parse behaviour []
            (fst (Api.matchTemplateStream query)) events))
  = true.
Proof.
  generalize (fst (Api.matchTemplateStream query)) as s.
  generalize (@nil Api.Call) as history.
  induction events as [|e events IH]; intros history s; [reflexivity|].
  cbn [Api.run_throwing].
  pose proof (step_throwing_ends JSON_parse behaviour history s e) as Hstep.
  destruct (Api.step_throwing JSON_parse behaviour history s e)
    as [s1 calls1].
  specialize (IH (history ++ calls1) s1).
  pose proof (run_throwing_settled JSON_parse behaviour events
                (history ++ calls1) s1) as Hsettled.
  destruct (Api.run_throwing JSON_parse behaviour _ s1 events)
    as [s2 calls2].
  cbn in *.
  destruct Hstep as [Hnone|[Hlast Hphase]].
  - rewrite ends_last_app by exact Hnone. exact IH.
  - rewrite (Hsettled Hphase), app_nil_r. exact Hlast.
Qed.

(** *** The two descriptions of the stream agree *)

Section QuietCallbacks.
Variable JSON_parse : string -> Api.Parsed.
Variable parse : string -> option Api.SSEStatusUpdate.
Variable behaviour : list Api.Call -> Api.Invocation -> Api.Outcome.
Hypothesis Hparse : Spec.parses_as JSON_parse parse.
Hypothesis Hquiet : Spec.well_behaved behaviour.

Lemma canceled_after_quiet (canceled : bool) (history : list Api.Call)
    (lines : list string) :
  Api.canceled_after canceled
    (fst (Api.process_lines_throwing JSON_parse behaviour history lines))
  = canceled.
Proof.
  unfold Api.canceled_after.
  enough (Hnone : existsb (fun c => Api.invokes_handle (Api.outcome c))
                    (fst (Api.process_lines_throwing JSON_parse behaviour
                            history lines)) = false)
    by (rewrite Hnone; apply orb_false_r).
  revert history.
  induction lines as [|line lines IH]; intros history;
    cbn [Api.process_lines_throwing]; [reflexivity|].
  destruct (Js.startsWith line "data: "); [|apply IH].
  rewrite Hparse. destruct (parse (Js.slice 6 line)) as [data|].
  - unfold Api.call. rewrite Hquiet. cbn [Api.thrown Api.outcome].
    destruct (Api.is_terminal (Api.sse_status data)); [reflexivity|].
    specialize (IH (history
                    ++ [Api.mkCall (Api.invoke_onStatusUpdate (Some data))
                          (Api.mkOutcome None false)])).
    destruct (Api.process_lines_throwing JSON_parse behaviour _ lines)
      as [calls exit].
    exact IH.
  - unfold Api.catch_block, Api.call. rewrite Hquiet. reflexivity.
Qed.

(** When the callbacks return and do not invoke the handle, and no payload
    is [null], the line loop makes the calls of [Api.process_lines] and is
    left as it says. *)
Lemma process_lines_throwing_quiet (lines : list string)
    (history : list Api.Call) :
  let '(calls, exit) :=
    Api.process_lines_throwing JSON_parse behaviour history lines in
  let '(callbacks, returned) := Api.process_lines parse lines in
  omap Spec.callback_of calls = callbacks
  /\ exit = (if returned then Api.loop_returned else Api.loop_done).
Proof.
  revert history.
  induction lines as [|line lines IH]; intros history;
    cbn [Api.process_lines_throwing Api.process_lines].
  - split; reflexivity.
  - destruct (Js.startsWith line "data: "); [|apply IH].
    rewrite Hparse. destruct (parse (Js.slice 6 line)) as [data|].
    + unfold Api.call. rewrite Hquiet. cbn [Api.thrown Api.outcome].
      destruct (Api.is_terminal (Api.sse_status data)).
      * split; reflexivity.
      * specialize (IH (history
                        ++ [Api.mkCall
                              (Api.invoke_onStatusUpdate (Some data))
                              (Api.mkOutcome None false)])).
        destruct (Api.process_lines_throwing JSON_parse behaviour _ lines)
          as [calls exit].
        destruct (Api.process_lines parse lines) as [callbacks returned].
        destruct IH as [Hcalls Hexit].
        split; [|exact Hexit]. cbn. rewrite Hcalls. reflexivity.
    + unfold Api.catch_block, Api.call. rewrite Hquiet.
      split; reflexivity.
Qed.

Lemma catch_throwing_quiet (history : list Api.Call) (s : Api.Stream)
    (t : Api.Thrown) :
  fst (Api.catch_throwing behaviour history s t) = fst (Api.catch s t)
  /\ omap Spec.callback_of (snd (Api.catch_throwing behaviour history s t))
     = snd (Api.catch s t).
Proof.
  unfold Api.catch_throwing, Api.catch, Api.call, Api.canceled_after.
  rewrite Hquiet.
  destruct (Api.canceled s) eqn:Hcanceled; cbn; rewrite ?Hcanceled;
    split; reflexivity.
Qed.

Lemma step_throwing_quiet (history : list Api.Call) (s : Api.Stream)
    (e : Api.Event) :
  fst (Api.step_throwing JSON_parse behaviour history s e)
  = fst (Api.step parse s e)
  /\ omap Spec.callback_of
       (snd (Api.step_throwing JSON_parse behaviour history s e))
     = snd (Api.step parse s e).
Proof.
  unfold Api.step_throwing, Api.step.
  destruct e as [ok status has_reader|t|text| |t| ], (Api.phase s);
    try (split; reflexivity);
    try apply catch_throwing_quiet.
  - destruct (negb ok); [apply catch_throwing_quiet|].
    destruct (negb has_reader); [apply catch_throwing_quiet|].
    split; reflexivity.
  - cbv zeta.
    pose proof (process_lines_throwing_quiet
                  (removelast (Js.split_newline (Api.buffer s +:+ text)))
                  history) as Hlines.
    pose proof (canceled_after_quiet (Api.canceled s) history
                  (removelast (Js.split_newline (Api.buffer s +:+ text))))
      as Hcanceled.
    destruct (Api.process_lines_throwing JSON_parse behaviour history _)
      as [calls exit].
    destruct (Api.process_lines parse _) as [callbacks returned].
    destruct Hlines as [Hcalls ->]. cbn [fst] in Hcanceled.
    rewrite Hcanceled.
    destruct returned; split; cbn [fst snd]; try reflexivity; exact Hcalls.
Qed.

(** The same for a whole sequence of events: under these assumptions the
    stream of [Api.run] is the one described here. *)
Lemma run_throwing_quiet (events : list Api.Event)
    (history : list Api.Call) (s : Api.Stream) :
  fst (Api.run_throwing JSON_parse behaviour history s events)
  = fst (Api.run parse s events)
  /\ omap Spec.callback_of
       (snd (Api.run_throwing JSON_parse behaviour history s events))
     = snd (Api.run parse s events).
Proof.
  revert history s.
  induction events as [|e events IH]; intros history s;
    cbn [Api.run_throwing Api.run]; [split; reflexivity|].
  destruct (step_throwing_quiet history s e) as [Hstate Hcalls].
  destruct (Api.step_throwing JSON_parse behaviour history s e)
    as [s1 calls1].
  destruct (Api.step parse s e) as [s1' callbacks1].
  cbn [fst snd] in Hstate, Hcalls. subst s1'.
  destruct (IH (history ++ calls1) s1) as [Hstate2 Hcalls2].
  destruct (Api.run_throwing JSON_parse behaviour _ s1 events)
    as [s2 calls2].
  destruct (Api.run parse s1 events) as [s2' callbacks2].
  cbn [fst snd] in *. split; [exact Hstate2|].
  rewrite omap_app, Hcalls, Hcalls2. reflexivity.
Qed.
End QuietCallbacks.

(** A status update whose callback throws is followed by the error
    callback, also when its status is terminal: the [catch] of the line
    loop reports it as a parse failure. *)
Lemma throwing_update_is_followed_by_error
    (JSON_parse : string -> Api.Parsed)
    (behaviour : list Api.Call -> Api.Invocation -> Api.Outcome)
    (history : list Api.Call) (payload : string)
    (update : Api.SSEStatusUpdate) (t : Api.Thrown) (rest : list string) :
  JSON_parse payload = Api.parsed update ->
  Api.thrown (behaviour history (Api.invoke_onStatusUpdate (Some update)))
  = Some t ->
  Spec.is_error_call <$>
    fst (Api.process_lines_throwing JSON_parse behaviour history
           (("data: " +:+ payload) :: rest))
  = [false; true].
Proof.
  intros Hpayload Hthrows. cbn [Api.process_lines_throwing].
  assert (Hdata : Js.startsWith ("data: " +:+ payload) "data: " = true)
    by (destruct payload; reflexivity).
  rewrite Hdata.
  change (Js.slice 6 ("data: " +:+ payload)) with payload.
  rewrite Hpayload. unfold Api.call at 1. cbn [Api.outcome].
  rewrite Hthrows. reflexivity.
Qed.




(** X3.  Lines that are not data lines (blank separators, comments, event
    names) have no effect: the line loop behaves as if only the data lines
    were there. *)
Theorem other_lines_are_ignored
    (JSON_parse : string -> option Api.SSEStatusUpdate)
    (lines : list string) :
  Api.process_lines JSON_parse (List.filter Spec.is_data_line lines)
  = Api.process_lines JSON_parse lines.
Proof.
  induction lines as [|line lines IH]; [reflexivity|].
  cbn [List.filter Api.process_lines]. unfold Spec.is_data_line at 1.
  destruct (Js.startsWith line "data: ") eqn:Hdata; [|exact IH].
  cbn [Api.process_lines]. rewrite Hdata, IH. reflexivity.
Qed.

(** ** The API client: what gets through *)

(** Every API function is [handleResponse] applied to what axios settled
    with. *)
Ltac through_client H :=
  unfold Api.uploadDocument, Api.getTemplates, Api.getTemplate,
    Api.deleteTemplate, Api.matchTemplate, Api.getQuestions,
    Api.generateDraft;
  intros; rewrite H; reflexivity.

(** X4.  When axios resolves with an envelope whose [error] is false and
    whose body is present, each of the seven API functions resolves with
    exactly that body, whatever the status and the envelope's message. *)
Theorem success_envelope_resolves_with_body
    (String_of_number : Js.number -> string) (status : Z) (M : string) :
  (forall apiClient b file,
      Spec.replies apiClient status (Types.mkAPIResponse false M (Some b)) ->
      Api.uploadDocument apiClient file = Js.Resolve b)
  /\ (forall apiClient b skip limit,
         Spec.replies apiClient status (Types.mkAPIResponse false M (Some b)) ->
         Api.getTemplates String_of_number apiClient skip limit = Js.Resolve b)
  /\ (forall apiClient b templateId,
         Spec.replies apiClient status (Types.mkAPIResponse false M (Some b)) ->
         Api.getTemplate apiClient templateId = Js.Resolve b)
  /\ (forall apiClient b templateId,
         Spec.replies apiClient status (Types.mkAPIResponse false M (Some b)) ->
         Api.deleteTemplate apiClient templateId = Js.Resolve b)
  /\ (forall apiClient b query,
         Spec.replies apiClient status (Types.mkAPIResponse false M (Some b)) ->
         Api.matchTemplate apiClient query = Js.Resolve b)
  /\ (forall apiClient b templateId userQuery,
         Spec.replies apiClient status (Types.mkAPIResponse false M (Some b)) ->
         Api.getQuestions apiClient templateId userQuery = Js.Resolve b)
  /\ (forall apiClient b templateId answers userQuery,
         Spec.replies apiClient status (Types.mkAPIResponse false M (Some b)) ->
         Api.generateDraft apiClient templateId answers userQuery
         = Js.Resolve b).
Proof.
  split; [|split; [|split; [|split; [|split; [|split]]]]];
    intros apiClient b; intros;
    match goal with H : Spec.replies _ _ _ |- _ => through_client H end.
Qed.

Lemma success_envelope_resolves_with_body_witness :
  Api.deleteTemplate
    (Spec.always 200
       (Types.mkAPIResponse false "Template deleted"
          (Some (Types.mkTemplateDeleteResponseBody "tpl_42" true))))
    "tpl_42"
  = Js.Resolve (Types.mkTemplateDeleteResponseBody "tpl_42" true).
Proof.
  destruct (success_envelope_resolves_with_body (fun _ => "0") 200
              "Template deleted")
    as (_ & _ & _ & Hdelete & _).
  apply Hdelete. intros request. reflexivity.
Defined.

(** X5.  When axios itself rejects (no connection, a status it refuses),
    each of the seven API functions rejects with that very error: the
    envelope is never looked at. *)
Theorem transport_error_is_passed_on
    (String_of_number : Js.number -> string) (e : Js.Error) :
  (forall apiClient file,
      Spec.refuses apiClient e ->
      Api.uploadDocument apiClient file = Js.Reject e)
  /\ (forall apiClient skip limit,
         Spec.refuses apiClient e ->
         Api.getTemplates String_of_number apiClient skip limit = Js.Reject e)
  /\ (forall apiClient templateId,
         Spec.refuses apiClient e ->
         Api.getTemplate apiClient templateId = Js.Reject e)
  /\ (forall apiClient templateId,
         Spec.refuses apiClient e ->
         Api.deleteTemplate apiClient templateId = Js.Reject e)
  /\ (forall apiClient query,
         Spec.refuses apiClient e ->
         Api.matchTemplate apiClient query = Js.Reject e)
  /\ (forall apiClient templateId userQuery,
         Spec.refuses apiClient e ->
         Api.getQuestions apiClient templateId userQuery = Js.Reject e)
  /\ (forall apiClient templateId answers userQuery,
         Spec.refuses apiClient e ->
         Api.generateDraft apiClient templateId answers userQuery
         = Js.Reject e).
Proof.
  split; [|split; [|split; [|split; [|split; [|split]]]]];
    intros apiClient; intros;
    match goal with H : Spec.refuses _ _ |- _ => through_client H end.
Qed.

Lemma transport_error_is_passed_on_witness :
  Api.matchTemplate (Spec.never (Js.new_Error "Network Error")) "a lease"
  = Js.Reject (Js.new_Error "Network Error").
Proof.
  destruct (transport_error_is_passed_on (fun _ => "0")
              (Js.new_Error "Network Error"))
    as (_ & _ & _ & _ & Hmatch & _).
  apply Hmatch. intros request. reflexivity.
Defined.

(** ** The upload page: what reaches the network *)

Lemma validateFile_accepts (f : Api.File) :
  Upload.validateFile f = None <->
  Api.type f ∈ Upload.validTypes /\ Api.size f <= 10 * 1024 * 1024.
Proof.
  unfold Upload.validateFile, Upload.maxSize.
  destruct (bool_decide (Api.type f ∈ Upload.validTypes)) eqn:Htype; cbn.
  - apply bool_decide_eq_true_1 in Htype.
    destruct (Z.gtb_spec (Api.size f) (10 * 1024 * 1024)); split;
      try discriminate; try tauto; intros [_ ?]; lia.
  - apply bool_decide_eq_false_1 in Htype. split; [discriminate|tauto].
Qed.

(** X6.  A file whose type is neither PDF nor DOCX is refused with the
    type message whatever its size; choosing it (by the file dialog or by
    dropping it) shows that message, leaves the selected file as it was and
    sends nothing, and no later event uploads it. *)
Theorem wrong_type_is_refused (name type : string) (size : Z) :
  type ∉ Upload.validTypes ->
  let f := Api.mkFile name type size in
  Upload.validateFile f = Some "Please upload a PDF or DOCX file"
  /\ (forall s,
         let chosen := Upload.handleFileInput (Some f) s in
         let dropped := Upload.handleDrop (Some f) s in
         Upload.error chosen = Some "Please upload a PDF or DOCX file"
         /\ Upload.file chosen = Upload.file s
         /\ Upload.uploaded chosen = Upload.uploaded s
         /\ Upload.error dropped = Some "Please upload a PDF or DOCX file"
         /\ Upload.file dropped = Upload.file s
         /\ Upload.uploaded dropped = Upload.uploaded s)
  /\ forall events, f ∉ Upload.uploaded (Upload.run events Upload.initial).
Proof.
  intros Htype f.
  assert (Hrefused : Upload.validateFile f
                     = Some "Please upload a PDF or DOCX file").
  { unfold Upload.validateFile. cbn [Api.type f].
    rewrite bool_decide_eq_false_2 by exact Htype. reflexivity. }
  split; [exact Hrefused|split].
  - intros s chosen dropped. subst chosen dropped.
    unfold Upload.handleFileInput, Upload.handleDrop,
      Upload.validate_and_select.
    rewrite validateFile_message_nonempty, Hrefused. cbn. tauto.
  - intros events. apply rejected_file_never_uploaded.
    rewrite Hrefused. discriminate.
Qed.

Lemma wrong_type_is_refused_witness :
  Upload.validateFile (Api.mkFile "scan.png" "image/png" 2048)
  = Some "Please upload a PDF or DOCX file".
Proof.
  apply (wrong_type_is_refused "scan.png" "image/png" 2048).
  unfold Upload.validTypes. intros Hin.
  apply elem_of_cons in Hin as [Heq|Hin]; [discriminate|].
  apply elem_of_cons in Hin as [Heq|Hin]; [discriminate|].
  inversion Hin.
Defined.

(** X7.  Whatever the user does on the upload page, every file handed to
    [uploadDocument] is a PDF or DOCX of at most 10 MB. *)
Theorem uploaded_files_are_valid (events : list Upload.Event) (f : Api.File) :
  f ∈ Upload.uploaded (Upload.run events Upload.initial) ->
  Api.type f ∈ Upload.validTypes /\ Api.size f <= 10 * 1024 * 1024.
Proof.
  intros Hin. apply validateFile_accepts.
  destruct (run_upload_invariant events _ upload_invariant_initial) as [_ Hup].
  rewrite Forall_forall in Hup. apply Hup, Hin.
Qed.

Lemma uploaded_files_are_valid_witness :
  let f := Api.mkFile "lease.pdf" "application/pdf" 4096 in
  Api.size f <= 10 * 1024 * 1024.
Proof.
  intros f.
  apply (uploaded_files_are_valid [Upload.FileInput (Some f); Upload.ClickUpload] f).
  vm_compute. left.
Defined.

(** X8.  The upload button sends the selected file once.  After a
    successful upload the selection is cleared, so a second click sends
    nothing; after a failed one the file stays selected, the error shows the
    failure's message (or the fallback text when it has none), and a second
    click sends the same file again. *)
Theorem upload_then_click_again (s : Upload.State) (f : Api.File) :
  Upload.file s = Some f ->
  (forall data,
      let s' := Upload.run [Upload.ClickUpload;
                            Upload.UploadSettled (Js.Resolve data);
                            Upload.ClickUpload] s in
      Upload.uploaded s' = Upload.uploaded s ++ [f]
      /\ Upload.result s' = Some data
      /\ Upload.file s' = None
      /\ Upload.loading s' = false)
  /\ (forall e,
         let failed := Upload.run [Upload.ClickUpload;
                                   Upload.UploadSettled (Js.Reject e)] s in
         let again := Upload.handle Upload.ClickUpload failed in
         Upload.file failed = Some f
         /\ Upload.result failed = Upload.result s
         /\ Upload.loading failed = false
         /\ Upload.error failed
            = Some (Js.or_string (Js.message e) "Failed to upload document")
         /\ Upload.uploaded again = Upload.uploaded s ++ [f; f]).
Proof.
  intros Hfile. split.
  - intros data s'. subst s'. cbn. unfold Upload.handleUpload.
    rewrite Hfile. cbn. tauto.
  - intros e failed again. subst again failed. cbn.
    unfold Upload.handleUpload. cbn. repeat (rewrite Hfile; cbn).
    rewrite <- app_assoc. cbn. tauto.
Qed.

Lemma upload_then_click_again_witness :
  let f := Api.mkFile "lease.pdf" "application/pdf" 4096 in
  let s := Upload.handleFileInput (Some f) Upload.initial in
  Upload.uploaded
    (Upload.run [Upload.ClickUpload;
                 Upload.UploadSettled (Js.Reject (Js.new_Error ""));
                 Upload.ClickUpload] s)
  = [f; f].
Proof.
  intros f s.
  assert (Hfile : Upload.file s = Some f) by reflexivity.
  destruct (upload_then_click_again s f Hfile) as [_ Hfailed].
  destruct (Hfailed (Js.new_Error "")) as (_ & _ & _ & _ & Hagain).
  exact Hagain.
Defined.

(** ** The chat page: status updates *)

Lemma addMessage_update_replace_length (m : Chat.Message.t) (content : string)
    (appendToLast : bool) (prev updated : list Chat.Message.t) :
  Chat.addMessage_update m content true appendToLast prev = Some updated ->
  length updated = length prev.
Proof.
  cbn. intros [= <-]. unfold Js.array_set.
  destruct (_ <? 0); [reflexivity|]. apply length_insert.
Qed.

Lemma addMessage_replace_length (d : Chat.Fresh) (type : Chat.Message.kind)
    (content : string) (metadata : option Chat.Message.Metadata)
    (appendToLast : bool) (s : Chat.State) :
  length (Chat.messages
            (Chat.addMessage d type content metadata true appendToLast s))
  = length (Chat.messages s).
Proof.
  unfold Chat.addMessage.
  destruct (Chat.addMessage_update _ _ _ _ _) as [updated|] eqn:Hupdate;
    [|reflexivity].
  cbn. apply (addMessage_update_replace_length _ _ _ _ _ Hupdate).
Qed.

(** X9.  Only a [searching] update adds a line to the conversation: every
    other status update, and the error callback, overwrites the last line
    or changes nothing, so the number of messages stays the same. *)
Theorem only_searching_adds_a_message (userQuery : string)
    (c : Api.Callback) (d : Chat.Fresh) (s : Chat.State) :
  (forall update, c = Api.onStatusUpdate update ->
                  Api.sse_status update <> "searching") ->
  length (Chat.messages (Chat.deliver userQuery c d s))
  = length (Chat.messages s).
Proof.
  intros Hstatus. destruct c as [update|error]; cbn [Chat.deliver].
  - specialize (Hstatus update eq_refl).
    unfold Chat.on_status_update, Chat.handleGetQuestions.
    case_bool_decide; [contradiction|].
    repeat first
      [ case_bool_decide
      | match goal with
        | |- context [match ?x with _ => _ end] => destruct x
        end ];
      cbn [Chat.messages Chat.setIsLoading Chat.write_isProcessingRef
           Chat.setTopMatch Chat.setAlternatives Chat.setSelectedTemplateId
           Chat.setError Chat.add_call Chat.set_calls];
      try reflexivity; rewrite addMessage_replace_length; reflexivity.
  - unfold Chat.on_error.
    cbn [Chat.messages Chat.setIsLoading Chat.write_isProcessingRef].
    apply addMessage_replace_length.
Qed.

Lemma only_searching_adds_a_message_witness :
  let d := Chat.mkFresh "m2" 2000 2000 in
  let s := Chat.addMessage (Chat.mkFresh "m1" 1000 1000) Chat.Message.assistant
             "Searching" None false false Chat.initial in
  length (Chat.messages
            (Chat.deliver "nda"
               (Api.onStatusUpdate
                  (Api.mkSSEStatusUpdate "searching_web" "" None)) d s))
  = 1%nat.
Proof.
  intros d s.
  rewrite (only_searching_adds_a_message "nda" _ d s); [reflexivity|].
  intros update [= <-]. discriminate.
Defined.

(** X10.  When the stream reports [success] with a top match and at least
    one alternative, the status line is replaced by one message that offers
    the top match followed by all alternatives; nothing is selected and no
    questions are requested.  Choosing any of the offered templates then
    selects it and requests its questions. *)
Theorem several_matches_are_offered (userQuery m : string)
    (top_match : Types.TemplateMatch) (others : list Types.TemplateMatch)
    (note : option string) (d : Chat.Fresh) (s : Chat.State)
    (before : list Chat.Message.t) (status_line : Chat.Message.t) :
  others <> [] ->
  Chat.messages s = before ++ [status_line] ->
  let success :=
    Api.mkSSEStatusUpdate "success" m
      (Some (Types.mkTemplateMatchResponseBody (Some top_match) others true
                                               note)) in
  let s' := Chat.on_status_update userQuery success d s in
  (exists text,
      Chat.messages s'
      = before
        ++ [Chat.Message.mk (Chat.fresh_id d) Chat.Message.assistant text
              (Chat.date1 d)
              (Some (Chat.Message.mkMetadata (Some (top_match :: others))
                                             None None None))])
  /\ Chat.selectedTemplateId s' = Chat.selectedTemplateId s
  /\ Chat.calls s' = Chat.calls s
  /\ Chat.isProcessingRef s' = false
  /\ forall offered d',
       offered ∈ top_match :: others ->
       let chosen :=
         Chat.handleSelectTemplate (Types.template_id offered) d' s' in
       Chat.selectedTemplateId chosen = Some (Types.template_id offered)
       /\ Chat.calls chosen
          = Chat.calls s
            ++ [Chat.call_getQuestions (Types.template_id offered)
                                       (Chat.userQuery s)].
Proof.
  intros Hothers Hmessages success s'. subst s' success.
  unfold Chat.on_status_update. cbn [Api.sse_status Api.sse_data].
  repeat (case_bool_decide; try discriminate; try congruence).
  cbn [Types.found Types.top_match Types.alternatives].
  destruct others as [|other others]; [contradiction|].
  change (0 <? Z.of_nat (length (other :: others)))
    with (0 <? Z.pos (Pos.of_succ_nat (length others))).
  change (0 <? Z.pos (Pos.of_succ_nat (length others))) with true.
  cbn iota. unfold Chat.addMessage, Chat.addMessage_update.
  cbn [Chat.messages Chat.setTopMatch Chat.setAlternatives].
  rewrite Hmessages, array_set_last.
  split; [eexists; reflexivity|].
  split; [reflexivity|split; [reflexivity|split; [reflexivity|]]].
  intros offered d' _.
  unfold Chat.handleSelectTemplate, Chat.handleGetQuestions.
  split; addMessage_as_setter; handler_cases; reflexivity.
Qed.

Lemma several_matches_are_offered_witness :
  let tpl := fun id => Types.mkTemplateMatch id id 1%float "" None None None
                                            "db" None in
  let d := Chat.mkFresh "m2" 2000 2000 in
  let s := Chat.addMessage (Chat.mkFresh "m1" 1000 1000) Chat.Message.assistant
             "Searching" None false false Chat.initial in
  Chat.selectedTemplateId
    (Chat.on_status_update "nda"
       (Api.mkSSEStatusUpdate "success" ""
          (Some (Types.mkTemplateMatchResponseBody
                   (Some (tpl "a")) [tpl "b"; tpl "c"] true None))) d s)
  = None.
Proof.
  intros tpl d s.
  assert (Hothers : [tpl "b"; tpl "c"] <> []) by discriminate.
  destruct (several_matches_are_offered "nda" "" (tpl "a") [tpl "b"; tpl "c"]
              None d s [] _ Hothers eq_refl)
    as (_ & Hselected & _).
  rewrite Hselected. reflexivity.
Defined.

(** ** The chat page: starting a match *)

Lemma trimStart_blank (s : string) :
  Spec.blank s = true -> Js.trimStart s = "".
Proof.
  induction s as [|c r IH]; [reflexivity|].
  cbn. intros Hs. apply andb_true_iff in Hs as [Hc Hr].
  rewrite Hc. apply IH, Hr.
Qed.

Lemma trim_blank (s : string) : Spec.blank s = true -> Js.trim s = "".
Proof.
  intros Hs. unfold Js.trim. rewrite (trimStart_blank s Hs). reflexivity.
Qed.

(** X11.  A query that is empty or holds only white space starts nothing:
    the only effect is the error text.  No request is made, no message is
    added, no chat is created and the guard is not touched. *)
Theorem blank_query_starts_nothing (queryOverride : option string)
    (newChat : string * Chat.Fresh) (d : Chat.Fresh) (s : Chat.State) :
  Spec.blank (Spec.query_of queryOverride s) = true ->
  Chat.handleStartMatching queryOverride newChat d s
  = Chat.setError (Some "Please enter a description") s.
Proof.
  intros Hblank. unfold Chat.handleStartMatching.
  fold (Spec.query_of queryOverride s).
  rewrite (trim_blank _ Hblank). reflexivity.
Qed.

Lemma blank_query_starts_nothing_witness :
  let d := Chat.mkFresh "m1" 1000 1000 in
  let s := Chat.handleInputChange "   " Chat.initial in
  Chat.calls (Chat.handleStartMatching None ("chat1", d) d s) = []
  /\ Chat.currentChatId (Chat.handleStartMatching None ("chat1", d) d s) = None.
Proof.
  intros d s.
  rewrite (blank_query_starts_nothing None ("chat1", d) d s);
    [split; reflexivity|reflexivity].
Defined.

(** X12.  The first query of a page with no chat creates the chat; once the
    history effect has run, the history holds that chat under the new
    identifier, titled with the trimmed query, with the query as its only
    message and no template, questions, answers or draft. *)
Theorem first_query_names_the_chat (queryOverride : option string)
    (newChatId : string) (d0 d1 d2 : Chat.Fresh) (s : Chat.State) :
  Chat.currentChatId s = None ->
  Chat.isProcessingRef s = false ->
  Js.truthy_string (Js.trim (Spec.query_of queryOverride s)) = true ->
  newChatId <> "" ->
  let query := Spec.query_of queryOverride s in
  let started := Chat.handleStartMatching queryOverride (newChatId, d0) d1 s in
  let message := Chat.Message.mk (Chat.fresh_id d1) Chat.Message.user query
                                 (Chat.date1 d1) None in
  Chat.currentChatId started = Some newChatId
  /\ Chat.messages started = [message]
  /\ Js.find (Chat.has_id newChatId)
       (Chat.chatHistory (Chat.history_effect d2 started))
     = Some (Chat.ChatSession.mk newChatId (Js.trim query) [message]
               (Chat.date1 d2) (Chat.date2 d2) None None None None).
Proof.
  intros Hnone Hflag Hquery Hid query started message.
  assert (Hstarted : Chat.currentChatId started = Some newChatId
                     /\ Chat.messages started = [message]
                     /\ Chat.selectedTemplateId started = None
                     /\ Chat.questions started = []
                     /\ Chat.answers started = ∅
                     /\ Chat.draft started = None).
  { subst started message query. unfold Chat.handleStartMatching.
    fold (Spec.query_of queryOverride s). rewrite Hquery, Hnone.
    cbn [negb Js.or_null fst snd].
    destruct (createNewChat_flag_calls newChatId d0 s) as [Hf _].
    rewrite Hf, Hflag.
    unfold Chat.createNewChat. rewrite Hnone. cbn [Js.or_null].
    unfold Chat.addMessage.
    destruct (Js.or_null queryOverride); cbn; tauto. }
  destruct Hstarted as (Hcur & Hmessages & Htemplate & Hquestions & Hanswers
                        & Hdraft).
  split; [exact Hcur|split; [exact Hmessages|]].
  rewrite (upsert_stores_record newChatId d2 started Hcur Hid)
    by (rewrite Hmessages; discriminate).
  unfold Chat.session_record.
  rewrite Hmessages, Htemplate, Hquestions, Hanswers, Hdraft.
  reflexivity.
Qed.

Lemma first_query_names_the_chat_witness :
  let d := Chat.mkFresh "m1" 1000 1000 in
  Chat.currentChatId
    (Chat.handleStartMatching (Some "  Draft a lease ") ("chat1", d) d
                              Chat.initial)
  = Some "chat1".
Proof.
  intros d.
  apply (first_query_names_the_chat (Some "  Draft a lease ") "chat1" d d d
           Chat.initial); try reflexivity.
  discriminate.
Defined.



(** ** The chat page: the history list *)

Lemma upserted_ids (cur : string) (record : Chat.ChatSession.t)
    (prev : list Chat.ChatSession.t) :
  Chat.ChatSession.id record = cur ->
  let index := Js.findIndex (Chat.has_id cur) prev in
  (0 <= index ->
   Chat.ChatSession.id <$> Js.array_set prev index record
   = Chat.ChatSession.id <$> prev)
  /\ (index < 0 -> cur ∉ Chat.ChatSession.id <$> prev).
Proof.
  intros Hid index. split.
  - intros Hfound. unfold Js.array_set.
    destruct (Z.ltb_spec index 0); [lia|].
    destruct (findIndex_found _ _ Hfound) as (y & Hy & Hidy & _).
    fold index in Hy.
    rewrite list_fmap_insert. apply list_insert_id.
    rewrite list_lookup_fmap, Hy. cbn.
    apply bool_decide_eq_true_1 in Hidy. congruence.
  - intros Hmissing Hin.
    apply findIndex_missing in Hmissing.
    apply list_elem_of_fmap in Hin as (y & Hy & Hin).
    apply list_elem_of_In in Hin.
    pose proof (List.find_none _ _ Hmissing y Hin) as Hno.
    apply bool_decide_eq_false_1 in Hno. congruence.
Qed.

Lemma upsert_ids (d : Chat.Fresh) (s : Chat.State) :
  Spec.grows_by_at_most_one s (Chat.updateCurrentChatInHistory d s).
Proof.
  unfold Spec.grows_by_at_most_one, Spec.history_ids,
    Chat.updateCurrentChatInHistory.
  destruct (Js.or_null (Chat.currentChatId s)) as [cur|]; [|auto].
  destruct (_ =? 0); [auto|].
  cbn [Chat.chatHistory Chat.setChatHistory].
  destruct (upserted_ids cur (Chat.session_record cur d s) (Chat.chatHistory s)
              eq_refl) as [Hfound Hmissing].
  destruct (Z.leb_spec 0 (Js.findIndex (Chat.has_id cur) (Chat.chatHistory s))).
  - left. apply Hfound. assumption.
  - right. exists cur. split; [reflexivity|]. apply Hmissing. assumption.
Qed.

Lemma createNewChat_ids (newChatId : string) (d : Chat.Fresh)
    (s : Chat.State) :
  Spec.grows_by_at_most_one s (Chat.createNewChat newChatId d s).
Proof.
  unfold Spec.grows_by_at_most_one, Spec.history_ids, Chat.createNewChat.
  destruct (Js.or_null (Chat.currentChatId s)) as [cur|]; [|auto].
  destruct (0 <? _); [|auto].
  destruct (upserted_ids cur (Chat.session_record cur d s) (Chat.chatHistory s)
              eq_refl) as [Hfound Hmissing].
  destruct (Z.leb_spec 0 (Js.findIndex (Chat.has_id cur) (Chat.chatHistory s)));
    cbn [Chat.chatHistory Chat.setChatHistory
      Chat.setCurrentChatId Chat.setMessages Chat.setUserQuery Chat.setError
      Chat.setIsLoading Chat.setTopMatch Chat.setAlternatives
      Chat.setSelectedTemplateId Chat.setAnswers Chat.setQuestions
      Chat.setPrefilledFields Chat.setDraft Chat.setShowSidebar
      Chat.setActiveTab].
  - left. rewrite imap_replace_is_array_set by assumption.
    apply Hfound. assumption.
  - right. exists cur. split; [reflexivity|]. apply Hmissing. assumption.
Qed.

Lemma grows_with_same_history (s s1 s' : Chat.State) :
  Chat.chatHistory s' = Chat.chatHistory s1 ->
  Spec.grows_by_at_most_one s s1 -> Spec.grows_by_at_most_one s s'.
Proof.
  unfold Spec.grows_by_at_most_one, Spec.history_ids. intros ->. auto.
Qed.

Lemma handleStartMatching_ids (queryOverride : option string)
    (newChat : string * Chat.Fresh) (d : Chat.Fresh) (s : Chat.State) :
  Spec.grows_by_at_most_one s (Chat.handleStartMatching queryOverride newChat d s).
Proof.
  unfold Chat.handleStartMatching.
  destruct (negb _); [left; reflexivity|].
  destruct (Js.or_null (Chat.currentChatId s)).
  - apply (grows_with_same_history s s); [history_untouched|left; reflexivity].
  - apply (grows_with_same_history s
             (Chat.createNewChat (fst newChat) (snd newChat) s));
      [|apply createNewChat_ids].
    for_every_state (Chat.createNewChat (fst newChat) (snd newChat) s)
                    history_untouched.
Qed.

Lemma url_effect_ids (initialQuery : string) (draftMode : bool)
    (templateId : string) (newChat : string * Chat.Fresh) (d : Chat.Fresh)
    (s : Chat.State) :
  Spec.grows_by_at_most_one s
    (Chat.url_effect initialQuery draftMode templateId newChat d s).
Proof.
  unfold Chat.url_effect, Chat.handleGetQuestions.
  destruct (_ =? 0); [|left; reflexivity].
  case_bool_decide; [left; reflexivity|]. cbv zeta.
  set (s0 := Chat.write_hasInitializedRef _ s).
  assert (Hs0 : Spec.grows_by_at_most_one s
                  (Chat.createNewChat (fst newChat) (snd newChat) s0)).
  { apply (createNewChat_ids (fst newChat) (snd newChat) s0). }
  destruct (Js.truthy_string templateId); [|destruct draftMode];
    [| |left; reflexivity].
  - destruct (Js.or_null (Chat.currentChatId s)).
    + apply (grows_with_same_history s s);
        [history_untouched|left; reflexivity].
    + apply (grows_with_same_history s
               (Chat.createNewChat (fst newChat) (snd newChat) s0));
        [|exact Hs0].
      for_every_state (Chat.createNewChat (fst newChat) (snd newChat) s0)
                      history_untouched.
  - destruct (Js.or_null (Chat.currentChatId s)).
    + apply (grows_with_same_history s s);
        [history_untouched|left; reflexivity].
    + apply (grows_with_same_history s
               (Chat.createNewChat (fst newChat) (snd newChat) s0));
        [|exact Hs0].
      for_every_state (Chat.createNewChat (fst newChat) (snd newChat) s0)
                      history_untouched.
Qed.

Lemma handle_ids (Number : string -> Js.number) (a : Chat.Action)
    (s : Chat.State) :
  Spec.grows_by_at_most_one s (Chat.handle Number a s).
Proof.
  destruct a; cbn [Chat.handle];
    lazymatch goal with
    | |- context [Chat.handleReset _ _ _] => apply createNewChat_ids
    | |- context [Chat.handleStartMatching _ _ _ _] =>
        apply handleStartMatching_ids
    | |- context [Chat.handleKeyPress _ _ _ _ _] =>
        unfold Chat.handleKeyPress;
        destruct (_ && _);
          [destruct (Chat.showCommands s);
             [apply (grows_with_same_history s s);
                [unfold_handlers; history_untouched|left; reflexivity]
             |apply handleStartMatching_ids]
          |apply (grows_with_same_history s s);
             [history_untouched|left; reflexivity]]
    | |- context [Chat.url_effect _ _ _ _ _ _] => apply url_effect_ids
    | |- context [Chat.history_effect _ _] =>
        unfold Chat.history_effect;
        destruct (Js.or_null _); [|left; reflexivity];
        destruct (0 <? _); [apply upsert_ids|left; reflexivity]
    | _ => apply (grows_with_same_history s s);
             [unfold_handlers; history_untouched|left; reflexivity]
    end.
Qed.

(** X14.  The history never holds two sessions with the same identifier:
    if the identifiers are distinct, they stay distinct whatever happens on
    the page. *)
Theorem history_ids_stay_distinct (Number : string -> Js.number)
    (actions : list Chat.Action) (s : Chat.State) :
  NoDup (Spec.history_ids s) ->
  NoDup (Spec.history_ids (Chat.run Number actions s)).
Proof.
  unfold Chat.run. revert s.
  induction actions as [|a actions IH]; intros s Hs; [exact Hs|].
  cbn [fold_left]. apply IH.
  destruct (handle_ids Number a s) as [->|(id & -> & Hnew)];
    [exact Hs|].
  apply NoDup_cons. split; assumption.
Qed.

Lemma history_ids_stay_distinct_witness :
  let d := Chat.mkFresh "m1" 1000 1000 in
  NoDup (Spec.history_ids
           (Chat.run (fun _ => 0%float)
              [Chat.StartMatching (Some "a lease") ("chat1", d) d;
               Chat.HistoryEffect d;
               Chat.Reset "chat2" d;
               Chat.SwitchToChat "chat1";
               Chat.HistoryEffect d]
              Chat.initial)).
Proof.
  intros d. apply history_ids_stay_distinct. apply NoDup_nil_2.
Defined.

(** X15.  Nothing on the page removes or reorders a session of the history:
    after any actions the earlier identifiers are still there, in the same
    order, behind the identifiers of the sessions added since. *)
Theorem sessions_are_never_removed (Number : string -> Js.number)
    (actions : list Chat.Action) (s : Chat.State) :
  exists newer,
    Spec.history_ids (Chat.run Number actions s)
    = newer ++ Spec.history_ids s.
Proof.
  unfold Chat.run. revert s.
  induction actions as [|a actions IH]; intros s; [exists []; reflexivity|].
  cbn [fold_left]. destruct (IH (Chat.handle Number a s)) as [newer ->].
  destruct (handle_ids Number a s) as [->|(id & -> & _)].
  - exists newer. reflexivity.
  - exists (newer ++ [id]). rewrite <- app_assoc. reflexivity.
Qed.

(** ** The chat page: the answers form *)

Lemma clear_each_answers (keys : list string) (s : Chat.State) (k : string) :
  Chat.answers (Spec.clear_each keys s) !! k
  = if decide (k ∈ keys) then Some (Types.VString "")
    else Chat.answers s !! k.
Proof.
  unfold Spec.clear_each. revert s.
  induction keys as [|x keys IH]; intros s; cbn [fold_left].
  - destruct (decide (k ∈ [])) as [Hin|_]; [inversion Hin|reflexivity].
  - rewrite IH. unfold Chat.handleClearPrefilled. cbn [Chat.answers
      Chat.setAnswers Chat.setPrefilledFields].
    destruct (decide (k ∈ keys)) as [Hin|Hout].
    + rewrite decide_True by (right; exact Hin). reflexivity.
    + destruct (decide (x = k)) as [->|Hne].
      * rewrite decide_True by left. apply lookup_insert_eq.
      * rewrite decide_False
          by (intros Hin; apply elem_of_cons in Hin as [?|?]; congruence).
        apply lookup_insert_ne, Hne.
Qed.

Lemma clear_each_prefilled (keys : list string) (s : Chat.State) (k : string) :
  Chat.prefilledFields (Spec.clear_each keys s) !! k
  = if decide (k ∈ keys) then None else Chat.prefilledFields s !! k.
Proof.
  unfold Spec.clear_each. revert s.
  induction keys as [|x keys IH]; intros s; cbn [fold_left].
  - destruct (decide (k ∈ [])) as [Hin|_]; [inversion Hin|reflexivity].
  - rewrite IH. unfold Chat.handleClearPrefilled. cbn [Chat.prefilledFields
      Chat.setAnswers Chat.setPrefilledFields].
    destruct (decide (k ∈ keys)) as [Hin|Hout].
    + rewrite decide_True by (right; exact Hin). reflexivity.
    + destruct (decide (x = k)) as [->|Hne].
      * rewrite decide_True by left. apply lookup_delete_eq.
      * rewrite decide_False
          by (intros Hin; apply elem_of_cons in Hin as [?|?]; congruence).
        apply lookup_delete_ne, Hne.
Qed.

(** X16.  "Clear all" empties the pre-filled fields and nothing else: each
    key that was marked pre-filled ends with the answer [''], every other
    answer is as it was, and no field is marked pre-filled any more.
    Pressing "Clear" on each pre-filled field in turn gives the same answers
    and marks. *)
Theorem clear_all_is_clear_each (s : Chat.State) :
  let keys := elements (dom (Chat.prefilledFields s)) in
  let all := Chat.handleClearAllPrefilled s in
  let each := Spec.clear_each keys s in
  (forall k,
      Chat.answers all !! k
      = if decide (is_Some (Chat.prefilledFields s !! k))
        then Some (Types.VString "")
        else Chat.answers s !! k)
  /\ Chat.prefilledFields all = ∅
  /\ Chat.answers each = Chat.answers all
  /\ Chat.prefilledFields each = Chat.prefilledFields all.
Proof.
  intros keys all each.
  assert (Hkeys : forall k, k ∈ keys <-> is_Some (Chat.prefilledFields s !! k)).
  { intros k. subst keys. rewrite elem_of_elements. apply elem_of_dom. }
  assert (Hall : forall k,
             Chat.answers all !! k
             = if decide (is_Some (Chat.prefilledFields s !! k))
               then Some (Types.VString "")
               else Chat.answers s !! k).
  { intros k. subst all. unfold Chat.handleClearAllPrefilled.
    cbn [Chat.answers Chat.setAnswers Chat.setPrefilledFields].
    rewrite lookup_union, lookup_fmap.
    destruct (Chat.prefilledFields s !! k) as [v|] eqn:Hv.
    - rewrite decide_True by eauto. cbn.
      destruct (Chat.answers s !! k); reflexivity.
    - rewrite decide_False by (intros [v Hv']; discriminate). cbn.
      destruct (Chat.answers s !! k); reflexivity. }
  split; [exact Hall|]. split; [reflexivity|]. split.
  - apply map_eq. intros k. subst each.
    rewrite clear_each_answers, Hall.
    destruct (decide (k ∈ keys)) as [Hin|Hout].
    + rewrite decide_True by (apply Hkeys, Hin). reflexivity.
    + rewrite decide_False by (intros Hsome; apply Hout, Hkeys, Hsome).
      reflexivity.
  - apply map_eq. intros k. subst each all.
    rewrite clear_each_prefilled.
    unfold Chat.handleClearAllPrefilled.
    cbn [Chat.prefilledFields Chat.setAnswers Chat.setPrefilledFields].
    rewrite lookup_empty.
    destruct (decide (k ∈ keys)) as [Hin|Hout]; [reflexivity|].
    destruct (Chat.prefilledFields s !! k) as [v|] eqn:Hv; [|reflexivity].
    exfalso. apply Hout, Hkeys. eauto.
Qed.

Lemma filter_length_Permutation {A : Type} (f : A -> bool) (l1 l2 : list A) :
  l1 ≡ₚ l2 -> length (List.filter f l1) = length (List.filter f l2).
Proof.
  induction 1 as [|x l1 l2 _ IH|x y l|l1 l2 l3 _ IH1 _ IH2]; cbn.
  - reflexivity.
  - destruct (f x); cbn; congruence.
  - destruct (f x), (f y); reflexivity.
  - congruence.
Qed.

Lemma filledCount_insert_fresh (m : gmap string Types.AnswerValue)
    (k : string) (v : Types.AnswerValue) :
  m !! k = None ->
  Chat.filledCount (<[k := v]> m)
  = Chat.filledCount m + Spec.counts_as_filled (Some v).
Proof.
  intros Hk. unfold Chat.filledCount.
  rewrite (filter_length_Permutation _ _ _ (map_to_list_insert m k v Hk)).
  cbn. destruct (Chat.is_filled v); cbn [length]; lia.
Qed.

(** X17.  The progress counter of the variables form moves with each answer:
    storing a value under a key changes the count of filled fields by what
    the new value counts for minus what the old one counted for ([null] and
    [''] count for nothing, any other value for one). *)
Theorem answer_moves_the_counter (variableName : string)
    (value : Types.AnswerValue) (s : Chat.State) :
  Chat.filledCount (Chat.answers (Chat.handleAnswerChange variableName value s))
  = Chat.filledCount (Chat.answers s)
    - Spec.counts_as_filled (Chat.answers s !! variableName)
    + Spec.counts_as_filled (Some value).
Proof.
  unfold Chat.handleAnswerChange. cbn [Chat.answers Chat.setAnswers].
  rewrite <- (insert_delete_eq (Chat.answers s)).
  rewrite filledCount_insert_fresh by apply lookup_delete_eq.
  destruct (Chat.answers s !! variableName) as [old|] eqn:Hold.
  - rewrite <- (insert_delete_id (Chat.answers s) variableName old Hold) at 2.
    rewrite filledCount_insert_fresh by apply lookup_delete_eq. lia.
  - rewrite (delete_id (Chat.answers s) variableName Hold). cbn. lia.
Qed.

Lemma array_set_overwrites_last {A : Type} (l : list A) (v : A) :
  Js.array_set l (Z.of_nat (length l) - 1) v
  = match l with
    | [] => []
    | _ :: _ => removelast l ++ [v]
    end.
Proof.
  destruct l as [|x l]; [reflexivity|].
  assert (Hne : x :: l <> []) by discriminate.
  rewrite (app_removelast_last x Hne) at 1 2.
  apply array_set_last.
Qed.

(** X18.  A failed request leaves the form as it was and says so in the
    conversation: when [getQuestions] or [generateDraft] rejects, the
    answers, questions, pre-filled marks, selected template, draft, current
    chat and history are unchanged, loading ends, and the last message is
    replaced by an assistant message with the error text (the message of
    the failure, or the fallback of that request when it has none).  In a
    conversation without messages there is no last message to replace, and
    the error text is not shown. *)
Theorem failed_request_keeps_the_form (userQuery templateId : string)
    (e : Js.Error) (d : Chat.Fresh) (s : Chat.State) :
  let same (fallback : string) (s' : Chat.State) :=
    Chat.answers s' = Chat.answers s
    /\ Chat.questions s' = Chat.questions s
    /\ Chat.prefilledFields s' = Chat.prefilledFields s
    /\ Chat.selectedTemplateId s' = Chat.selectedTemplateId s
    /\ Chat.draft s' = Chat.draft s
    /\ Chat.currentChatId s' = Chat.currentChatId s
    /\ Chat.chatHistory s' = Chat.chatHistory s
    /\ Chat.isLoading s' = false
    /\ Chat.messages s'
       = match Chat.messages s with
         | [] => []
         | _ :: _ =>
             removelast (Chat.messages s)
             ++ [Chat.Message.mk (Chat.fresh_id d) Chat.Message.assistant
                   (Chat.error_text (Js.message e) fallback)
                   (Chat.date1 d) None]
         end in
  same "Failed to generate questions"
       (Chat.handleGetQuestions_settled userQuery templateId (Js.Reject e) d s)
  /\ same "Failed to generate questions"
          (Chat.handleGetQuestions_draft_settled (Js.Reject e) d s)
  /\ same "Failed to generate draft"
          (Chat.handleGenerateDraft_settled (Js.Reject e) d s).
Proof.
  intros same. subst same. cbv beta.
  unfold Chat.handleGetQuestions_settled,
    Chat.handleGetQuestions_draft_settled, Chat.handleGenerateDraft_settled,
    Chat.addMessage, Chat.addMessage_update.
  cbn [Chat.answers Chat.questions Chat.prefilledFields
       Chat.selectedTemplateId Chat.draft Chat.currentChatId Chat.chatHistory
       Chat.isLoading Chat.messages Chat.setIsLoading Chat.setMessages].
  rewrite !array_set_overwrites_last.
  repeat split; reflexivity.
Qed.

(** X19.  Generating a draft with a template selected makes one
    [generateDraft] call with the current answers and query and adds two
    lines (the request and a progress line); when the draft arrives the
    progress line is replaced by a message carrying the draft, the draft is
    stored, the document tab opens and the answers are as they were.  With
    no template selected the button does nothing. *)
Theorem draft_is_generated_once (d1 d2 d3 : Chat.Fresh)
    (result : Types.GenerateDraftResponseBody) (s : Chat.State) :
  (Js.or_null (Chat.selectedTemplateId s) = None ->
   Chat.handleGenerateDraft d1 d2 s = s)
  /\ forall templateId,
       Js.or_null (Chat.selectedTemplateId s) = Some templateId ->
       let asked := Chat.handleGenerateDraft d1 d2 s in
       let done := Chat.handleGenerateDraft_settled (Js.Resolve result) d3
                                                    asked in
       Chat.calls done
       = Chat.calls s
         ++ [Chat.call_generateDraft templateId (Chat.answers s)
                                     (Chat.userQuery s)]
       /\ Chat.isLoading asked = true
       /\ Chat.messages done
          = Chat.messages s
            ++ [Chat.Message.mk (Chat.fresh_id d1) Chat.Message.user
                  "Please generate my document with the provided answers."
                  (Chat.date1 d1) None;
                Chat.Message.mk (Chat.fresh_id d3) Chat.Message.assistant
                  "Your document is ready! Here it is:" (Chat.date1 d3)
                  (Some (Chat.Message.mkMetadata None None (Some result)
                                                 None))]
       /\ Chat.draft done = Some result
       /\ Chat.activeTab done = Chat.document
       /\ Chat.isLoading done = false
       /\ Chat.answers done = Chat.answers s.
Proof.
  split.
  - intros Hnone. unfold Chat.handleGenerateDraft. rewrite Hnone. reflexivity.
  - intros templateId Hselected asked done. subst done asked.
    unfold Chat.handleGenerateDraft, Chat.handleGenerateDraft_settled.
    rewrite Hselected. unfold Chat.addMessage.
    cbn -[Js.array_set String.app].
    rewrite array_set_last, <- app_assoc. cbn [app]. tauto.
Qed.

Lemma draft_is_generated_once_witness :
  let d := Chat.mkFresh "m1" 1000 1000 in
  let result := Types.mkGenerateDraftResponseBody "# Lease" 1%float "tpl_7"
                  "Lease" [] false in
  let s := Chat.setSelectedTemplateId (Some "tpl_7") Chat.initial in
  Chat.draft
    (Chat.handleGenerateDraft_settled (Js.Resolve result) d
       (Chat.handleGenerateDraft d d s))
  = Some result.
Proof.
  intros d result s.
  destruct (draft_is_generated_once d d d result s) as [_ Hdone].
  apply (Hdone "tpl_7"). reflexivity.
Defined.

(** ** The chat page: keys and tabs *)

(** X20.  A key press in the input makes a request only when it is Enter
    without Shift while the command list is hidden (and then only as
    [handleStartMatching] allows): any other key, Shift+Enter, and Enter
    while the command list shows leave the calls, the messages, the current
    chat and the history as they were. *)
Theorem key_press_rarely_submits (key : string) (shiftKey : bool)
    (newChat : string * Chat.Fresh) (d : Chat.Fresh) (s : Chat.State) :
  key <> "Enter" \/ shiftKey = true \/ Chat.showCommands s = true ->
  let s' := Chat.handleKeyPress key shiftKey newChat d s in
  Chat.calls s' = Chat.calls s
  /\ Chat.messages s' = Chat.messages s
  /\ Chat.currentChatId s' = Chat.currentChatId s
  /\ Chat.chatHistory s' = Chat.chatHistory s
  /\ Chat.isProcessingRef s' = Chat.isProcessingRef s.
Proof.
  intros Hcase s'. subst s'. unfold Chat.handleKeyPress.
  destruct (bool_decide (key = "Enter")) eqn:Hkey; cbn [andb].
  - apply bool_decide_eq_true_1 in Hkey.
    destruct shiftKey; cbn [negb].
    + case_bool_decide; [subst; discriminate|]. tauto.
    + destruct Hcase as [?|[?|Hshow]]; [contradiction|discriminate|].
      rewrite Hshow.
      destruct (List.filter _ Chat.commands) as [|[|] rest];
        unfold Chat.command_action; [tauto|cbn; tauto|].
      destruct (_ =? 0); cbn; tauto.
  - clear Hkey. case_bool_decide; cbn; tauto.
Qed.

Lemma key_press_rarely_submits_witness :
  let d := Chat.mkFresh "m1" 1000 1000 in
  let s := Chat.handleInputChange "/v" Chat.initial in
  Chat.calls (Chat.handleKeyPress "Enter" false ("chat1", d) d s) = [].
Proof.
  intros d s.
  destruct (key_press_rarely_submits "Enter" false ("chat1", d) d s)
    as [Hcalls _]; [right; right; reflexivity|].
  rewrite Hcalls. reflexivity.
Defined.

(** ** Strings: white space, letter case and substrings *)

Lemma blank_app (a b : string) :
  Spec.blank (a +:+ b) = Spec.blank a && Spec.blank b.
Proof.
  induction a as [|c r IH]; [reflexivity|].
  change (String c r +:+ b) with (String c (r +:+ b)).
  cbn [Spec.blank]. rewrite IH. apply andb_assoc.
Qed.

Lemma blank_rev_app (s acc : string) :
  Spec.blank (String.rev_app s acc) = Spec.blank s && Spec.blank acc.
Proof.
  revert acc. induction s as [|c r IH]; intros acc; [reflexivity|].
  cbn [String.rev_app Spec.blank]. rewrite IH. cbn [Spec.blank].
  destruct (Js.is_white_space c), (Spec.blank r); reflexivity.
Qed.

Lemma blank_rev (s : string) : Spec.blank (String.rev s) = Spec.blank s.
Proof.
  unfold String.rev. rewrite blank_rev_app. apply andb_true_r.
Qed.

Lemma trimStart_empty (s : string) :
  Js.trimStart s = "" -> Spec.blank s = true.
Proof.
  induction s as [|c r IH]; [reflexivity|].
  cbn [Js.trimStart Spec.blank].
  destruct (Js.is_white_space c); [exact IH|discriminate].
Qed.

Lemma rev_app_empty (s acc : string) :
  String.rev_app s acc = "" -> s = "".
Proof.
  revert acc. induction s as [|c r IH]; intros acc; [reflexivity|].
  cbn [String.rev_app]. intros Hs. apply IH in Hs as Hr. subst r.
  cbn in Hs. discriminate.
Qed.

Lemma rev_empty (s : string) : String.rev s = "" -> s = "".
Proof. apply rev_app_empty. Qed.

Lemma trim_empty (s : string) : Js.trim s = "" <-> Spec.blank s = true.
Proof.
  split; [|apply trim_blank].
  unfold Js.trim. intros Hs.
  apply rev_empty, trimStart_empty in Hs. rewrite blank_rev in Hs.
  clear -Hs. induction s as [|c r IH]; [reflexivity|].
  cbn [Js.trimStart Spec.blank] in *.
  destruct (Js.is_white_space c) eqn:Hc; [apply IH, Hs|].
  cbn [Spec.blank] in Hs. rewrite Hc in Hs. discriminate.
Qed.

Lemma lower_char_white_space (c : ascii) :
  Js.is_white_space (Js.lower_char c) = Js.is_white_space c.
Proof.
  destruct c as [[] [] [] [] [] [] [] []]; vm_compute; reflexivity.
Qed.

Lemma blank_toLowerCase (s : string) :
  Spec.blank (Js.toLowerCase s) = Spec.blank s.
Proof.
  induction s as [|c r IH]; [reflexivity|].
  cbn [Js.toLowerCase Spec.blank].
  rewrite lower_char_white_space, IH. reflexivity.
Qed.

Lemma prefix_spec (p s : string) :
  String.prefix p s = true <-> exists post, s = p +:+ post.
Proof.
  revert s. induction p as [|c r IH]; intros s.
  - split; [intros _; exists s; reflexivity|]. intros _.
    destruct s; reflexivity.
  - destruct s as [|d t]; cbn [String.prefix].
    + split; [discriminate|]. intros [post Hpost]. discriminate.
    + destruct (Ascii.ascii_dec c d) as [->|Hcd].
      * rewrite IH. split; intros [post Hpost]; exists post.
        -- rewrite Hpost. reflexivity.
        -- change (String d r +:+ post) with (String d (r +:+ post)) in Hpost.
           congruence.
      * split; [discriminate|]. intros [post Hpost].
        change (String c r +:+ post) with (String c (r +:+ post)) in Hpost.
        congruence.
Qed.

Lemma includes_spec (s sub : string) :
  Js.includes s sub = true <-> exists pre post, s = pre +:+ sub +:+ post.
Proof.
  induction s as [|c r IH].
  - cbn [Js.includes]. rewrite orb_false_r, prefix_spec. split.
    + intros [post Hpost]. exists "", post. exact Hpost.
    + intros [pre [post Hs]]. destruct pre; [exists post; exact Hs|].
      discriminate.
  - cbn [Js.includes]. rewrite orb_true_iff, prefix_spec, IH. split.
    + intros [[post Hpost]|[pre [post Hr]]].
      * exists "", post. exact Hpost.
      * exists (String c pre), post. rewrite Hr. reflexivity.
    + intros [pre [post Hs]]. destruct pre as [|d pre].
      * left. exists post. exact Hs.
      * right. exists pre, post.
        change (String d pre +:+ sub +:+ post)
          with (String d (pre +:+ sub +:+ post)) in Hs.
        congruence.
Qed.

Lemma includes_trans (s q' q : string) :
  Js.includes s q' = true -> Js.includes q' q = true ->
  Js.includes s q = true.
Proof.
  rewrite !includes_spec. intros [pre [post Hs]] [pre' [post' Hq']].
  exists (pre +:+ pre'), (post' +:+ post).
  rewrite Hs, Hq', !string_app_assoc. reflexivity.
Qed.

Lemma blank_includes (s q : string) :
  Spec.blank s = true -> Js.includes s q = true -> Spec.blank q = true.
Proof.
  intros Hs Hq. apply includes_spec in Hq as [pre [post ->]].
  rewrite !blank_app in Hs.
  apply andb_true_iff in Hs as [_ Hs].
  apply andb_true_iff in Hs as [Hs _]. exact Hs.
Qed.

(** ** The templates page: the search *)

Lemma matches_narrower (query' query : string)
    (t : Types.TemplateListItem) :
  Js.includes query' query = true ->
  Templates.matches query' t = true ->
  Templates.matches query t = true.
Proof.
  intros Hpart. unfold Templates.matches, Templates.field_includes.
  rewrite !orb_true_iff, !existsb_exists.
  intros [[[Htitle|Htype]|Hplace]|[tag [Htag Hin]]].
  - left; left; left. exact (includes_trans _ _ _ Htitle Hpart).
  - left; left; right. destruct (Types.tb_doc_type _); [|discriminate].
    exact (includes_trans _ _ _ Htype Hpart).
  - left; right. destruct (Types.tb_jurisdiction _); [|discriminate].
    exact (includes_trans _ _ _ Hplace Hpart).
  - right. exists tag. split; [exact Htag|].
    exact (includes_trans _ _ _ Hin Hpart).
Qed.

(** X22.  The search of the templates page does not look at letter case:
    two queries that are equal once put in lower case show the same
    templates. *)
Theorem search_ignores_letter_case (q q' : string) (s : Templates.State) :
  Js.toLowerCase q = Js.toLowerCase q' ->
  Templates.filteredTemplates
    (Templates.search_effect (Templates.setSearchQuery q s))
  = Templates.filteredTemplates
      (Templates.search_effect (Templates.setSearchQuery q' s)).
Proof.
  intros Hcase.
  assert (Hblank : Spec.blank q = Spec.blank q')
    by (rewrite <- (blank_toLowerCase q), Hcase; apply blank_toLowerCase).
  unfold Templates.search_effect.
  cbn [Templates.searchQuery Templates.templates Templates.setSearchQuery].
  destruct (decide (Js.trim q = "")) as [Hq|Hq],
           (decide (Js.trim q' = "")) as [Hq'|Hq']; cbn.
  - reflexivity.
  - apply trim_empty in Hq. rewrite Hblank in Hq.
    apply trim_empty in Hq. contradiction.
  - apply trim_empty in Hq'. rewrite <- Hblank in Hq'.
    apply trim_empty in Hq'. contradiction.
  - rewrite Hcase. reflexivity.
Qed.

Lemma search_ignores_letter_case_witness :
  let t := Types.mkTemplateListItem
             (Types.mkTemplateBase "tpl_1" "Lease Agreement" None
                (Some "lease") None ["rent"] None) 1%float [] in
  let s := Templates.setTemplates [t] Templates.initial in
  Templates.filteredTemplates
    (Templates.search_effect (Templates.setSearchQuery "LEASE" s))
  = [t].
Proof.
  intros t s.
  rewrite (search_ignores_letter_case "LEASE" "lease" s);
    vm_compute; reflexivity.
Defined.

(** X23.  Typing more narrows the search: when the lower-case form of one
    query occurs inside the lower-case form of another, every template
    shown for the longer query is also shown for the shorter one. *)
Theorem longer_query_shows_less (q' q : string) (s : Templates.State)
    (t : Types.TemplateListItem) :
  Js.includes (Js.toLowerCase q') (Js.toLowerCase q) = true ->
  t ∈ Templates.filteredTemplates
        (Templates.search_effect (Templates.setSearchQuery q' s)) ->
  t ∈ Templates.filteredTemplates
        (Templates.search_effect (Templates.setSearchQuery q s)).
Proof.
  intros Hpart. unfold Templates.search_effect.
  cbn [Templates.searchQuery Templates.templates Templates.setSearchQuery].
  destruct (decide (Js.trim q' = "")) as [Hlong|Hlong],
           (decide (Js.trim q = "")) as [Hq|Hq]; cbn.
  - tauto.
  - apply trim_empty in Hlong. rewrite <- blank_toLowerCase in Hlong.
    apply (blank_includes _ _ Hlong) in Hpart.
    rewrite blank_toLowerCase in Hpart.
    apply trim_empty in Hpart. contradiction.
  - rewrite !list_elem_of_In, filter_In. tauto.
  - rewrite !list_elem_of_In, !filter_In. intros [Hin Hmatch].
    split; [exact Hin|]. exact (matches_narrower _ _ _ Hpart Hmatch).
Qed.

Lemma longer_query_shows_less_witness :
  let t := Types.mkTemplateListItem
             (Types.mkTemplateBase "tpl_1" "Lease Agreement" None
                (Some "lease") None ["rent"] None) 1%float [] in
  let s := Templates.setTemplates [t] Templates.initial in
  t ∈ Templates.filteredTemplates
        (Templates.search_effect (Templates.setSearchQuery "AGREE" s)).
Proof.
  intros t s.
  apply (longer_query_shows_less "Lease Agreement" "AGREE" s t).
  - vm_compute. reflexivity.
  - assert (Hshown : Templates.filteredTemplates
              (Templates.search_effect
                 (Templates.setSearchQuery "Lease Agreement" s))
            = [t]) by (vm_compute; reflexivity).
    rewrite Hshown. constructor.
Defined.

Lemma search_effect_fixed (s s' : Templates.State) :
  Templates.searchQuery s' = Templates.searchQuery s ->
  Templates.templates s' = Templates.templates s ->
  Templates.filteredTemplates s' = Templates.filteredTemplates s ->
  Templates.search_effect s = s ->
  Templates.search_effect s' = s'.
Proof.
  destruct s, s'. unfold Templates.search_effect. cbn.
  intros -> -> ->.
  destruct (decide _); unfold Templates.setFilteredTemplates; cbn;
    intros Hfixed; injection Hfixed as Hshown; rewrite Hshown; reflexivity.
Qed.

Lemma search_effect_idempotent (s : Templates.State) :
  Templates.search_effect (Templates.search_effect s)
  = Templates.search_effect s.
Proof.
  unfold Templates.search_effect.
  destruct (decide (Js.trim (Templates.searchQuery s) = "")) as [Hq|Hq];
    cbn; destruct (decide _); try contradiction; reflexivity.
Qed.

Lemma search_applied_fixed (s : Templates.State) :
  Spec.search_applied s <-> Templates.search_effect s = s.
Proof.
  unfold Spec.search_applied. split; [|intros ->; reflexivity].
  destruct s. unfold Templates.search_effect. cbn.
  destruct (decide _); cbn; intros ->; reflexivity.
Qed.

Lemma handle_keeps_search_applied (e : Templates.Event)
    (s : Templates.State) :
  Templates.search_effect s = s ->
  Templates.search_effect (Templates.handle e s) = Templates.handle e s.
Proof.
  intros Hfixed. unfold Templates.handle.
  destruct e as [|value|[data|err]|templateId|[template|err]| |templateId| ];
    cbn [Templates.search_effect_due Templates.commit].
  - apply search_effect_idempotent.
  - case_bool_decide as Hvalue; cbn [negb].
    + apply (search_effect_fixed s); [exact Hvalue|reflexivity..|exact Hfixed].
    + apply search_effect_idempotent.
  - apply search_effect_idempotent.
  - apply (search_effect_fixed s); [reflexivity..|exact Hfixed].
  - apply (search_effect_fixed s); [reflexivity..|exact Hfixed].
  - apply (search_effect_fixed s); [reflexivity..|exact Hfixed].
  - apply (search_effect_fixed s); [reflexivity..|exact Hfixed].
  - apply (search_effect_fixed s); [reflexivity..|exact Hfixed].
  - apply (search_effect_fixed s); [reflexivity..|exact Hfixed].
  - apply (search_effect_fixed s); [reflexivity..|exact Hfixed].
Qed.

(** X24.  The templates page comes to rest on the right list.  After any
    sequence of events since the page opened, with replies arriving in any
    order, the state the page rests in shows what the search gives for the
    current query on the templates last loaded; each event ends on such a
    render.  The render before that can be out of step: right after a
    reload it shows every template of the reply whatever the query, and
    right after typing it still shows the list of the query before. *)
Theorem shown_templates_follow_the_search (events : list Templates.Event)
    (e : Templates.Event) :
  let s := Templates.run events Templates.initial in
  Spec.search_applied s
  /\ List.last (Templates.renders e s) s = Templates.handle e s
  /\ Spec.search_applied (Templates.handle e s)
  /\ (forall data,
        Templates.filteredTemplates
          (Templates.commit (Templates.TemplatesSettled (Js.Resolve data)) s)
        = Types.templates data)
  /\ (forall value,
        Templates.filteredTemplates
          (Templates.commit (Templates.Search value) s)
        = Templates.filteredTemplates s).
Proof.
  intros s.
  assert (Hfixed : Templates.search_effect s = s).
  { subst s.
    assert (Hstart : Templates.search_effect Templates.initial
                     = Templates.initial) by reflexivity.
    revert Hstart. generalize Templates.initial.
    induction events as [|e0 rest IH]; intros s Hs; [exact Hs|].
    apply IH, handle_keeps_search_applied, Hs. }
  split; [apply search_applied_fixed, Hfixed|].
  split.
  { unfold Templates.renders, Templates.handle.
    destruct (Templates.search_effect_due e s); reflexivity. }
  split; [apply search_applied_fixed, handle_keeps_search_applied, Hfixed|].
  split; reflexivity.
Qed.

(** ** The stepwise draft page *)

Lemma handle_keeps_step_invariant (e : Stepwise.Event)
    (s : Stepwise.State) :
  Spec.step_invariant s -> Spec.step_invariant (Stepwise.handle e s).
Proof.
  unfold Spec.step_invariant.
  destruct e as [value| |userQuery [result|err]|templateId|[result|err]
                |variableName value| |[result|err]| ];
    cbn [Stepwise.handle].
  - exact id.
  - unfold Stepwise.handleStartMatching.
    destruct (negb _); [exact id|]. intros _. exact I.
  - intros _. unfold Stepwise.handleStartMatching_settled.
    destruct (Types.found result); [|exact I].
    destruct (Types.top_match result) as [top_match|]; [|exact I].
    destruct (Types.alternatives result) as [|alt alts] eqn:Halts;
      [exact I|].
    cbn. split; [eexists; reflexivity|discriminate].
  - intros _. exact I.
  - intros _. exact I.
  - exact id.
  - intros _. exact I.
  - exact id.
  - intros Hinv. unfold Stepwise.handleGenerateDraft.
    destruct (Js.or_null (Stepwise.selectedTemplateId s)) eqn:Hselected;
      [|rewrite Hselected; exact Hinv].
    cbn. rewrite Hselected. discriminate.
  - intros _. cbn. eexists; reflexivity.
  - intros _. exact I.
  - intros _. exact I.
Qed.

(** X25.  Each step of the stepwise page has what it renders from, after
    any sequence of events since the page opened and with replies arriving
    in any order: at the result step a draft is present, at the selection
    step a top match and at least one alternative are present, and during
    generation a template is selected. *)
Theorem steps_have_what_they_render (events : list Stepwise.Event) :
  Spec.step_invariant (Stepwise.run events Stepwise.initial).
Proof.
  assert (Hstart : Spec.step_invariant Stepwise.initial) by exact I.
  revert Hstart. generalize Stepwise.initial.
  induction events as [|e rest IH]; intros s Hs; [exact Hs|].
  apply IH, handle_keeps_step_invariant, Hs.
Qed.

(** X26.  On the stepwise page the reply to a match decides the next
    request.  When the backend answers with a found top match, the page
    asks for that template's questions by itself, with the query of the
    click, exactly when the reply has no alternatives; otherwise it makes
    no further call and waits at the selection step. *)
Theorem lone_match_asks_for_questions
    (apiClient : Api.AxiosInstance Types.TemplateMatchResponseBody)
    (status : Z) (envelope : Types.APIResponse Types.TemplateMatchResponseBody)
    (result : Types.TemplateMatchResponseBody)
    (top_match : Types.TemplateMatch) (s : Stepwise.State) :
  Spec.replies apiClient status envelope ->
  Types.error envelope = false ->
  Types.body envelope = Some result ->
  Types.found result = true ->
  Types.top_match result = Some top_match ->
  Js.trim (Stepwise.userQuery s) <> "" ->
  let query := Stepwise.userQuery s in
  let s' := Stepwise.handleStartMatching_settled query
              (Api.matchTemplate apiClient query)
              (Stepwise.handleStartMatching s) in
  Stepwise.topMatch s' = Some top_match
  /\ match Types.alternatives result with
     | [] =>
         Stepwise.calls s'
         = Stepwise.calls s
           ++ [Stepwise.call_matchTemplate query;
               Stepwise.call_getQuestions (Types.template_id top_match)
                                          query]
         /\ Stepwise.step s' = Stepwise.step_questions
         /\ Stepwise.selectedTemplateId s'
            = Some (Types.template_id top_match)
     | _ :: _ =>
         Stepwise.calls s'
         = Stepwise.calls s ++ [Stepwise.call_matchTemplate query]
         /\ Stepwise.step s' = Stepwise.step_select_template
         /\ Stepwise.selectedTemplateId s' = Stepwise.selectedTemplateId s
     end.
Proof.
  intros Hreplies Herror Hbody Hfound Htop Hquery query s'. subst s'.
  assert (Hreply : Api.matchTemplate apiClient query = Js.Resolve result).
  { unfold Api.matchTemplate, Api.handleResponse. rewrite Hreplies.
    cbn [Js.await Api.data]. rewrite Herror, Hbody. reflexivity. }
  rewrite Hreply. subst query.
  unfold Stepwise.handleStartMatching, Js.truthy_string.
  destruct (decide (Js.trim (Stepwise.userQuery s) = ""));
    [contradiction|].
  unfold Stepwise.handleStartMatching_settled. rewrite Hfound, Htop.
  destruct (Types.alternatives result) as [|alt alts].
  - change (Z.of_nat (length (@nil Types.TemplateMatch)) >? 0) with false.
    cbn. rewrite <- app_assoc. cbn. tauto.
  - assert (Hsome : (Z.of_nat (length (alt :: alts)) >? 0) = true)
      by (apply Z.gtb_lt; cbn [length]; lia).
    rewrite Hsome. cbn. tauto.
Qed.

Lemma lone_match_asks_for_questions_witness :
  let top := Types.mkTemplateMatch "tpl_7" "Lease" 1%float "best" None None
                                   None "database" None in
  let result := Types.mkTemplateMatchResponseBody (Some top) [] true None in
  let envelope := Types.mkAPIResponse false "ok" (Some result) in
  let s := Stepwise.setUserQuery "a lease" Stepwise.initial in
  Stepwise.step
    (Stepwise.handleStartMatching_settled "a lease"
       (Api.matchTemplate (Spec.always 200 envelope) "a lease")
       (Stepwise.handleStartMatching s))
  = Stepwise.step_questions.
Proof.
  intros top result envelope s.
  pose proof (lone_match_asks_for_questions (Spec.always 200 envelope) 200
                envelope result top s (fun _ => eq_refl) eq_refl eq_refl
                eq_refl eq_refl ltac:(vm_compute; discriminate))
    as [_ Hnext].
  subst result. cbn [Types.alternatives] in Hnext.
  destruct Hnext as [_ [Hstep _]]. exact Hstep.
Defined.

(** ** The dashboard *)

Section DashboardFacts.
Variable encodeURIComponent : string -> string.

Lemma handle_keeps_draft_mode (e : Dashboard.Event) (s : Dashboard.State) :
  (Dashboard.inputMode s <> Dashboard.upload ->
   Dashboard.inputMode (Dashboard.handle encodeURIComponent e s)
   <> Dashboard.upload)
  /\ (Dashboard.inputMode s = Dashboard.draft ->
      Dashboard.inputMode (Dashboard.handle encodeURIComponent e s)
      = Dashboard.draft).
Proof.
  assert (Hcases :
    Dashboard.inputMode (Dashboard.handle encodeURIComponent e s)
    = Dashboard.inputMode s
    \/ Dashboard.inputMode (Dashboard.handle encodeURIComponent e s)
       = Dashboard.draft).
  { destruct e as [key shiftKey|value| |[|]|[file|]| | |key tagName|card];
      cbn [Dashboard.handle]; [..|left; reflexivity].
    - unfold Dashboard.handleKeyPress, Dashboard.handleChatSubmit.
      repeat match goal with
             | |- context [if ?b then _ else _] => destruct b
             | |- context [match ?l with [] => _ | _ :: _ => _ end] =>
                 destruct l as [|[|] ?]
             end; cbn; tauto.
    - unfold Dashboard.handleInputChange.
      repeat match goal with
             | |- context [if ?b then _ else _] => destruct b
             end; cbn; tauto.
    - unfold Dashboard.handleChatSubmit.
      destruct (Js.truthy_string _); cbn; tauto.
    - right. reflexivity.
    - left. reflexivity.
    - left. reflexivity.
    - left. reflexivity.
    - unfold Dashboard.handleFileUpload.
      destruct (Dashboard.selectedFile s); cbn; tauto.
    - left. reflexivity.
    - unfold Dashboard.handleGlobalKeyPress.
      destruct (_ && _); cbn; tauto. }
  destruct Hcases as [Hsame|Hdraft].
  - rewrite Hsame. tauto.
  - rewrite Hdraft. split; [discriminate|reflexivity].
Qed.

Lemma handle_pushes (e : Dashboard.Event) (s : Dashboard.State) :
  exists added,
    Dashboard.pushed (Dashboard.handle encodeURIComponent e s)
    = Dashboard.pushed s ++ added
    /\ Forall (Spec.dashboard_address encodeURIComponent) added.
Proof.
  assert (Hsubmit : forall s,
    exists added,
      Dashboard.pushed (Dashboard.handleChatSubmit encodeURIComponent s)
      = Dashboard.pushed s ++ added
      /\ Forall (Spec.dashboard_address encodeURIComponent) added).
  { intros s0. unfold Dashboard.handleChatSubmit, Js.truthy_string.
    destruct (decide (Js.trim (Dashboard.userQuery s0) = "")) as [Hq|Hq].
    - exists []. rewrite app_nil_r. split; [reflexivity|constructor].
    - eexists [_]. split; [reflexivity|].
      constructor; [|constructor]. right; right; right.
      exists (Dashboard.userQuery s0). split; [exact Hq|reflexivity]. }
  assert (Hnone : forall s', Dashboard.pushed s' = Dashboard.pushed s ->
    exists added,
      Dashboard.pushed s' = Dashboard.pushed s ++ added
      /\ Forall (Spec.dashboard_address encodeURIComponent) added).
  { intros s' Hs'. exists []. rewrite app_nil_r.
    split; [exact Hs'|constructor]. }
  assert (Hpage : forall s' card,
    Dashboard.pushed s' = Dashboard.pushed s ++ [Dashboard.href card] ->
    exists added,
      Dashboard.pushed s' = Dashboard.pushed s ++ added
      /\ Forall (Spec.dashboard_address encodeURIComponent) added).
  { intros s' card Hs'. exists [Dashboard.href card]. split; [exact Hs'|].
    constructor; [|constructor]. unfold Spec.dashboard_address.
    destruct card; cbn; tauto. }
  assert (Hupload : forall s',
    Dashboard.pushed s' = Dashboard.pushed s ++ ["/upload"] ->
    exists added,
      Dashboard.pushed s' = Dashboard.pushed s ++ added
      /\ Forall (Spec.dashboard_address encodeURIComponent) added)
    by (intros s'; apply (Hpage s' Dashboard.card_upload)).
  destruct e as [key shiftKey|value| |[|]|[file|]| | |key tagName|card];
    cbn [Dashboard.handle].
  - unfold Dashboard.handleKeyPress.
    destruct (_ && _ && _).
    + destruct (Dashboard.showCommands s).
      * destruct (List.filter _ _) as [|[|] rest];
          [apply Hnone|apply Hnone|apply Hupload]; reflexivity.
      * destruct (Js.truthy_string _); [apply Hsubmit|apply Hnone].
        reflexivity.
    + destruct (bool_decide _); apply Hnone; reflexivity.
  - unfold Dashboard.handleInputChange.
    destruct (_ || _); [|apply Hnone; reflexivity].
    destruct (bool_decide (Js.trim value = "/upload"));
      [apply Hupload; reflexivity|].
    destruct (bool_decide _); apply Hnone; reflexivity.
  - apply Hsubmit.
  - apply Hnone. reflexivity.
  - apply Hupload. reflexivity.
  - apply Hnone. reflexivity.
  - apply Hnone. reflexivity.
  - unfold Dashboard.handleFileUpload.
    destruct (Dashboard.selectedFile s);
      [apply Hupload|apply Hnone]; reflexivity.
  - apply Hnone. reflexivity.
  - unfold Dashboard.handleGlobalKeyPress.
    destruct (_ && _); apply Hnone; reflexivity.
  - apply (Hpage _ card). reflexivity.
Qed.

End DashboardFacts.

(** X27.  The dashboard never shows its upload panel, and its draft mode
    is final: from the opening state no sequence of events reaches the
    [upload] input mode; once in [draft] mode the page stays there, and
    there a key press other than Escape changes nothing, Enter included. *)
Theorem draft_mode_is_final (encodeURIComponent : string -> string)
    (events : list Dashboard.Event) :
  Dashboard.inputMode
    (Dashboard.run encodeURIComponent events Dashboard.initial)
  <> Dashboard.upload
  /\ forall s,
       Dashboard.inputMode s = Dashboard.draft ->
       Dashboard.inputMode (Dashboard.run encodeURIComponent events s)
       = Dashboard.draft
       /\ forall key shiftKey,
            key <> "Escape" ->
            Dashboard.handleKeyPress encodeURIComponent key shiftKey s = s.
Proof.
  split; [|intros s Hdraft; split].
  - assert (Hstart : Dashboard.inputMode Dashboard.initial
                     <> Dashboard.upload) by discriminate.
    revert Hstart. generalize Dashboard.initial.
    induction events as [|e rest IH]; intros s Hs; [exact Hs|].
    apply IH, handle_keeps_draft_mode, Hs.
  - revert s Hdraft.
    induction events as [|e rest IH]; intros s Hs; [exact Hs|].
    apply IH, handle_keeps_draft_mode, Hs.
  - intros key shiftKey Hkey. unfold Dashboard.handleKeyPress.
    rewrite Hdraft, andb_false_r.
    case_bool_decide; [contradiction|reflexivity].
Qed.

Lemma draft_mode_is_final_witness :
  let enc := fun q : string => q in
  let s := Dashboard.handleInputChange "/draft" Dashboard.initial in
  Dashboard.handleKeyPress enc "Enter" false
    (Dashboard.handleInputChange "a lease" s)
  = Dashboard.handleInputChange "a lease" s.
Proof.
  intros enc s.
  destruct (draft_mode_is_final enc [Dashboard.InputChange "a lease"])
    as [_ Hdraft].
  destruct (Hdraft s) as [Hstays Hkeys]; [reflexivity|].
  destruct (draft_mode_is_final enc [])
    as [_ Hdraft'].
  destruct (Hdraft' (Dashboard.handleInputChange "a lease" s))
    as [_ Hkeys']; [exact Hstays|].
  apply Hkeys'. discriminate.
Defined.

(** X28.  The dashboard navigates to four kinds of address only.  Whatever
    the events (keys, typing, the send button, a command, the file buttons
    or one of the three action cards), each address the page navigates to
    is [/upload], [/chat] or [/templates] as such, or [/chat?query=]
    followed by the encoding of a query that is not blank. *)
Theorem dashboard_navigates_with_a_query
    (encodeURIComponent : string -> string)
    (events : list Dashboard.Event) (s : Dashboard.State) :
  exists added,
    Dashboard.pushed (Dashboard.run encodeURIComponent events s)
    = Dashboard.pushed s ++ added
    /\ Forall (Spec.dashboard_address encodeURIComponent) added.
Proof.
  revert s. induction events as [|e rest IH]; intros s.
  - exists []. rewrite app_nil_r. split; [reflexivity|constructor].
  - destruct (handle_pushes encodeURIComponent e s)
      as [first [Hfirst Hok]].
    destruct (IH (Dashboard.handle encodeURIComponent e s))
      as [more [Hmore Hoks]].
    exists (first ++ more). split.
    + change (Dashboard.run encodeURIComponent (e :: rest) s)
        with (Dashboard.run encodeURIComponent rest
                (Dashboard.handle encodeURIComponent e s)).
      rewrite Hmore, Hfirst, app_assoc. reflexivity.
    + apply Forall_app. split; assumption.
Qed.

(** ** Downloads *)

Lemma no_white_space_app (a b : string) :
  Spec.no_white_space (a +:+ b)
  = Spec.no_white_space a && Spec.no_white_space b.
Proof.
  induction a as [|c r IH]; [reflexivity|].
  change (String c r +:+ b) with (String c (r +:+ b)).
  cbn [Spec.no_white_space]. rewrite IH. apply andb_assoc.
Qed.

Lemma replace_white_space_clean (in_run : bool) (s : string) :
  Spec.no_white_space (Js.replace_white_space_from in_run s) = true.
Proof.
  revert in_run. induction s as [|c r IH]; intros in_run; [reflexivity|].
  cbn [Js.replace_white_space_from].
  destruct (Js.is_white_space c) eqn:Hc.
  - destruct in_run; [apply IH|]. cbn [Spec.no_white_space].
    rewrite IH. reflexivity.
  - cbn [Spec.no_white_space]. rewrite Hc, IH. reflexivity.
Qed.

Lemma download_name_clean (title extension : string) :
  Spec.no_white_space extension = true ->
  Spec.no_white_space (Js.replace_white_space title +:+ extension) = true.
Proof.
  intros Hext. rewrite no_white_space_app, Hext.
  unfold Js.replace_white_space. rewrite replace_white_space_clean.
  reflexivity.
Qed.

(** X29.  The name of a downloaded file holds no white space, whatever the
    title of the template: on the chat page in each of the three formats,
    on the stepwise page, and for the JSON file of the templates page. *)
Theorem download_names_hold_no_white_space :
  (forall format s saved,
     Chat.handleDownload format s = Some saved ->
     Spec.no_white_space (Spec.saved_name saved) = true)
  /\ (forall s name content,
        Stepwise.handleDownload s = Some (name, content) ->
        Spec.no_white_space name = true)
  /\ (forall template,
        Spec.no_white_space (Templates.handleDownloadTemplate template)
        = true).
Proof.
  split; [|split].
  - intros format s saved. unfold Chat.handleDownload.
    destruct (Chat.draft s) as [draft|]; [|discriminate].
    intros Hsaved. injection Hsaved as <-.
    destruct format; cbn [Spec.saved_name];
      apply download_name_clean; reflexivity.
  - intros s name content. unfold Stepwise.handleDownload.
    destruct (Stepwise.draft s) as [draft|]; [|discriminate].
    intros Hsaved. injection Hsaved as <- _.
    apply download_name_clean. reflexivity.
  - intros template. apply download_name_clean. reflexivity.
Qed.

Lemma download_names_hold_no_white_space_witness :
  let draft := Types.mkGenerateDraftResponseBody "# Lease" 1%float "tpl_7"
                 "Lease  Agreement" [] false in
  let s := Chat.setDraft (Some draft) Chat.initial in
  Spec.no_white_space
    (Spec.saved_name (Chat.save_markdown "Lease_Agreement.md" "# Lease"))
  = true.
Proof.
  intros draft s.
  destruct download_names_hold_no_white_space as [Hchat _].
  apply (Hchat Chat.md s). vm_compute. reflexivity.
Defined.

Lemma table_rows_after (lines : list string) :
  (length (Chat.table_rows lines).2 <= length lines)%nat.
Proof.
  induction lines as [|raw rest IH]; [reflexivity|].
  cbn [Chat.table_rows].
  destruct (Js.startsWith (Js.trim raw) "|"); [|reflexivity].
  destruct (Chat.table_rows rest) as [rows after]. cbn in IH |- *. lia.
Qed.

(** The loop of [convertMarkdownToDocx] ends within as many turns as there
    are lines: more fuel than that changes nothing. *)
Lemma convert_lines_fuel (fuel fuel' : nat) (lines : list string) :
  (length lines <= fuel)%nat -> (length lines <= fuel')%nat ->
  Chat.convert_lines fuel lines = Chat.convert_lines fuel' lines.
Proof.
  revert fuel' lines.
  induction fuel as [|fuel IH]; intros fuel' lines Hfuel Hfuel'.
  - destruct lines; [|cbn in Hfuel; lia]. destruct fuel'; reflexivity.
  - destruct lines as [|raw rest]; [destruct fuel'; reflexivity|].
    destruct fuel' as [|fuel']; [cbn in Hfuel'; lia|].
    cbn [length] in Hfuel, Hfuel'.
    cbn [Chat.convert_lines Chat.table_rows].
    destruct (Js.startsWith (Js.trim raw) "#");
      [rewrite (IH fuel' rest) by lia; reflexivity|].
    destruct (Js.startsWith (Js.trim raw) "|") eqn:Hbar; cbn [andb].
    + destruct (Js.includes (Js.trim raw) "|").
      * pose proof (table_rows_after rest) as Hafter.
        destruct (Chat.table_rows rest) as [rows after]. cbn in Hafter.
        rewrite (IH fuel' after) by lia. reflexivity.
      * rewrite (IH fuel' rest) by lia. reflexivity.
    + rewrite (IH fuel' rest) by lia. reflexivity.
Qed.

Lemma starts_with_truthy (line p : string) :
  p <> "" -> Js.startsWith line p = true -> Js.truthy_string line = true.
Proof.
  intros Hp Hline. destruct line; [|reflexivity].
  destruct p; [contradiction|discriminate].
Qed.

Lemma digits_then_dot_truthy (seen : bool) (line : string) :
  Js.digits_then_dot seen line = true -> Js.truthy_string line = true.
Proof. destruct line; [discriminate|reflexivity]. Qed.

Lemma convert_plain_lines (lines : list string) (fuel : nat) :
  (length lines <= fuel)%nat ->
  Forall (fun raw => Spec.plain_line raw = true) lines ->
  Chat.convert_lines fuel lines
  = Spec.plain_paragraph
      <$> List.filter Js.truthy_string (Js.trim <$> lines).
Proof.
  revert fuel. induction lines as [|raw rest IH]; intros fuel Hfuel Hplain.
  - destruct fuel; reflexivity.
  - destruct fuel as [|fuel]; [cbn in Hfuel; lia|].
    apply Forall_cons in Hplain as [Hraw Hrest].
    unfold Spec.plain_line in Hraw.
    apply andb_true_iff in Hraw as [Hhash Hbar].
    apply negb_true_iff in Hhash, Hbar.
    cbn [Chat.convert_lines fmap list_fmap List.filter].
    rewrite Hhash, Hbar. cbn [andb].
    rewrite (IH fuel) by (try assumption; cbn in Hfuel; lia).
    destruct (Js.startsWith (Js.trim raw) "*") eqn:Hstar; cbn [orb].
    + rewrite (starts_with_truthy _ "*") by (try discriminate; exact Hstar).
      rewrite fmap_cons. f_equal. unfold Spec.plain_paragraph.
      rewrite Hstar. reflexivity.
    + destruct (Js.digits_then_dot false (Js.trim raw)) eqn:Hdigits.
      * rewrite (digits_then_dot_truthy _ _ Hdigits).
        rewrite fmap_cons. f_equal. unfold Spec.plain_paragraph.
        rewrite Hstar, Hdigits. reflexivity.
      * destruct (Js.truthy_string (Js.trim raw)); [|reflexivity].
        rewrite fmap_cons. f_equal. unfold Spec.plain_paragraph.
        rewrite Hstar, Hdigits. reflexivity.
Qed.

(** X30.  A draft without headings and tables goes into the .docx line by
    line: when no line, once trimmed, starts with a hash or a bar, the
    document has one paragraph for each line that is not blank, in order,
    with the trimmed line as its text, not bold, and closer spacing for
    list items. *)
Theorem plain_text_keeps_its_lines (markdown : string) :
  Forall (fun raw => Spec.plain_line raw = true)
         (Js.split_newline markdown) ->
  Chat.convertMarkdownToDocx markdown
  = Spec.plain_paragraph
      <$> List.filter Js.truthy_string
            (Js.trim <$> Js.split_newline markdown).
Proof.
  intros Hplain. unfold Chat.convertMarkdownToDocx.
  apply convert_plain_lines; [lia|exact Hplain].
Qed.

Lemma plain_text_keeps_its_lines_witness :
  Chat.convertMarkdownToDocx
    (String "D" (String "e" (String "a" (String "r"
       (String Js.newline (String Js.newline
          (String "*" (String " " (String "a" EmptyString)))))))))
  = [Spec.plain_paragraph "Dear"; Spec.plain_paragraph "* a"].
Proof.
  rewrite plain_text_keeps_its_lines.
  - vm_compute. reflexivity.
  - vm_compute. repeat constructor.
Defined.

Lemma convert_lone_row (fuel : nat) (row next : string)
    (lines : list string) :
  Spec.table_line row = true ->
  Spec.table_line next = false ->
  Chat.convert_lines (S fuel) (row :: next :: lines)
  = Chat.convert_lines fuel (next :: lines).
Proof.
  unfold Spec.table_line. intros Hrow Hnext.
  assert (Hhash : Js.startsWith (Js.trim row) "#" = false).
  { pose proof Hrow as Hline. apply prefix_spec in Hline as [post Hline].
    rewrite Hline. reflexivity. }
  assert (Hbar : Js.includes (Js.trim row) "|" = true).
  { apply includes_spec. apply prefix_spec in Hrow as [post Hline].
    exists "", post. exact Hline. }
  cbn [Chat.convert_lines].
  rewrite Hhash, Hrow, Hbar. cbn [andb].
  cbn [Chat.table_rows]. rewrite Hrow, Hnext.
  unfold Chat.table_paragraphs.
  destruct (0 <? Z.of_nat (length (Chat.table_cells row))); reflexivity.
Qed.

(** X21.  A table of one row is left out of the .docx: a line that starts
    a table row and is followed by a line that does not adds nothing to
    the document, which is that of the rest of the draft. *)
Theorem lone_table_row_is_dropped (row rest : string) :
  Spec.single_line row = true ->
  Spec.table_line row = true ->
  Spec.table_line (List.hd "" (Js.split_newline rest)) = false ->
  Chat.convertMarkdownToDocx (row +:+ String Js.newline rest)
  = Chat.convertMarkdownToDocx rest.
Proof.
  intros Hsingle Hrow Hnext. unfold Chat.convertMarkdownToDocx.
  rewrite (split_newline_line row rest Hsingle).
  pose proof (split_newline_nonempty rest) as Hlines.
  destruct (Js.split_newline rest) as [|next lines]; [contradiction|].
  apply convert_lone_row; assumption.
Qed.

Lemma lone_table_row_is_dropped_witness :
  Chat.convertMarkdownToDocx
    (String "|" (String "a" (String "|" (String Js.newline
       (String "b" EmptyString)))))
  = Chat.convertMarkdownToDocx "b".
Proof.
  apply (lone_table_row_is_dropped "|a|" "b"); reflexivity.
Defined.
